(** * Productivity Coach: the personalization profile engine

    A shallow embedding of [ai_config.py], [onboarding.py],
    [database.py] and the session logic of [app.py], followed by the
    properties proved about them.

    Python dictionaries with string keys are finite maps ([gmap string _]),
    Python values are the JSON data model ([json]), exceptions are the
    [Raise] outcome of the [result] monad, and the SQLite tables are lists of
    rows in rowid order.  Functions of Python's standard library that the
    source calls ([str], [json.loads], [json.dumps]) and the two external
    capabilities (the chat completion call and the wall clock) are arguments
    of the definitions that use them. *)

From Stdlib Require Import ZArith QArith String Ascii List Bool Lia.
From Stdlib Require Import OrderedTypeEx.
From stdpp Require Import base option gmap strings pretty list sorting.

#[local] Set Warnings "-register-all".
#[local] Open Scope Z_scope.
#[local] Open Scope string_scope.

(* ===================================================================== *)
(** * Python values, exceptions and built-ins *)
(* ===================================================================== *)

Module Python.

(** The values that flow through the engine: what [json.loads] can return
    and what the questionnaire stores.  A [dict] keeps string keys only. *)
Inductive json : Type :=
  | JNull
  | JBool (b : bool)
  | JNum (n : Z)
  | JFloat (q : Q)
  | JStr (s : string)
  | JList (l : list json)
  | JObj (m : gmap string json).

(** The exceptions that occur; [TransportError] stands for whatever the
    completion call raises (transport, authentication, rate limit). *)
Inductive exn : Set :=
  | TypeError
  | AttributeError
  | KeyError
  | JSONDecodeError
  | OverflowError
  | UnboundLocalError
  | TransportError.

Inductive result (A : Type) : Type :=
  | Ok (a : A)
  | Raise (e : exn).
Arguments Ok {A} a.
Arguments Raise {A} e.

#[global] Instance result_ret : MRet result := fun _ a => Ok a.
#[global] Instance result_bind : MBind result := fun _ _ f m =>
  match m with
  | Ok a => f a
  | Raise e => Raise e
  end.

#[global] Instance result_fmap : FMap result := fun _ _ f m =>
  match m with
  | Ok a => Ok (f a)
  | Raise e => Raise e
  end.

Definition is_ok {A} (r : result A) : bool :=
  match r with Ok _ => true | Raise _ => false end.

(** [d.get(key, default)] *)
Definition dict_get {V} (d : gmap string V) (key : string) (dflt : V) : V :=
  default dflt (d !! key).

(** [key in d] *)
Definition contains {V} (d : gmap string V) (key : string) : bool :=
  bool_decide (is_Some (d !! key)).

(** [d[key]], raising [KeyError] on a missing key. *)
Definition subscript {V} (d : gmap string V) (key : string) : result V :=
  match d !! key with
  | Some v => Ok v
  | None => Raise KeyError
  end.

(** Truth value of an optional dict: [None] and [{}] are falsy. *)
Definition truthy_dict {V} (d : option (gmap string V)) : bool :=
  match d with
  | None => false
  | Some m => negb (bool_decide (m = ∅))
  end.

Definition isinstance_list (v : json) : bool :=
  match v with JList _ => true | _ => false end.

Definition isinstance_str (v : json) : bool :=
  match v with JStr _ => true | _ => false end.

(** Lists and dicts are unhashable; using one as a dict key raises. *)
Definition hashable (v : json) : bool :=
  match v with JList _ | JObj _ => false | _ => true end.

Definition nl : string := String "010"%char "".
Definition dq : string := String "034"%char "".

(** A text given line by line: the lines separated by newlines. *)
Fixpoint text (lines : list string) : string :=
  match lines with
  | [] => ""
  | [l] => l
  | l :: rest => l +:+ nl +:+ text rest
  end.

(** [sep.join(items)]: every item must be a [str]. *)
Fixpoint join (sep : string) (items : list json) : result string :=
  match items with
  | [] => Ok ""
  | JStr s :: rest =>
      match rest with
      | [] => Ok s
      | _ => tl ← join sep rest; Ok (s +:+ sep +:+ tl)
      end
  | _ :: _ => Raise TypeError
  end.

(** The code points of a UTF-8 text, as Python iterates over a [str]:
    a byte [10xxxxxx] continues the code point before it. *)
Definition continuation (c : ascii) : bool :=
  let n := Z.of_nat (nat_of_ascii c) in
  ((128 <=? n) && (n <? 192))%Z.

Fixpoint code_points_from (cur : string) (s : string) : list string :=
  match s with
  | EmptyString => [cur]
  | String c rest =>
      if continuation c then code_points_from (cur +:+ String c "") rest
      else cur :: code_points_from (String c "") rest
  end.

Definition code_points (s : string) : list string :=
  match s with
  | EmptyString => []
  | String c rest => code_points_from (String c "") rest
  end.

(** [v += s] for a [str] operand [s]: concatenation on a [str], extension
    by the characters of [s] on a [list] (in place: the list object
    itself grows), [TypeError] on anything else. *)
Definition iadd_str (v : json) (s : string) : result json :=
  match v with
  | JStr a => Ok (JStr (a +:+ s))
  | JList l => Ok (JList (l ++ (JStr <$> code_points s)))
  | _ => Raise TypeError
  end.

(** A text is kept as the bytes of its UTF-8 encoding. *)
Definition utf8 (bytes : list nat) : string :=
  fold_right (fun b s => String (ascii_of_nat b) s) "" bytes.

(** The characters that [str.strip()] removes, those for which
    [str.isspace()] holds: U+0009 to U+000D, U+001C to U+0020, U+0085,
    U+00A0, U+1680, U+2000 to U+200A, U+2028, U+2029, U+202F, U+205F and
    U+3000. *)
Definition space_characters : list string :=
  utf8 <$>
    [[0x09]; [0x0A]; [0x0B]; [0x0C]; [0x0D]; [0x1C]; [0x1D]; [0x1E]; [0x1F]; [0x20];
     [0xC2; 0x85]; [0xC2; 0xA0]; [0xE1; 0x9A; 0x80];
     [0xE2; 0x80; 0x80]; [0xE2; 0x80; 0x81]; [0xE2; 0x80; 0x82]; [0xE2; 0x80; 0x83];
     [0xE2; 0x80; 0x84]; [0xE2; 0x80; 0x85]; [0xE2; 0x80; 0x86]; [0xE2; 0x80; 0x87];
     [0xE2; 0x80; 0x88]; [0xE2; 0x80; 0x89]; [0xE2; 0x80; 0x8A];
     [0xE2; 0x80; 0xA8]; [0xE2; 0x80; 0xA9]; [0xE2; 0x80; 0xAF]; [0xE2; 0x81; 0x9F];
     [0xE3; 0x80; 0x80]]%nat.

(** [ch.isspace()] for the bytes [ch] of one character. *)
Definition isspace (ch : string) : bool := existsb (String.eqb ch) space_characters.

(** [s.lstrip()]: the characters at the front are removed as long as they
    are spaces; one takes one, two or three bytes. *)
Fixpoint lstrip (s : string) : string :=
  match s with
  | String a rest1 =>
      if isspace (String a "") then lstrip rest1
      else match rest1 with
           | String b rest2 =>
               if isspace (String a (String b "")) then lstrip rest2
               else match rest2 with
                    | String c rest3 =>
                        if isspace (String a (String b (String c ""))) then lstrip rest3
                        else s
                    | EmptyString => s
                    end
           | EmptyString => s
           end
  | EmptyString => EmptyString
  end.

(** [s.rstrip()]: a byte is dropped when, with what is kept after it, it
    makes up a space, so when only spaces follow its character. *)
Fixpoint rstrip (s : string) : string :=
  match s with
  | EmptyString => EmptyString
  | String c rest =>
      let kept := String c (rstrip rest) in
      if isspace kept then EmptyString else kept
  end.

Definition strip (s : string) : string := rstrip (lstrip s).

(** [s.startswith(p)] *)
Definition startswith (s p : string) : bool := String.prefix p s.


(** [s[n:]], where the first [n] characters are ASCII. *)
Fixpoint drop_chars (n : nat) (s : string) : string :=
  match n, s with
  | O, _ => s
  | S n', String _ rest => drop_chars n' rest
  | S _, EmptyString => EmptyString
  end.

(** The text before the first occurrence of [sep], or all of [s]. *)
Fixpoint before (sep : string) (s : string) : string :=
  match s with
  | EmptyString => EmptyString
  | String c rest =>
      if String.prefix sep s then EmptyString else String c (before sep rest)
  end.

(** [f"{v}"]: a [str] is inserted as it is, any other value through the
    built-in [str], which is an argument of the model. *)
Definition format (py_str : json -> string) (v : json) : string :=
  match v with
  | JStr s => s
  | _ => py_str v
  end.

End Python.
Import Python.

(* ===================================================================== *)
(** * ai_config.py: the feature catalog and the configuration resolver *)
(* ===================================================================== *)

Module ai_config.

Definition MODELS : gmap string string := list_to_map [
  ("daily_planning", "llama-3.3-70b-versatile");
  ("weekly_review", "llama-3.1-70b-versatile");
  ("quick_task", "llama-3.1-8b-instant");
  ("motivational", "llama-3.1-8b-instant");
  ("onboarding", "llama-3.3-70b-versatile")
].

(** The decimal literals of the source, as the rationals they denote. *)
Definition TEMPERATURES : gmap string Q := list_to_map [
  ("daily_planning", 4 # 10);
  ("weekly_review", 8 # 10);
  ("quick_task", 5 # 10);
  ("motivational", 11 # 10);
  ("onboarding", 7 # 10)
]%Q.

Definition MAX_TOKENS : gmap string Z := list_to_map [
  ("daily_planning", 500);
  ("weekly_review", 600);
  ("quick_task", 150);
  ("motivational", 200);
  ("onboarding", 800)
].

Definition DEFAULT_SYSTEM_MESSAGES : gmap string string := list_to_map [
  ("daily_planning", text [
    "You are an Islamic productivity coach specializing in time management for busy individuals.";
    "";
    "Your responses should:";
    "- Create realistic, time-blocked schedules";
    "- Prioritize spiritual growth (Quran, prayer times)";
    "- Acknowledge real-world constraints";
    "- Be encouraging and practical";
    "- Format as a clear schedule with times"]);
  ("weekly_review", text [
    "You are a reflective productivity coach analyzing weekly progress.";
    "";
    "Your responses should:";
    "- Start by celebrating wins (even small ones)";
    "- Identify patterns in productivity";
    "- Suggest 2-3 specific adjustments for next week";
    "- Be constructive and encouraging, never critical";
    "- Reference principles of continuous improvement"]);
  ("quick_task", text [
    "You are a helpful productivity assistant for quick questions.";
    "";
    "Keep responses:";
    "- Brief (2-3 sentences maximum)";
    "- Immediately actionable";
    "- Positive and encouraging"]);
  ("motivational", text [
    "You are an Islamic motivational speaker focused on productivity.";
    "";
    "Provide:";
    "- A relevant Quranic verse or Hadith (with translation)";
    "- Brief reflection on its meaning for productivity";
    "- One actionable reminder";
    "- Keep total response under 100 words"])
].

(** An entry of [LANGUAGES]; the [ui_strings] table, which only
    [get_ui_string] reads, is left out. *)
Record language : Set := {
  name : string;
  code : string;
  ai_instruction : string;
  direction : string
}.

Definition LANGUAGES : gmap string language := list_to_map [
  ("en", {| name := "English"; code := "en";
            ai_instruction := "Respond in English."; direction := "ltr" |});
  ("de", {| name := "Deutsch"; code := "de";
            ai_instruction := "Antworte auf Deutsch."; direction := "ltr" |});
  ("ar", {| name := "العربية"; code := "ar";
            ai_instruction := "Respond in Arabic (العربية). Use proper Arabic script.";
            direction := "rtl" |});
  ("fr", {| name := "Français"; code := "fr";
            ai_instruction := "Répondez en français."; direction := "ltr" |})
].

(** [MODELS.get(feature, MODELS["quick_task"])]: the default is evaluated
    first, and would raise [KeyError] if the catalog lacked the entry. *)
Definition get_model (feature : string) : result string :=
  fallback ← subscript MODELS "quick_task";
  Ok (dict_get MODELS feature fallback).

Definition get_temperature (feature : string) : Q :=
  dict_get TEMPERATURES feature (7 # 10)%Q.

Definition get_max_tokens (feature : string) : Z :=
  dict_get MAX_TOKENS feature 300.

Definition get_system_message (feature : string) : result string :=
  fallback ← subscript DEFAULT_SYSTEM_MESSAGES "quick_task";
  Ok (dict_get DEFAULT_SYSTEM_MESSAGES feature fallback).

Definition get_language_instruction (language_code : string) : result string :=
  fallback ← subscript LANGUAGES "en";
  Ok (ai_instruction (dict_get LANGUAGES language_code fallback)).

(** [mapping.get(language_name, "en")]: the name is whatever the answers
    hold; an unhashable one cannot be looked up. *)
Definition get_language_code (language_name : json) : result string :=
  let mapping : gmap string string := list_to_map [
    ("English", "en");
    ("Deutsch", "de");
    ("العربية (Arabic)", "ar");
    ("Français", "fr")
  ] in
  match language_name with
  | JStr s => Ok (dict_get mapping s "en")
  | JList _ | JObj _ => Raise TypeError
  | _ => Ok "en"
  end.

(** The dict that [get_ai_config] returns, with its four keys.  The
    system message is a [str] unless the profile's override is not one. *)
Record config : Type := {
  model : string;
  temperature : Q;
  max_tokens : Z;
  system_message : json
}.

(** [value.get("language", "English")] on the profile's onboarding data,
    which has a [get] method only when it is a dict. *)
Definition onboarding_language (onboarding_data : json) : result json :=
  match onboarding_data with
  | JObj answers => Ok (dict_get answers "language" (JStr "English"))
  | _ => Raise AttributeError
  end.

Definition get_ai_config (feature : string)
    (user_profile : option (gmap string json)) : result config :=
  m ← get_model feature;
  let t := get_temperature feature in
  let k := get_max_tokens feature in
  (* Use personalized system message if available *)
  message ←
    match user_profile with
    | Some profile =>
        if truthy_dict user_profile && contains profile ("system_message_" +:+ feature)
        then subscript profile ("system_message_" +:+ feature)
        else JStr <$> get_system_message feature
    | None => JStr <$> get_system_message feature
    end;
  (* Add language instruction if user profile exists *)
  message ←
    match user_profile with
    | Some profile =>
        if truthy_dict user_profile && contains profile "onboarding_data"
        then
          onboarding_data ← subscript profile "onboarding_data";
          language ← onboarding_language onboarding_data;
          language_code ← get_language_code language;
          language_instruction ← get_language_instruction language_code;
          iadd_str message (nl +:+ nl +:+ "IMPORTANT: " +:+ language_instruction)
        else Ok message
    | None => Ok message
    end;
  Ok {| model := m; temperature := t; max_tokens := k; system_message := message |}.

(** One entry of the [messages] list of a chat request. *)
Record message : Type := { role : string; content : json }.

Definition create_messages (feature : string) (user_input : string)
    (user_profile : option (gmap string json))
    (conversation_history : option (list message)) : result (list message) :=
  cfg ← get_ai_config feature user_profile;
  let messages := [ {| role := "system"; content := system_message cfg |} ] in
  let messages :=
    match conversation_history with
    | Some ((_ :: _) as history) => (messages ++ history)%list
    | _ => messages
    end in
  Ok (messages ++ [ {| role := "user"; content := JStr user_input |} ])%list.

(** The [ui_strings] table of each entry of [LANGUAGES], under the code
    of the entry. *)
Definition UI_STRINGS : gmap string (gmap string string) := list_to_map [
  ("en", list_to_map [
     ("welcome", "Welcome to Your Productivity Coach");
     ("daily_plan", "Daily Plan");
     ("weekly_review", "Weekly Review");
     ("settings", "Settings");
     ("onboarding", "Let's Get Started")]);
  ("de", list_to_map [
     ("welcome", "Willkommen zu Deinem Produktivitäts-Coach");
     ("daily_plan", "Tagesplan");
     ("weekly_review", "Wochenrückblick");
     ("settings", "Einstellungen");
     ("onboarding", "Lass uns starten")]);
  ("ar", list_to_map [
     ("welcome", "مرحبا بك في مدرب الإنتاجية");
     ("daily_plan", "الخطة اليومية");
     ("weekly_review", "المراجعة الأسبوعية");
     ("settings", "الإعدادات");
     ("onboarding", "لنبدأ")]);
  ("fr", list_to_map [
     ("welcome", "Bienvenue dans votre coach de productivité");
     ("daily_plan", "Plan quotidien");
     ("weekly_review", "Revue hebdomadaire");
     ("settings", "Paramètres");
     ("onboarding", "Commençons")])
].

(** [get_ui_string]: the entry of the language, the English one for an
    unknown code, then [lang["ui_strings"].get(key, key)]. *)
Definition get_ui_string (language_code key : string) : result string :=
  fallback ← subscript LANGUAGES "en";
  let lang := dict_get LANGUAGES language_code fallback in
  ui_strings ← subscript UI_STRINGS (code lang);
  Ok (dict_get ui_strings key key).

End ai_config.

(* ===================================================================== *)
(** * onboarding.py: profile generation, fallback and validation *)
(* ===================================================================== *)

Module onboarding.
Import ai_config.

(** What [client.chat.completions.create] is called with. *)
Record chat_request : Type := {
  req_model : string;
  req_messages : list message;
  req_temperature : Q
}.

(** What the call does: it raises, or it returns a response whose first
    choice carries the text [content].  A response without a text makes
    the [strip] that follows raise, inside the same [try]: that is a
    [Raises] too. *)
Inductive completion : Type :=
  | Raises (e : exn)
  | Returns (content : string).

Section Generator.
(** Python's [str] on values that are not a [str] already. *)
Variable py_str : json -> string.
(** [json.loads]; [None] stands for [JSONDecodeError]. *)
Variable loads : string -> option json.

(** The goals as they are interpolated into the prompt and into the
    default instruction text. *)
Definition goals_text (goals : json) : result string :=
  match goals with
  | JList items => join ", " items
  | _ => Ok (format py_str goals)
  end.

(** [get_default_profile]; [now] is the reading of
    [datetime.now().isoformat()]. *)
Definition get_default_profile (now : string)
    (onboarding_data : gmap string json) : result (gmap string json) :=
  let language := dict_get onboarding_data "language" (JStr "English") in
  language_code ← get_language_code language;
  let role := dict_get onboarding_data "role" (JStr "individual") in
  let goals := dict_get onboarding_data "goals" (JList []) in
  goals_line ← goals_text goals;
  Ok (list_to_map [
    ("system_message_daily_planning", JStr (text [
       "You are a productivity coach for a " +:+ format py_str role +:+ ".";
       "        ";
       "Focus on these goals: " +:+ goals_line +:+ ".";
       "";
       "Provide:";
       "- Realistic time-blocked schedules";
       "- Practical, actionable advice";
       "- Encouragement and support";
       "- Clear structure with specific times"]));
    ("system_message_weekly_review", JStr (text [
       "You are a reflective productivity coach.";
       "";
       "Provide:";
       "- Celebration of wins";
       "- Pattern identification";
       "- Constructive suggestions";
       "- Encouragement for next week"]));
    ("coaching_tone", JStr "encouraging, practical");
    ("key_focus_areas",
       match goals with
       | JList items => JList (take 3 items)
       | _ => JList [JStr "productivity"; JStr "balance"; JStr "growth"]
       end);
    ("time_block_size", JNum 30);
    ("islamic_emphasis", JStr "medium");
    ("onboarding_data", JObj onboarding_data);
    ("created_at", JStr now);
    ("language_code", JStr language_code);
    ("is_default", JBool true)
  ]).

Definition build_prompt (language role goals available_time challenges
    islamic_practice motivation_style : json)
    (language_instruction : string) : result string :=
  goals_line ← goals_text goals;
  Ok (text [
    "Based on this user information, create a personalized productivity coaching profile.";
    "";
    "USER INFORMATION:";
    "- Language: " +:+ format py_str language;
    "- Role: " +:+ format py_str role;
    "- Goals: " +:+ goals_line;
    "- Available Time: " +:+ format py_str available_time;
    "- Main Challenge: " +:+ format py_str challenges;
    "- Islamic Practice Level: " +:+ format py_str islamic_practice;
    "- Motivation Style: " +:+ format py_str motivation_style;
    "";
    "TASK:";
    "Generate a JSON response with these fields:";
    "";
    "1. " +:+ dq +:+ "system_message_daily_planning" +:+ dq
      +:+ ": A personalized system message for daily planning (150-200 words)";
    "   - Should address their specific role and challenges";
    "   - Acknowledge their time constraints";
    "   - Focus on their stated goals";
    "   - Use appropriate Islamic references based on their practice level";
    "   ";
    "2. " +:+ dq +:+ "system_message_weekly_review" +:+ dq
      +:+ ": A personalized system message for weekly reviews (100-150 words)";
    "   - Should focus on their motivation style";
    "   - Encourage based on their challenges";
    "   - Reference their goals";
    "   ";
    "3. " +:+ dq +:+ "coaching_tone" +:+ dq
      +:+ ": Best coaching tone for this user (2-3 words, e.g., "
      +:+ dq +:+ "encouraging, practical" +:+ dq +:+ ")";
    "";
    "4. " +:+ dq +:+ "key_focus_areas" +:+ dq
      +:+ ": Top 3 areas to emphasize based on their goals (array of strings)";
    "";
    "5. " +:+ dq +:+ "time_block_size" +:+ dq
      +:+ ": Recommended time block size in minutes (15, 30, 45, or 60)";
    "   - Base this on their available time and role";
    "";
    "6. " +:+ dq +:+ "islamic_emphasis" +:+ dq
      +:+ ": Level of Islamic content to include ("
      +:+ dq +:+ "high" +:+ dq +:+ ", " +:+ dq +:+ "medium" +:+ dq +:+ ", "
      +:+ dq +:+ "low" +:+ dq +:+ ", " +:+ dq +:+ "minimal" +:+ dq +:+ ")";
    "   - Base this on their islamic_practice level";
    "";
    "IMPORTANT: ";
    "- " +:+ language_instruction;
    "- Respond ONLY with valid JSON";
    "- No markdown, no code blocks, just pure JSON";
    "- Make it specific to their situation"]).

(** The response text made ready for parsing: stripped, and when it
    opens with a code fence, cut down to what stands between that fence
    and the next one, without a leading [json] tag. *)
Definition unwrap_content (content : string) : string :=
  let content := strip content in
  if startswith content "```" then
    let content := before "```" (drop_chars 3 content) in
    let content :=
      if startswith content "json" then drop_chars 4 content else content in
    strip content
  else content.

(** The body of the [try] block: the local [content] as the block leaves
    it, [None] while it is unbound, and what the block returned or
    raised. *)
Definition request_profile (create : chat_request -> completion)
    (now : string) (onboarding_data : gmap string json)
    (language_code prompt : string)
    : option string * result (gmap string json) :=
  match get_model "onboarding" with
  | Raise e => (None, Raise e)
  | Ok m =>
      let request := {|
        req_model := m;
        req_messages := [
          {| role := "system";
             content := JStr "You are an expert at creating personalized productivity coaching profiles. Always respond with valid JSON only, no markdown formatting." |};
          {| role := "user"; content := JStr prompt |} ];
        req_temperature := get_temperature "onboarding" |} in
      match create request with
      | Raises e => (None, Raise e)
      | Returns content =>
          let content := unwrap_content content in
          (Some content,
           match loads content with
           | None => Raise JSONDecodeError
           | Some (JObj profile) =>
               (* item assignment works on a dict only *)
               let profile := <["onboarding_data" := JObj onboarding_data]> profile in
               let profile := <["created_at" := JStr now]> profile in
               let profile := <["language_code" := JStr language_code]> profile in
               Ok profile
           | Some _ => Raise TypeError
           end)
      end
  end.

(** [generate_user_profile].  The client is taken as constructed: the
    lookup of the API key in the environment is not part of the model.
    The handler of [JSONDecodeError] prints the first characters of
    [content]; when it was the completion call that raised the error,
    [content] is unbound there and [UnboundLocalError] leaves the
    function. *)
Definition generate_user_profile (create : chat_request -> completion)
    (now : string) (onboarding_data : gmap string json)
    : result (gmap string json) :=
  let language := dict_get onboarding_data "language" (JStr "English") in
  let role := dict_get onboarding_data "role" (JStr "individual") in
  let goals := dict_get onboarding_data "goals" (JList []) in
  let available_time := dict_get onboarding_data "available_time" (JStr "varies") in
  let challenges := dict_get onboarding_data "challenges" (JStr "general productivity") in
  let islamic_practice :=
    dict_get onboarding_data "islamic_practice" (JStr "Prefer not to say") in
  let motivation_style :=
    dict_get onboarding_data "motivation_style" (JStr "Mix of everything") in
  language_code ← get_language_code language;
  language_instruction ← get_language_instruction language_code;
  prompt ← build_prompt language role goals available_time challenges
             islamic_practice motivation_style language_instruction;
  match request_profile create now onboarding_data language_code prompt with
  | (_, Ok profile) => Ok profile
  | (Some _, Raise JSONDecodeError) => get_default_profile now onboarding_data
  | (None, Raise JSONDecodeError) => Raise UnboundLocalError
  | (_, Raise _) => get_default_profile now onboarding_data
  end.

End Generator.

Definition required_fields : list string := [
  "system_message_daily_planning";
  "system_message_weekly_review";
  "coaching_tone";
  "key_focus_areas";
  "time_block_size";
  "onboarding_data"
].

Definition validate_profile (profile : gmap string json) : bool :=
  forallb (contains profile) required_fields.

(** The six keys that the generation prompt asks the model for. *)
Definition requested_fields : list string := [
  "system_message_daily_planning";
  "system_message_weekly_review";
  "coaching_tone";
  "key_focus_areas";
  "time_block_size";
  "islamic_emphasis"
].

End onboarding.

(* ===================================================================== *)
(** * database.py: the persistence store *)
(* ===================================================================== *)

Module database.

(** The four tables.  A table is the list of its rows in rowid order;
    with [AUTOINCREMENT] the next id is one more than the largest id the
    table ever held, which [sqlite_sequence] records.  A [db] is a
    database file that has its schema: a call made before the first
    [init_database] fails inside SQLite and is not modelled.

    The functions that take an id give what a call does once
    [cursor.execute] has bound its parameters.  sqlite3 binds a Python
    [int] as a signed 64-bit INTEGER and raises [OverflowError] for any
    other, before the statement runs and with the store as it was;
    [update_user_profile_call] has this check in front. *)
Definition int64 (n : Z) : bool := ((- 2 ^ 63 <=? n) && (n <? 2 ^ 63))%Z.

Module user_profiles.
Record row : Set := {
  id : Z;
  profile_data : string;
  created_at : string;
  updated_at : string;
  is_active : Z
}.
End user_profiles.

Module daily_plans.
Record row : Set := {
  id : Z;
  user_id : Z;
  date : string;
  plan_content : string;
  available_hours : Q;
  created_at : string
}.
End daily_plans.

Module weekly_reviews.
Record row : Set := {
  id : Z;
  user_id : Z;
  week_start : string;
  week_end : string;
  review_content : string;
  created_at : string
}.
End weekly_reviews.

Module app_metadata.
Record row : Set := { value : string; updated_at : string }.
End app_metadata.

Record db : Type := {
  tbl_user_profiles : list user_profiles.row;
  seq_user_profiles : Z;
  tbl_daily_plans : list daily_plans.row;
  seq_daily_plans : Z;
  tbl_weekly_reviews : list weekly_reviews.row;
  seq_weekly_reviews : Z;
  tbl_app_metadata : gmap string app_metadata.row
}.

Definition DB_VERSION : Z := 1.

(** Decimal text of an integer, as [str(DB_VERSION)] gives it. *)
Definition str_int (n : Z) : string := pretty n.

(** [ORDER BY key DESC LIMIT 1] over a TEXT column: the row with the
    greatest key in byte order.  Among rows with the same key SQLite's
    sorter keeps them in rowid order, so the first of them comes out. *)
Fixpoint order_by_desc_limit_1 {R} (key : R -> string) (rows : list R)
    : option R :=
  match rows with
  | [] => None
  | r :: rest =>
      match order_by_desc_limit_1 key rest with
      | Some best => if String.ltb (key r) (key best) then Some best else Some r
      | None => Some r
      end
  end.

(** The database file with its schema, as [init_database] leaves it.
    [file] is what was on disk before: [None] when there was no file. *)
Definition init_database (now : string) (file : option db) : db :=
  let version := {| app_metadata.value := str_int DB_VERSION;
                    app_metadata.updated_at := now |} in
  match file with
  | None =>
      {| tbl_user_profiles := []; seq_user_profiles := 0;
         tbl_daily_plans := []; seq_daily_plans := 0;
         tbl_weekly_reviews := []; seq_weekly_reviews := 0;
         tbl_app_metadata := {[ "db_version" := version ]} |}
  | Some s =>
      {| tbl_user_profiles := tbl_user_profiles s;
         seq_user_profiles := seq_user_profiles s;
         tbl_daily_plans := tbl_daily_plans s;
         seq_daily_plans := seq_daily_plans s;
         tbl_weekly_reviews := tbl_weekly_reviews s;
         seq_weekly_reviews := seq_weekly_reviews s;
         tbl_app_metadata := <["db_version" := version]> (tbl_app_metadata s) |}
  end.

(** [reset_database]: the file is deleted, then initialised again. *)
Definition reset_database (now : string) (s : db) : db :=
  init_database now None.

(** [UPDATE user_profiles SET is_active = 0 WHERE is_active = 1] *)
Definition deactivate (r : user_profiles.row) : user_profiles.row :=
  if (user_profiles.is_active r =? 1)%Z then
    {| user_profiles.id := user_profiles.id r;
       user_profiles.profile_data := user_profiles.profile_data r;
       user_profiles.created_at := user_profiles.created_at r;
       user_profiles.updated_at := user_profiles.updated_at r;
       user_profiles.is_active := 0 |}
  else r.

(** [SELECT COUNT( * ) FROM user_profiles WHERE is_active = 1], the
    [active_profiles] entry of [get_database_stats]. *)
Definition active_profiles (s : db) : nat :=
  length (filter (fun r => user_profiles.is_active r = 1) (tbl_user_profiles s)).

Section Store.
(** [json.dumps] and [json.loads] ([None] stands for
    [JSONDecodeError]). *)
Variable dumps : json -> string.
Variable loads : string -> option json.

Definition save_user_profile (now : string)
    (profile_data : gmap string json) (s : db) : db * Z :=
  let user_id := seq_user_profiles s + 1 in
  let inserted := {|
    user_profiles.id := user_id;
    user_profiles.profile_data := dumps (JObj profile_data);
    user_profiles.created_at := now;
    user_profiles.updated_at := now;
    user_profiles.is_active := 1 |} in
  ({| tbl_user_profiles := (deactivate <$> tbl_user_profiles s) ++ [inserted];
      seq_user_profiles := user_id;
      tbl_daily_plans := tbl_daily_plans s;
      seq_daily_plans := seq_daily_plans s;
      tbl_weekly_reviews := tbl_weekly_reviews s;
      seq_weekly_reviews := seq_weekly_reviews s;
      tbl_app_metadata := tbl_app_metadata s |}, user_id).

(** What [get_active_user_profile] builds from the row it fetched. *)
Definition profile_of_row (r : user_profiles.row) : result (gmap string json) :=
  match loads (user_profiles.profile_data r) with
  | None => Raise JSONDecodeError
  | Some (JObj profile) =>
      let profile := <["db_id" := JNum (user_profiles.id r)]> profile in
      let profile := <["db_created_at" := JStr (user_profiles.created_at r)]> profile in
      let profile := <["db_updated_at" := JStr (user_profiles.updated_at r)]> profile in
      Ok profile
  | Some _ => Raise TypeError
  end.

Definition get_active_user_profile (s : db)
    : result (option (gmap string json)) :=
  let active :=
    filter (fun r => user_profiles.is_active r = 1) (tbl_user_profiles s) in
  match order_by_desc_limit_1 user_profiles.created_at active with
  | Some r => profile ← profile_of_row r; Ok (Some profile)
  | None => Ok None
  end.

(** The UPDATE of [update_user_profile] and the value returned after
    it, for a [user_id] that sqlite3 has bound. *)
Definition update_user_profile (now : string) (user_id : Z)
    (profile_data : gmap string json) (s : db) : db * bool :=
  let rewrite (r : user_profiles.row) :=
    if (user_profiles.id r =? user_id)%Z then
      {| user_profiles.id := user_profiles.id r;
         user_profiles.profile_data := dumps (JObj profile_data);
         user_profiles.created_at := user_profiles.created_at r;
         user_profiles.updated_at := now;
         user_profiles.is_active := user_profiles.is_active r |}
    else r in
  let rowcount :=
    length (filter (fun r => user_profiles.id r = user_id) (tbl_user_profiles s)) in
  ({| tbl_user_profiles := rewrite <$> tbl_user_profiles s;
      seq_user_profiles := seq_user_profiles s;
      tbl_daily_plans := tbl_daily_plans s;
      seq_daily_plans := seq_daily_plans s;
      tbl_weekly_reviews := tbl_weekly_reviews s;
      seq_weekly_reviews := seq_weekly_reviews s;
      tbl_app_metadata := tbl_app_metadata s |},
   bool_decide (0 < rowcount)%nat).

(** [update_user_profile] as it is called, with any [int] as id. *)
Definition update_user_profile_call (now : string) (user_id : Z)
    (profile_data : gmap string json) (s : db) : result (db * bool) :=
  if int64 user_id then Ok (update_user_profile now user_id profile_data s)
  else Raise OverflowError.

End Store.

Definition save_daily_plan (now : string) (user_id : Z) (date : string)
    (plan_content : string) (available_hours : Q) (s : db) : db * Z :=
  let plan_id := seq_daily_plans s + 1 in
  let inserted := {|
    daily_plans.id := plan_id;
    daily_plans.user_id := user_id;
    daily_plans.date := date;
    daily_plans.plan_content := plan_content;
    daily_plans.available_hours := available_hours;
    daily_plans.created_at := now |} in
  ({| tbl_user_profiles := tbl_user_profiles s;
      seq_user_profiles := seq_user_profiles s;
      tbl_daily_plans := tbl_daily_plans s ++ [inserted];
      seq_daily_plans := plan_id;
      tbl_weekly_reviews := tbl_weekly_reviews s;
      seq_weekly_reviews := seq_weekly_reviews s;
      tbl_app_metadata := tbl_app_metadata s |}, plan_id).

(** The dict that [get_daily_plan] returns, with its five keys. *)
Record plan : Set := {
  id : Z;
  plan_content : string;
  available_hours : Q;
  created_at : string;
  date : string
}.

(** [WHERE user_id = ? AND date = ?] *)
Definition plan_matches (user_id : Z) (date : string) (r : daily_plans.row) : Prop :=
  daily_plans.user_id r = user_id ∧ daily_plans.date r = date.

#[global] Instance plan_matches_dec user_id date r :
  Decision (plan_matches user_id date r).
Proof. unfold plan_matches. apply _. Defined.

Definition get_daily_plan (user_id : Z) (date : string) (s : db) : option plan :=
  let matching := filter (plan_matches user_id date) (tbl_daily_plans s) in
  match order_by_desc_limit_1 daily_plans.created_at matching with
  | Some r =>
      Some {| id := daily_plans.id r;
              plan_content := daily_plans.plan_content r;
              available_hours := daily_plans.available_hours r;
              created_at := daily_plans.created_at r;
              date := date |}
  | None => None
  end.

Definition save_weekly_review (now : string) (user_id : Z)
    (week_start week_end review_content : string) (s : db) : db * Z :=
  let review_id := seq_weekly_reviews s + 1 in
  let inserted := {|
    weekly_reviews.id := review_id;
    weekly_reviews.user_id := user_id;
    weekly_reviews.week_start := week_start;
    weekly_reviews.week_end := week_end;
    weekly_reviews.review_content := review_content;
    weekly_reviews.created_at := now |} in
  ({| tbl_user_profiles := tbl_user_profiles s;
      seq_user_profiles := seq_user_profiles s;
      tbl_daily_plans := tbl_daily_plans s;
      seq_daily_plans := seq_daily_plans s;
      tbl_weekly_reviews := tbl_weekly_reviews s ++ [inserted];
      seq_weekly_reviews := review_id;
      tbl_app_metadata := tbl_app_metadata s |}, review_id).

Section Reachability.
Variable dumps : json -> string.

(** The calls that write to the store, each with the clock reading it
    takes. *)
Inductive call : Type :=
  | InitDatabase (now : string)
  | ResetDatabase (now : string)
  | SaveUserProfile (now : string) (profile_data : gmap string json)
  | UpdateUserProfile (now : string) (user_id : Z) (profile_data : gmap string json)
  | SaveDailyPlan (now : string) (user_id : Z) (date plan_content : string)
      (available_hours : Q)
  | SaveWeeklyReview (now : string) (user_id : Z)
      (week_start week_end review_content : string).

Definition run (c : call) (s : db) : db :=
  match c with
  | InitDatabase now => init_database now (Some s)
  | ResetDatabase now => reset_database now s
  | SaveUserProfile now p => (save_user_profile dumps now p s).1
  | UpdateUserProfile now i p => (update_user_profile dumps now i p s).1
  | SaveDailyPlan now u d c h => (save_daily_plan now u d c h s).1
  | SaveWeeklyReview now u ws we c => (save_weekly_review now u ws we c s).1
  end.

(** The store states that a sequence of calls can produce, starting
    from the first [init_database]. *)
Inductive reachable : db -> Prop :=
  | reachable_init now : reachable (init_database now None)
  | reachable_run c s : reachable s -> reachable (run c s).

End Reachability.

(** ** The other queries *)

(** [ORDER BY key DESC] over a TEXT column: rows with the same key stay
    in rowid order (SQLite's sorter is stable). *)
Fixpoint insert_desc {R} (key : R -> string) (r : R) (sorted : list R) : list R :=
  match sorted with
  | [] => [r]
  | first :: rest =>
      if String.ltb (key r) (key first) then first :: insert_desc key r rest
      else r :: sorted
  end.

Fixpoint order_by_desc {R} (key : R -> string) (rows : list R) : list R :=
  match rows with
  | [] => []
  | r :: rest => insert_desc key r (order_by_desc key rest)
  end.


(** A loop that builds one result per row and stops at the first
    exception. *)
Fixpoint for_each {A B} (f : A -> result B) (rows : list A) : result (list B) :=
  match rows with
  | [] => Ok []
  | r :: rest => b ← f r; bs ← for_each f rest; Ok (b :: bs)
  end.

Section Listing.
(** [json.loads]; [None] stands for [JSONDecodeError]. *)
Variable loads : string -> option json.

(** What [get_all_user_profiles] builds from a row: as
    [get_active_user_profile] does, then [is_active] as [bool(row[4])]. *)
Definition listed_profile (r : user_profiles.row) : result (gmap string json) :=
  profile ← profile_of_row loads r;
  Ok (<["is_active" := JBool (negb (user_profiles.is_active r =? 0)%Z)]> profile).

Definition get_all_user_profiles (s : db) : result (list (gmap string json)) :=
  for_each listed_profile
    (order_by_desc user_profiles.created_at (tbl_user_profiles s)).

End Listing.


(** The dict that [get_weekly_review] and [get_all_weekly_reviews]
    return, with its five keys. *)
Module review.
Record dict : Set := {
  id : Z;
  week_start : string;
  week_end : string;
  review_content : string;
  created_at : string
}.
End review.

(** [WHERE user_id = ? AND week_start = ?] *)
Definition review_matches (user_id : Z) (week_start : string)
    (r : weekly_reviews.row) : Prop :=
  weekly_reviews.user_id r = user_id ∧ weekly_reviews.week_start r = week_start.

#[global] Instance review_matches_dec user_id week_start r :
  Decision (review_matches user_id week_start r).
Proof. unfold review_matches. apply _. Defined.



(** The counts of [get_database_stats]; its two entries on the size of the
    file on disk are left out. *)
Module stats.
Record dict : Set := {
  total_profiles : nat;
  active_profiles : nat;
  total_daily_plans : nat;
  total_weekly_reviews : nat
}.
End stats.

Definition get_database_stats (s : db) : stats.dict :=
  {| stats.total_profiles := length (tbl_user_profiles s);
     stats.active_profiles := active_profiles s;
     stats.total_daily_plans := length (tbl_daily_plans s);
     stats.total_weekly_reviews := length (tbl_weekly_reviews s) |}.

End database.

(* ===================================================================== *)
(** * Instances of the library functions, to run the model on examples *)
(* ===================================================================== *)

(** The theorems below hold for every [str], [json.dumps] and [json.loads];
    the examples and witnesses run the model with the instances of this
    module.  They cover JSON texts in ASCII without exponent notation and
    without [\u] escapes ([loads] answers [None] on those); objects are
    printed in key order of the map, not in insertion order. *)
Module json_codec.

Definition digit (c : ascii) : option Z :=
  let n := Z.of_nat (nat_of_ascii c) in
  if ((48 <=? n) && (n <=? 57))%Z then Some (n - 48) else None.

Fixpoint fraction_digits (fuel : nat) (r d : Z) : string :=
  match fuel with
  | O => ""
  | S fuel' =>
      if (r =? 0)%Z then ""
      else pretty (10 * r / d) +:+ fraction_digits fuel' (10 * r mod d) d
  end.

(** A float in positional notation, with at least one fraction digit. *)
Definition print_float (q : Q) : string :=
  let n := Qnum q in
  let d := Z.pos (Qden q) in
  let digits := fraction_digits 17 (Z.abs n mod d) d in
  (if (n <? 0)%Z then "-" else "") +:+ pretty (Z.abs n / d) +:+ "."
    +:+ (if String.eqb digits "" then "0" else digits).

Fixpoint escape (s : string) : string :=
  match s with
  | EmptyString => EmptyString
  | String c rest =>
      if Ascii.eqb c "034"%char then String "\"%char (String c (escape rest))
      else if Ascii.eqb c "\"%char then String c (String c (escape rest))
      else if Ascii.eqb c "010"%char then String "\"%char (String "n"%char (escape rest))
      else if Ascii.eqb c "009"%char then String "\"%char (String "t"%char (escape rest))
      else if Ascii.eqb c "013"%char then String "\"%char (String "r"%char (escape rest))
      else String c (escape rest)
  end.

Definition quote (s : string) : string := dq +:+ escape s +:+ dq.

Definition commas (parts : list string) : string :=
  String.concat ", " parts.

Fixpoint dumps (v : json) : string :=
  match v with
  | JNull => "null"
  | JBool true => "true"
  | JBool false => "false"
  | JNum n => pretty n
  | JFloat q => print_float q
  | JStr s => quote s
  | JList l => "[" +:+ commas (map dumps l) +:+ "]"
  | JObj m =>
      "{" +:+ commas (map_fold (fun k v acc => (quote k +:+ ": " +:+ dumps v) :: acc) [] m)
        +:+ "}"
  end.

(** Python's [str] on the same values: [repr] inside lists and dicts,
    where a string is put between single quotes (no escaping). *)
Fixpoint repr (v : json) : string :=
  match v with
  | JNull => "None"
  | JBool true => "True"
  | JBool false => "False"
  | JNum n => pretty n
  | JFloat q => print_float q
  | JStr s => "'" +:+ s +:+ "'"
  | JList l => "[" +:+ commas (map repr l) +:+ "]"
  | JObj m =>
      "{" +:+ commas (map_fold (fun k v acc => ("'" +:+ k +:+ "': " +:+ repr v) :: acc) [] m)
        +:+ "}"
  end.

Definition str (v : json) : string :=
  match v with
  | JStr s => s
  | _ => repr v
  end.

Definition whitespace (c : ascii) : bool :=
  Ascii.eqb c " "%char || Ascii.eqb c "009"%char
  || Ascii.eqb c "010"%char || Ascii.eqb c "013"%char.

Fixpoint skip_ws (s : string) : string :=
  match s with
  | String c rest => if whitespace c then skip_ws rest else s
  | EmptyString => EmptyString
  end.

(** The text that follows the prefix [lit], when [s] starts with it. *)
Fixpoint eat (lit s : string) : option string :=
  match lit, s with
  | EmptyString, _ => Some s
  | String a lit', String b s' => if Ascii.eqb a b then eat lit' s' else None
  | String _ _, EmptyString => None
  end.

(** The characters of a string literal up to its closing quote. *)
Fixpoint parse_string (s : string) : option (string * string) :=
  match s with
  | EmptyString => None
  | String c rest =>
      if Ascii.eqb c "034"%char then Some (EmptyString, rest)
      else if Ascii.eqb c "\"%char then
        match rest with
        | String e rest' =>
            let unescaped :=
              if Ascii.eqb e "n"%char then Some "010"%char
              else if Ascii.eqb e "t"%char then Some "009"%char
              else if Ascii.eqb e "r"%char then Some "013"%char
              else if Ascii.eqb e "b"%char then Some "008"%char
              else if Ascii.eqb e "f"%char then Some "012"%char
              else if Ascii.eqb e "/"%char || Ascii.eqb e "\"%char
                      || Ascii.eqb e "034"%char then Some e
              else None in
            match unescaped, parse_string rest' with
            | Some u, Some (body, after) => Some (String u body, after)
            | _, _ => None
            end
        | EmptyString => None
        end
      else if (Z.of_nat (nat_of_ascii c) <? 32)%Z then None
      else
        match parse_string rest with
        | Some (body, after) => Some (String c body, after)
        | None => None
        end
  end.

(** A run of digits: its value, how many there are, and the rest. *)
Fixpoint parse_digits (s : string) (acc : Z) (count : nat) : Z * nat * string :=
  match s with
  | String c rest =>
      match digit c with
      | Some d => parse_digits rest (10 * acc + d) (S count)
      | None => (acc, count, s)
      end
  | EmptyString => (acc, count, s)
  end.

Definition parse_number (s : string) : option (json * string) :=
  let '(negative, s) :=
    match eat "-" s with Some s' => (true, s') | None => (false, s) end in
  let sign (n : Z) := if negative : bool then (- n)%Z else n in
  let '(whole, count, rest) := parse_digits s 0 O in
  if bool_decide (count = O) then None
  else if bool_decide (1 < count)%nat && bool_decide (eat "0" s ≠ None) then None
  else
    match eat "." rest with
    | Some rest' =>
        let '(frac, places, rest'') := parse_digits rest' 0 O in
        if bool_decide (places = O) then None
        else
          let den := Z.to_pos (10 ^ Z.of_nat places) in
          Some (JFloat (sign (whole * Z.pos den + frac) # den), rest'')
    | None =>
        match rest with
        | String c _ =>
            if Ascii.eqb c "e"%char || Ascii.eqb c "E"%char then None
            else Some (JNum (sign whole), rest)
        | EmptyString => Some (JNum (sign whole), rest)
        end
    end.

Fixpoint parse_value (fuel : nat) (s : string) : option (json * string) :=
  match fuel with
  | O => None
  | S fuel' =>
      match skip_ws s with
      | EmptyString => None
      | String c rest as s' =>
          if Ascii.eqb c "034"%char then
            '(body, after) ← parse_string rest; Some (JStr body, after)
          else if Ascii.eqb c "["%char then
            match skip_ws rest with
            | String "]"%char after => Some (JList [], after)
            | _ => '(items, after) ← parse_elements fuel' rest; Some (JList items, after)
            end
          else if Ascii.eqb c "{"%char then
            match skip_ws rest with
            | String "}"%char after => Some (JObj ∅, after)
            | _ =>
                '(members, after) ← parse_members fuel' rest;
                Some (JObj (foldl (fun m kv => <[kv.1 := kv.2]> m) ∅ members), after)
            end
          else
            match eat "null" s', eat "true" s', eat "false" s' with
            | Some after, _, _ => Some (JNull, after)
            | _, Some after, _ => Some (JBool true, after)
            | _, _, Some after => Some (JBool false, after)
            | None, None, None => parse_number s'
            end
      end
  end
with parse_elements (fuel : nat) (s : string) : option (list json * string) :=
  match fuel with
  | O => None
  | S fuel' =>
      '(item, after) ← parse_value fuel' s;
      match skip_ws after with
      | String ","%char rest =>
          '(items, after') ← parse_elements fuel' rest; Some (item :: items, after')
      | String "]"%char rest => Some ([item], rest)
      | _ => None
      end
  end
with parse_members (fuel : nat) (s : string)
    : option (list (string * json) * string) :=
  match fuel with
  | O => None
  | S fuel' =>
      after_quote ← eat dq (skip_ws s);
      '(key, after_key) ← parse_string after_quote;
      after_colon ← eat ":" (skip_ws after_key);
      '(item, after) ← parse_value fuel' after_colon;
      match skip_ws after with
      | String ","%char rest =>
          '(members, after') ← parse_members fuel' rest;
          Some ((key, item) :: members, after')
      | String "}"%char rest => Some ([(key, item)], rest)
      | _ => None
      end
  end.

Definition loads (s : string) : option json :=
  match parse_value (2 * String.length s + 2) s with
  | Some (v, rest) => if String.eqb (skip_ws rest) "" then Some v else None
  | None => None
  end.

End json_codec.

(* ===================================================================== *)
(** * app.py: the state logic of the pages *)
(* ===================================================================== *)

(** The pages are Streamlit scripts.  What is modelled is what they do to
    the session state and to the store in a run in which the named button
    is pressed (or none); what they draw is left out.  The session state
    is a dict of Python values. *)
Module app.
Import ai_config onboarding database.

(** Python's truth value. *)
Definition truthy (v : json) : bool :=
  match v with
  | JNull => false
  | JBool b => b
  | JNum n => negb (n =? 0)%Z
  | JFloat q => negb (Qeq_bool q 0)
  | JStr t => negb (String.eqb t "")
  | JList items => match items with [] => false | _ => true end
  | JObj m => negb (bool_decide (m = ∅))
  end.

(** [st.session_state.key], which raises when the key was never set. *)
Definition attribute (session_state : gmap string json) (key : string) : result json :=
  match session_state !! key with
  | Some v => Ok v
  | None => Raise AttributeError
  end.

(** [if key not in st.session_state: st.session_state.key = v] *)
Definition set_default (key : string) (v : json)
    (session_state : gmap string json) : gmap string json :=
  if contains session_state key then session_state else <[key := v]> session_state.

Definition init_session_state (session_state : gmap string json)
    : gmap string json :=
  let session_state := set_default "user_profile" JNull session_state in
  let session_state := set_default "onboarding_complete" (JBool false) session_state in
  let session_state := set_default "current_page" (JStr "daily_planning") session_state in
  let session_state := set_default "language" (JStr "en") session_state in
  set_default "show_plan_code" (JBool false) session_state.

(** The options of the language question of [show_onboarding]:
    [[lang["name"] for lang in LANGUAGES.values()]] (here in the order of
    the map, not in that of the source). *)
Definition language_options : list string :=
  (fun entry => name entry.2) <$> map_to_list LANGUAGES.

(** What the preview of [show_onboarding] needs of the focus areas:
    [', '.join] takes a list of texts, or the characters of a text, or the
    keys of a dict. *)
Definition joinable (v : json) : bool :=
  match v with
  | JList items => forallb isinstance_str items
  | JStr _ | JObj _ => true
  | _ => false
  end.

(** How a press of the submit button of [show_onboarding] ends. *)
Inductive submitted : Type :=
  | GoalsMissing
  | GenerationRaised (e : exn)
  | Rejected
  | Completed (user_id : Z)
  | PreviewRaised (user_id : Z).

(** The page that [main] hands over to. *)
Inductive page : Set := ShowOnboarding | ShowDailyPlanning | ShowWeeklyReview | ShowSettings.

Section Pages.
Variable py_str : json -> string.
Variable dumps : json -> string.
Variable loads : string -> option json.

(** The body of the submit button of [show_onboarding], on the [answers]
    collected above it; [now] and [saved_at] are the clock readings of
    the generator and of the store. *)
Definition submit_onboarding (create : chat_request -> completion)
    (now saved_at : string) (answers session_state : gmap string json) (s : db)
    : submitted * gmap string json * db :=
  if negb (truthy (dict_get answers "goals" JNull)) then
    (GoalsMissing, session_state, s)
  else
    match generate_user_profile py_str loads create now answers with
    | Raise e => (GenerationRaised e, session_state, s)
    | Ok profile =>
        if validate_profile profile then
          let '(s, user_id) := save_user_profile dumps saved_at profile s in
          let profile := <["db_id" := JNum user_id]> profile in
          let session_state := <["user_profile" := JObj profile]> session_state in
          let session_state := <["onboarding_complete" := JBool true]> session_state in
          if joinable (dict_get profile "key_focus_areas" (JList [])) then
            (Completed user_id, session_state, s)
          else (PreviewRaised user_id, session_state, s)
        else (Rejected, session_state, s)
    end.

(** The button of [show_settings] that asks for a new onboarding. *)
Definition redo_onboarding (session_state : gmap string json) : gmap string json :=
  <["user_profile" := JNull]> (<["onboarding_complete" := JBool false]> session_state).

(** What [show_sidebar] reads; it writes nothing when no button of the
    menu is pressed. *)
Definition show_sidebar (session_state : gmap string json) : result unit :=
  complete ← attribute session_state "onboarding_complete";
  if truthy complete then
    profile ← attribute session_state "user_profile";
    match profile with
    | JObj profile =>
        match dict_get profile "language_code" (JStr "en") with
        | JStr _ => Ok ()
        | JList _ | JObj _ => Raise TypeError
        | _ => Raise AttributeError
        end
    | _ => Raise AttributeError
    end
  else
    if hashable (dict_get session_state "language" (JStr "en")) then Ok ()
    else Raise TypeError.

(** [main] up to the page it hands over to: the database and the session
    state are initialised, a stored profile is loaded into a session that
    has none, the sidebar is shown and the page chosen. *)
Definition main (now : string) (session_state : gmap string json)
    (file : option db) : result (page * gmap string json * db) :=
  let s := init_database now file in
  let session_state := init_session_state session_state in
  user_profile ← attribute session_state "user_profile";
  session_state ←
    (if negb (truthy user_profile) then
       existing_profile ← get_active_user_profile loads s;
       match existing_profile with
       | Some profile =>
           if truthy (JObj profile) then
             Ok (<["onboarding_complete" := JBool true]>
                   (<["user_profile" := JObj profile]> session_state))
           else Ok session_state
       | None => Ok session_state
       end
     else Ok session_state);
  _ ← show_sidebar session_state;
  complete ← attribute session_state "onboarding_complete";
  if negb (truthy complete) then Ok (ShowOnboarding, session_state, s)
  else
    current_page ← attribute session_state "current_page";
    let page :=
      match current_page with
      | JStr name =>
          if String.eqb name "daily_planning" then ShowDailyPlanning
          else if String.eqb name "weekly_review" then ShowWeeklyReview
          else if String.eqb name "settings" then ShowSettings
          else ShowDailyPlanning
      | _ => ShowDailyPlanning
      end in
    Ok (page, session_state, s).

End Pages.

End app.

(* ===================================================================== *)
(** * Conditions and sample data used in the statements *)
(* ===================================================================== *)

Module conditions.
Import ai_config onboarding.

(** The feature names of the catalog. *)
Definition catalog : list string :=
  ["daily_planning"; "weekly_review"; "quick_task"; "motivational"; "onboarding"].


(** The profile's instruction override for [feature], when it has one,
    is a text. *)
Definition override_is_text (feature : string) (profile : gmap string json) : bool :=
  match profile !! ("system_message_" +:+ feature) with
  | Some (JStr _) | None => true
  | Some _ => false
  end.

(** The profile's onboarding data, when it has some, is a dict whose
    language can be looked up. *)
Definition onboarding_data_usable (profile : gmap string json) : bool :=
  match profile !! "onboarding_data" with
  | None => true
  | Some (JObj answers) => hashable (dict_get answers "language" (JStr "English"))
  | Some _ => false
  end.

Definition usable_profile (feature : string)
    (user_profile : option (gmap string json)) : bool :=
  match user_profile with
  | None => true
  | Some profile => override_is_text feature profile && onboarding_data_usable profile
  end.

(** Answers as the questionnaire produces them: the language can be
    looked up, and the goals, when they are a list, are texts. *)
Definition usable_answers (onboarding_data : gmap string json) : bool :=
  hashable (dict_get onboarding_data "language" (JStr "English"))
  && match dict_get onboarding_data "goals" (JList []) with
     | JList items => forallb isinstance_str items
     | _ => true
     end.

(** The parsed object with the three entries that
    [generate_user_profile] attaches to it. *)
Definition with_metadata (now language_code : string)
    (onboarding_data profile : gmap string json) : gmap string json :=
  <["language_code" := JStr language_code]>
    (<["created_at" := JStr now]>
      (<["onboarding_data" := JObj onboarding_data]> profile)).

(** The fetched profile with the three entries that
    [get_active_user_profile] adds to it. *)
Definition with_db_fields (id : Z) (created updated : string)
    (profile : gmap string json) : gmap string json :=
  <["db_updated_at" := JStr updated]>
    (<["db_created_at" := JStr created]>
      (<["db_id" := JNum id]> profile)).

(** The instruction that opens the system message: the profile's
    override when it has one, else [default]. *)
Definition opening (feature : string) (user_profile : option (gmap string json))
    (default : string) : string :=
  match user_profile ≫= (.!! ("system_message_" +:+ feature)) with
  | Some (JStr t) => t
  | _ => default
  end.

(** What follows it: the language directive when the profile has
    onboarding data, else nothing. *)
Definition closing (user_profile : option (gmap string json)) : string :=
  match user_profile ≫= (.!! "onboarding_data") with
  | Some (JObj answers) =>
      match get_language_code (dict_get answers "language" (JStr "English"))
              ≫= get_language_instruction with
      | Ok instruction => nl +:+ nl +:+ "IMPORTANT: " +:+ instruction
      | Raise _ => ""
      end
  | _ => ""
  end.

(** The dict that [get_daily_plan] builds from the row it fetched. *)
Definition returned_plan (date : string) (r : database.daily_plans.row)
    : database.plan :=
  {| database.id := database.daily_plans.id r;
     database.plan_content := database.daily_plans.plan_content r;
     database.available_hours := database.daily_plans.available_hours r;
     database.created_at := database.daily_plans.created_at r;
     database.date := date |}.

(** The clock readings kept in [created_at] grow along the table: every
    plan was saved at a later reading than the plans saved before it. *)
Definition clock_increases (rows : list database.daily_plans.row) : Prop :=
  StronglySorted
    (fun earlier later =>
       String.ltb (database.daily_plans.created_at earlier)
                  (database.daily_plans.created_at later) = true)
    rows.

Definition generic_focus_areas : json :=
  JList [JStr "productivity"; JStr "balance"; JStr "growth"].

(** The ids of a table are the positions of its rows counted from 1, and
    its sequence is the number of its rows. *)
Definition numbered {R} (id : R -> Z) (rows : list R) (seq : Z) : Prop :=
  seq = Z.of_nat (length rows) /\
  forall i r, rows !! i = Some r -> id r = Z.of_nat i + 1.

(** The keys never grow along the list: greatest first. *)
Definition greatest_first {R} (key : R -> string) (rows : list R) : Prop :=
  StronglySorted (fun a b => String.ltb (key a) (key b) = false) rows.



(** The keys of the [ui_strings] tables. *)
Definition ui_keys : list string :=
  ["welcome"; "daily_plan"; "weekly_review"; "settings"; "onboarding"].

(** The two ends of the list that [create_messages] builds. *)
Definition system_turn (cfg : ai_config.config) : ai_config.message :=
  {| ai_config.role := "system"; ai_config.content := ai_config.system_message cfg |}.

Definition user_turn (user_input : string) : ai_config.message :=
  {| ai_config.role := "user"; ai_config.content := JStr user_input |}.

(** No character of the text is a backtick. *)
Fixpoint no_backtick (s : string) : bool :=
  match s with
  | EmptyString => true
  | String c rest => negb (Ascii.eqb c "`"%char) && no_backtick rest
  end.

(** The id under which a press of the submit button stored a profile. *)
Definition saved_id (outcome : app.submitted) : option Z :=
  match outcome with
  | app.Completed user_id | app.PreviewRaised user_id => Some user_id
  | _ => None
  end.

(** The required fields that the response itself has to bring: all but
    [onboarding_data], which the generator attaches. *)
Definition generated_fields : list string :=
  ["system_message_daily_planning"; "system_message_weekly_review";
   "coaching_tone"; "key_focus_areas"; "time_block_size"].

(** The completion returned a text that parses to a JSON object. *)
Definition gives_object (loads : string -> option json) (c : completion) : bool :=
  match c with
  | Raises _ => false
  | Returns content =>
      match loads (unwrap_content content) with
      | Some (JObj _) => true
      | _ => false
      end
  end.

(** The profile's language code, when it has one, is a text. *)
Definition language_code_is_text (profile : gmap string json) : bool :=
  match dict_get profile "language_code" (JStr "en") with
  | JStr _ => true
  | _ => false
  end.

(** The keys that [init_session_state] sets. *)
Definition session_keys : list string :=
  ["user_profile"; "onboarding_complete"; "current_page"; "language";
   "show_plan_code"].

End conditions.

Module samples.

Definition answers : gmap string json :=
  {[ "language" := JStr "Deutsch";
     "goals" := JList [JStr "Quran memorization/study"; JStr "Career development"] ]}.

Definition no_goals : gmap string json :=
  {[ "language" := JStr "English"; "goals" := JList [] ]}.

Definition profile : gmap string json :=
  {[ "system_message_daily_planning" := JStr "You are a coach for busy parents...";
     "onboarding_data" := JObj {[ "language" := JStr "Deutsch" ]} ]}.

(** A profile whose onboarding data is a text, not a dict. *)
Definition malformed_profile : gmap string json :=
  {[ "onboarding_data" := JStr "Deutsch" ]}.

(** A well-formed JSON object with five of the six keys asked for:
    [coaching_tone] is missing. *)
Definition incomplete_response : string :=
  "{" +:+ dq +:+ "system_message_daily_planning" +:+ dq +:+ ": " +:+ dq +:+ "Plan the day." +:+ dq
  +:+ ", " +:+ dq +:+ "system_message_weekly_review" +:+ dq +:+ ": " +:+ dq +:+ "Review the week." +:+ dq
  +:+ ", " +:+ dq +:+ "key_focus_areas" +:+ dq +:+ ": [" +:+ dq +:+ "Career development" +:+ dq +:+ "]"
  +:+ ", " +:+ dq +:+ "time_block_size" +:+ dq +:+ ": 45"
  +:+ ", " +:+ dq +:+ "islamic_emphasis" +:+ dq +:+ ": " +:+ dq +:+ "high" +:+ dq +:+ "}".

(** What that response parses to. *)
Definition incomplete_object : gmap string json :=
  {[ "system_message_daily_planning" := JStr "Plan the day.";
     "system_message_weekly_review" := JStr "Review the week.";
     "key_focus_areas" := JList [JStr "Career development"];
     "time_block_size" := JNum 45;
     "islamic_emphasis" := JStr "high" ]}.

(** A service that is down, and one that answers with that response. *)
Definition out_of_service : onboarding.chat_request -> onboarding.completion :=
  fun _ => onboarding.Raises TransportError.

Definition incomplete_service : onboarding.chat_request -> onboarding.completion :=
  fun _ => onboarding.Returns incomplete_response.

(** A profile with an override whose onboarding data is a text. *)
Definition override_with_text_data : gmap string json :=
  {[ "system_message_daily_planning" := JStr "Plan my day around the school run.";
     "onboarding_data" := JStr "Deutsch" ]}.


(** A profile that has a [db_id] of its own. *)
Definition profile_with_db_id : gmap string json :=
  {[ "coaching_tone" := JStr "calm"; "db_id" := JNum 99 ]}.

(** Answers whose goals are numbers. *)
Definition numeric_goals : gmap string json :=
  {[ "language" := JStr "English"; "goals" := JList [JNum 1] ]}.

(** An empty JSON object between a no-break space (U+00A0) and an
    ideographic space (U+3000). *)
Definition padded_object : string :=
  utf8 [0xC2; 0xA0]%nat +:+ "{}" +:+ utf8 [0xE3; 0x80; 0x80]%nat.

Definition noon : string := "2024-12-16T12:00:00".
Definition evening : string := "2024-12-16T18:30:00.250000".

Definition fresh : database.db := database.init_database "2024-12-16T09:00:00" None.

End samples.

(* ===================================================================== *)
(** * Properties *)
(* ===================================================================== *)

Section ResultMonad.
Context {A B : Type}.

Lemma bind_Ok (a : A) (f : A -> result B) : (Ok a ≫= f) = f a.
Proof. reflexivity. Qed.

End ResultMonad.

Lemma append_empty_r (s : string) : s +:+ "" = s.
Proof.
  induction s as [|c s IH]; [reflexivity|].
  change (String c s +:+ "") with (String c (s +:+ "")). now rewrite IH.
Qed.

Lemma startswith_append (p rest : string) : startswith (p +:+ rest) p = true.
Proof.
  unfold startswith. induction p as [|c p IH].
  - now destruct rest.
  - change (String c p +:+ rest) with (String c (p +:+ rest)). simpl.
    destruct (ascii_dec c c); [exact IH | congruence].
Qed.

Lemma contains_true {V} (d : gmap string V) k v :
  d !! k = Some v -> contains d k = true.
Proof. intros H. unfold contains. apply bool_decide_eq_true. eauto. Qed.

Lemma contains_false {V} (d : gmap string V) k :
  d !! k = None -> contains d k = false.
Proof.
  intros H. unfold contains. apply bool_decide_eq_false. rewrite H.
  apply is_Some_None.
Qed.

Lemma truthy_dict_lookup {V} (d : gmap string V) k v :
  d !! k = Some v -> truthy_dict (Some d) = true.
Proof.
  intros H. unfold truthy_dict. apply negb_true_iff, bool_decide_eq_false.
  intros ->. rewrite lookup_empty in H. discriminate.
Qed.

Module ai_config_proofs.
Import ai_config conditions.

Lemma MODELS_None feature : MODELS !! feature = None <-> feature ∉ catalog.
Proof. unfold MODELS. rewrite <- not_elem_of_list_to_map. reflexivity. Qed.

Lemma TEMPERATURES_None feature :
  TEMPERATURES !! feature = None <-> feature ∉ catalog.
Proof. unfold TEMPERATURES. rewrite <- not_elem_of_list_to_map. reflexivity. Qed.

Lemma MAX_TOKENS_None feature :
  MAX_TOKENS !! feature = None <-> feature ∉ catalog.
Proof. unfold MAX_TOKENS. rewrite <- not_elem_of_list_to_map. reflexivity. Qed.

(** [onboarding] has a model but no default instruction, so the converse
    does not hold. *)
Lemma DEFAULT_SYSTEM_MESSAGES_None feature :
  feature ∉ catalog -> DEFAULT_SYSTEM_MESSAGES !! feature = None.
Proof.
  intros H. unfold DEFAULT_SYSTEM_MESSAGES. apply not_elem_of_list_to_map.
  intros Hin. apply H. unfold catalog. cbn in Hin.
  rewrite !elem_of_cons in Hin. rewrite !elem_of_cons. tauto.
Qed.

Lemma get_model_eq feature :
  get_model feature = Ok (dict_get MODELS feature "llama-3.1-8b-instant").
Proof. reflexivity. Qed.

Lemma get_system_message_eq feature :
  exists fallback,
    DEFAULT_SYSTEM_MESSAGES !! "quick_task" = Some fallback /\
    get_system_message feature
    = Ok (dict_get DEFAULT_SYSTEM_MESSAGES feature fallback).
Proof. eexists. split; reflexivity. Qed.

Lemma get_language_instruction_eq language_code :
  exists english,
    LANGUAGES !! "en" = Some english /\
    get_language_instruction language_code
    = Ok (ai_instruction (dict_get LANGUAGES language_code english)).
Proof. eexists. split; reflexivity. Qed.

Lemma get_language_code_hashable v :
  hashable v = true -> exists c, get_language_code v = Ok c.
Proof. destruct v; simpl; intros H; try discriminate; eauto. Qed.


Lemma temperature_range feature :
  (0 <= get_temperature feature)%Q /\ (get_temperature feature <= 2)%Q.
Proof.
  unfold get_temperature, dict_get.
  destruct (TEMPERATURES !! feature) as [q|] eqn:Hq; simpl.
  - unfold TEMPERATURES in Hq. apply elem_of_list_to_map_2 in Hq.
    rewrite !elem_of_cons, elem_of_nil in Hq.
    destruct Hq as [Hq|[Hq|[Hq|[Hq|[Hq|[]]]]]]; inversion Hq; subst;
      split; unfold Qle; simpl; lia.
  - split; unfold Qle; simpl; lia.
Qed.

Lemma max_tokens_positive feature : 0 < get_max_tokens feature.
Proof.
  unfold get_max_tokens, dict_get.
  destruct (MAX_TOKENS !! feature) as [k|] eqn:Hk; simpl; [|lia].
  unfold MAX_TOKENS in Hk. apply elem_of_list_to_map_2 in Hk.
  rewrite !elem_of_cons, elem_of_nil in Hk.
  destruct Hk as [Hk|[Hk|[Hk|[Hk|[Hk|[]]]]]]; inversion Hk; subst; lia.
Qed.

Lemma get_ai_config_None feature :
  exists message,
    get_system_message feature = Ok message /\
    get_ai_config feature None
    = Ok {| model := dict_get MODELS feature "llama-3.1-8b-instant";
            temperature := get_temperature feature;
            max_tokens := get_max_tokens feature;
            system_message := JStr message |}.
Proof.
  destruct (get_system_message_eq feature) as (fb & _ & Hm).
  eexists. split; [exact Hm|].
  unfold get_ai_config. rewrite get_model_eq, bind_Ok, Hm. reflexivity.
Qed.

(** The two steps of [get_ai_config] on a profile, with the guards
    resolved: a profile that holds a key is not empty. *)
Lemma get_ai_config_Some feature (profile : gmap string json) :
  get_ai_config feature (Some profile)
  = (base ← match profile !! ("system_message_" +:+ feature) with
            | Some v => Ok v
            | None => JStr <$> get_system_message feature
            end;
     message ← match profile !! "onboarding_data" with
               | Some onboarding_data =>
                   language ← onboarding_language onboarding_data;
                   language_code ← get_language_code language;
                   language_instruction ← get_language_instruction language_code;
                   iadd_str base (nl +:+ nl +:+ "IMPORTANT: " +:+ language_instruction)
               | None => Ok base
               end;
     Ok {| model := dict_get MODELS feature "llama-3.1-8b-instant";
           temperature := get_temperature feature;
           max_tokens := get_max_tokens feature;
           system_message := message |}).
Proof.
  unfold get_ai_config. rewrite get_model_eq, bind_Ok.
  assert (Hbase :
    (if truthy_dict (Some profile) && contains profile ("system_message_" +:+ feature)
     then subscript profile ("system_message_" +:+ feature)
     else JStr <$> get_system_message feature)
    = match profile !! ("system_message_" +:+ feature) with
      | Some v => Ok v
      | None => JStr <$> get_system_message feature
      end).
  { destruct (profile !! ("system_message_" +:+ feature)) as [v|] eqn:Hv.
    - rewrite (truthy_dict_lookup _ _ _ Hv), (contains_true _ _ _ Hv). simpl.
      unfold subscript. rewrite Hv. reflexivity.
    - rewrite (contains_false _ _ Hv), andb_false_r. reflexivity. }
  rewrite Hbase. clear Hbase.
  destruct (profile !! "onboarding_data") as [od|] eqn:Hod.
  - rewrite (truthy_dict_lookup _ _ _ Hod), (contains_true _ _ _ Hod). simpl.
    unfold subscript. rewrite Hod. reflexivity.
  - rewrite (contains_false _ _ Hod), andb_false_r. reflexivity.
Qed.

Lemma get_ai_config_usable feature user_profile :
  usable_profile feature user_profile = true ->
  exists default,
    get_system_message feature = Ok default /\
    get_ai_config feature user_profile
    = Ok {| model := dict_get MODELS feature "llama-3.1-8b-instant";
            temperature := get_temperature feature;
            max_tokens := get_max_tokens feature;
            system_message :=
              JStr (opening feature user_profile default +:+ closing user_profile) |}.
Proof.
  intros Hu. destruct (get_system_message_eq feature) as (fb & _ & Hd).
  exists (dict_get DEFAULT_SYSTEM_MESSAGES feature fb). split; [exact Hd|].
  unfold opening, closing. destruct user_profile as [profile|].
  - simpl in Hu. apply andb_true_iff in Hu as [Ht Ho].
    unfold override_is_text in Ht. unfold onboarding_data_usable in Ho.
    rewrite get_ai_config_Some. cbn [mbind option_bind].
    assert (Hbase : exists t,
      match profile !! ("system_message_" +:+ feature) with
      | Some v => Ok v
      | None => JStr <$> get_system_message feature
      end = Ok (JStr t) /\
      t = match profile !! ("system_message_" +:+ feature) with
          | Some (JStr t) => t
          | _ => dict_get DEFAULT_SYSTEM_MESSAGES feature fb
          end).
    { destruct (profile !! ("system_message_" +:+ feature)) as [[]|];
        try discriminate.
      - eauto.
      - rewrite Hd. eauto. }
    destruct Hbase as (t & -> & <-). rewrite bind_Ok.
    destruct (profile !! "onboarding_data") as [[]|]; try discriminate.
    + simpl onboarding_language. rewrite bind_Ok.
      destruct (get_language_code_hashable _ Ho) as (c & ->). rewrite !bind_Ok.
      destruct (get_language_instruction_eq c) as (en & _ & ->).
      rewrite !bind_Ok. reflexivity.
    + rewrite bind_Ok, append_empty_r. reflexivity.
  - destruct (get_ai_config_None feature) as (m & Hm & ->).
    rewrite Hd in Hm. injection Hm as <-.
    cbn [mbind option_bind]. rewrite append_empty_r. reflexivity.
Qed.

(** ** C3: an unknown feature and the [quick_task] fallback *)

(** C3, as amended.  For every feature name that is not in the catalog,
    the configuration resolved without a profile has the model and the
    system message of the one resolved for [quick_task]; its temperature
    is 0.7 and its token budget 300, where [quick_task] has 0.5 and 150. *)
Theorem unknown_feature_fallback (feature : string) :
  MODELS !! feature = None ->
  exists unknown quick,
    get_ai_config feature None = Ok unknown /\
    get_ai_config "quick_task" None = Ok quick /\
    model unknown = model quick /\
    system_message unknown = system_message quick /\
    temperature unknown = (7 # 10)%Q /\ temperature quick = (5 # 10)%Q /\
    max_tokens unknown = 300 /\ max_tokens quick = 150.
Proof.
  intros Hm. pose proof (proj1 (MODELS_None feature) Hm) as Hc.
  destruct (get_ai_config_None feature) as (mu & Hmu & ->).
  destruct (get_ai_config_None "quick_task") as (mq & Hmq & ->).
  do 2 eexists. split; [reflexivity|]. split; [reflexivity|]. simpl.
  unfold get_temperature, get_max_tokens, dict_get.
  rewrite Hm, (proj2 (TEMPERATURES_None feature) Hc),
    (proj2 (MAX_TOKENS_None feature) Hc).
  destruct (get_system_message_eq feature) as (fb & Hfb & Hmu').
  rewrite Hmu' in Hmu. injection Hmu as <-.
  unfold dict_get. rewrite (DEFAULT_SYSTEM_MESSAGES_None _ Hc). simpl.
  repeat split. f_equal.
  destruct (get_system_message_eq "quick_task") as (fb' & Hfb' & Hmq').
  rewrite Hmq' in Hmq. injection Hmq as <-. unfold dict_get.
  rewrite Hfb'. simpl. congruence.
Qed.

Lemma unknown_feature_fallback_witness :
  MODELS !! "unknown_feature_xyz" = None /\
  exists unknown quick,
    get_ai_config "unknown_feature_xyz" None = Ok unknown /\
    get_ai_config "quick_task" None = Ok quick /\
    model unknown = model quick /\
    system_message unknown = system_message quick /\
    temperature unknown = (7 # 10)%Q /\ temperature quick = (5 # 10)%Q /\
    max_tokens unknown = 300 /\ max_tokens quick = 150.
Proof.
  split; [reflexivity|].
  apply (unknown_feature_fallback "unknown_feature_xyz"). reflexivity.
Defined.

(** C3 as stated fails: [unknown_feature_xyz] is not in the catalog, and
    its configuration differs from that of [quick_task] in temperature
    and in token budget. *)
Lemma unknown_feature_differs_from_quick_task :
  MODELS !! "unknown_feature_xyz" = None /\
  exists unknown quick,
    get_ai_config "unknown_feature_xyz" None = Ok unknown /\
    get_ai_config "quick_task" None = Ok quick /\
    ~ (temperature unknown == temperature quick)%Q /\
    max_tokens unknown <> max_tokens quick /\
    unknown <> quick.
Proof.
  split; [reflexivity|]. do 2 eexists.
  split; [reflexivity|]. split; [reflexivity|]. simpl.
  split; [|split].
  - unfold Qeq. vm_compute. discriminate.
  - vm_compute. discriminate.
  - intros H. apply (f_equal max_tokens) in H. vm_compute in H. discriminate.
Qed.

(** ** C4: the language directive *)




(** ** C7: totality of the resolution *)

(** C7, as amended.  For every feature name, and for no profile or a
    usable one (its override for the feature, if any, is a text; its
    onboarding data, if any, is a dict whose language is hashable),
    [get_ai_config] returns a configuration: a model of the catalog, a
    temperature in [0, 2], a positive token budget and a text as system
    message. *)
Theorem resolution_total_on_usable_profiles (feature : string)
    (user_profile : option (gmap string json)) :
  usable_profile feature user_profile = true ->
  exists c message,
    get_ai_config feature user_profile = Ok c /\
    system_message c = JStr message /\
    (exists f, MODELS !! f = Some (model c)) /\
    (0 <= temperature c)%Q /\ (temperature c <= 2)%Q /\
    0 < max_tokens c.
Proof.
  intros Hu. destruct (get_ai_config_usable _ _ Hu) as (default & _ & Hc).
  do 2 eexists. split; [exact Hc|]. cbn [system_message model temperature max_tokens].
  split; [reflexivity|]. split; [|split; [|split]].
  - unfold dict_get. destruct (MODELS !! feature) eqn:Hf; simpl.
    + eauto.
    + exists "quick_task". reflexivity.
  - apply temperature_range.
  - apply temperature_range.
  - apply max_tokens_positive.
Qed.

Lemma resolution_total_on_usable_profiles_witness :
  usable_profile "unknown_feature_xyz" (Some samples.profile) = true /\
  exists c message,
    get_ai_config "unknown_feature_xyz" (Some samples.profile) = Ok c /\
    system_message c = JStr message /\
    (exists f, MODELS !! f = Some (model c)) /\
    (0 <= temperature c)%Q /\ (temperature c <= 2)%Q /\
    0 < max_tokens c.
Proof.
  split; [reflexivity|].
  apply (resolution_total_on_usable_profiles "unknown_feature_xyz"
           (Some samples.profile)).
  reflexivity.
Defined.

(** C7 as stated fails: on a profile whose onboarding data is a text,
    [get_ai_config] raises. *)
Lemma malformed_profile_raises :
  get_ai_config "daily_planning" (Some samples.malformed_profile)
  = Raise AttributeError.
Proof. vm_compute. reflexivity. Qed.

(** ** C8: the per-feature override *)

(** C8, as amended.  On a usable profile (its override, if any, is a
    text; its onboarding data, if any, is a dict whose language can be
    looked up) with an override for daily planning, the system message
    starts with that text; without a profile, or with a usable one that
    has no override, it starts with the catalog's default instruction.
    In both cases [get_ai_config] returns. *)
Theorem override_opens_system_message
    (user_profile : option (gmap string json)) :
  usable_profile "daily_planning" user_profile = true ->
  exists c default rest,
    get_ai_config "daily_planning" user_profile = Ok c /\
    DEFAULT_SYSTEM_MESSAGES !! "daily_planning" = Some default /\
    (forall profile t,
       user_profile = Some profile ->
       profile !! "system_message_daily_planning" = Some (JStr t) ->
       system_message c = JStr (t +:+ rest) /\
       startswith (t +:+ rest) t = true) /\
    ((user_profile = None \/
      exists profile, user_profile = Some profile /\
                      profile !! "system_message_daily_planning" = None) ->
     system_message c = JStr (default +:+ rest) /\
     startswith (default +:+ rest) default = true).
Proof.
  intros Hu. destruct (get_ai_config_usable _ _ Hu) as (default & Hd & Hc).
  eexists. exists default, (closing user_profile).
  split; [exact Hc|]. split.
  { vm_compute in Hd. injection Hd as <-. vm_compute. reflexivity. }
  cbn [system_message]. unfold opening. split.
  - intros profile t -> Ht. cbn [mbind option_bind].
    change ("system_message_" +:+ "daily_planning")
      with "system_message_daily_planning".
    rewrite Ht. split; [reflexivity | apply startswith_append].
  - intros [-> | (profile & -> & Ht)]; cbn [mbind option_bind].
    + split; [reflexivity | apply startswith_append].
    + change ("system_message_" +:+ "daily_planning")
        with "system_message_daily_planning".
      rewrite Ht. split; [reflexivity | apply startswith_append].
Qed.

Lemma override_opens_system_message_witness :
  usable_profile "daily_planning" (Some samples.profile) = true /\
  exists c default rest,
    get_ai_config "daily_planning" (Some samples.profile) = Ok c /\
    DEFAULT_SYSTEM_MESSAGES !! "daily_planning" = Some default /\
    (forall profile t,
       Some samples.profile = Some profile ->
       profile !! "system_message_daily_planning" = Some (JStr t) ->
       system_message c = JStr (t +:+ rest) /\
       startswith (t +:+ rest) t = true) /\
    ((Some samples.profile = None \/
      exists profile, Some samples.profile = Some profile /\
                      profile !! "system_message_daily_planning" = None) ->
     system_message c = JStr (default +:+ rest) /\
     startswith (default +:+ rest) default = true).
Proof.
  split; [reflexivity|].
  apply (override_opens_system_message (Some samples.profile)). reflexivity.
Defined.

(** C8 as stated fails: a profile that carries an override text, and
    whose onboarding data is a text, gets no system message at all,
    since [get_ai_config] raises on it. *)
Lemma override_with_text_data_raises :
  samples.override_with_text_data !! "system_message_daily_planning"
  = Some (JStr "Plan my day around the school run.") /\
  usable_profile "daily_planning" (Some samples.override_with_text_data) = false /\
  get_ai_config "daily_planning" (Some samples.override_with_text_data)
  = Raise AttributeError.
Proof. repeat split; vm_compute; reflexivity. Qed.

End ai_config_proofs.

Module onboarding_proofs.
Import ai_config onboarding conditions.
Import ai_config_proofs.

Section Generator.
Variable py_str : json -> string.
Variable loads : string -> option json.

Lemma join_texts sep items :
  forallb isinstance_str items = true -> exists t, join sep items = Ok t.
Proof.
  induction items as [|v items IH]; intros H; [simpl; eauto|].
  simpl in H. apply andb_true_iff in H as [Hv Hi].
  destruct v; try discriminate. destruct (IH Hi) as (t & Ht).
  simpl. destruct items; [eauto|]. rewrite Ht. simpl. eauto.
Qed.

Lemma goals_text_usable answers :
  usable_answers answers = true ->
  exists line, goals_text py_str (dict_get answers "goals" (JList [])) = Ok line.
Proof.
  unfold usable_answers. intros H. apply andb_true_iff in H as [_ H].
  unfold goals_text. destruct (dict_get answers "goals" (JList [])); eauto.
  now apply join_texts.
Qed.

Lemma language_code_usable answers :
  usable_answers answers = true ->
  exists language_code,
    get_language_code (dict_get answers "language" (JStr "English"))
    = Ok language_code.
Proof.
  unfold usable_answers. intros H. apply andb_true_iff in H as [H _].
  now apply get_language_code_hashable.
Qed.

(** The default profile exists for usable answers, and passes
    validation. *)
Lemma get_default_profile_usable now answers :
  usable_answers answers = true ->
  exists default,
    get_default_profile py_str now answers = Ok default /\
    validate_profile default = true.
Proof.
  intros H. destruct (language_code_usable _ H) as (code & Hcode).
  destruct (goals_text_usable _ H) as (line & Hline).
  unfold get_default_profile. rewrite Hcode, bind_Ok, Hline, bind_Ok.
  eexists. split; [reflexivity|]. vm_compute. reflexivity.
Qed.

Lemma validate_with_metadata now language_code answers profile :
  validate_profile (with_metadata now language_code answers profile)
  = forallb (contains profile)
      ["system_message_daily_planning"; "system_message_weekly_review";
       "coaching_tone"; "key_focus_areas"; "time_block_size"].
Proof.
  unfold validate_profile, required_fields, with_metadata, contains.
  cbn [forallb]. rewrite !lookup_insert_ne by discriminate.
  rewrite lookup_insert_eq.
  rewrite (bool_decide_eq_true_2 (is_Some (Some _))) by eauto.
  now rewrite !andb_true_r.
Qed.

(** The request that is sent, and what becomes of the answer. *)
Lemma request_profile_eq create now answers language_code prompt :
  exists request,
    req_model request = "llama-3.3-70b-versatile" /\
    req_temperature request = (7 # 10)%Q /\
    (role <$> req_messages request) = ["system"; "user"] /\
    request_profile loads create now answers language_code prompt
    = match create request with
      | Raises e => (None, Raise e)
      | Returns content =>
          (Some (unwrap_content content),
           match loads (unwrap_content content) with
           | None => Raise JSONDecodeError
           | Some (JObj profile) =>
               Ok (with_metadata now language_code answers profile)
           | Some _ => Raise TypeError
           end)
      end.
Proof.
  unfold request_profile. rewrite get_model_eq.
  eexists. split; [|split; [|split; [|reflexivity]]]; reflexivity.
Qed.

Lemma generate_user_profile_usable create now answers :
  usable_answers answers = true ->
  exists language_code prompt,
    get_language_code (dict_get answers "language" (JStr "English"))
    = Ok language_code /\
    generate_user_profile py_str loads create now answers
    = match request_profile loads create now answers language_code prompt with
      | (_, Ok profile) => Ok profile
      | (None, Raise JSONDecodeError) => Raise UnboundLocalError
      | (_, Raise _) => get_default_profile py_str now answers
      end.
Proof.
  intros H. destruct (language_code_usable _ H) as (code & Hcode).
  destruct (goals_text_usable _ H) as (line & Hline).
  destruct (get_language_instruction_eq code) as (en & _ & Hi).
  pose proof (eq_refl (generate_user_profile py_str loads create now answers)) as G.
  unfold generate_user_profile in G at 2.
  rewrite Hcode, bind_Ok, Hi, bind_Ok in G.
  unfold build_prompt in G. rewrite Hline, !bind_Ok in G.
  match type of G with context [request_profile _ _ _ _ _ ?p] =>
    exists code, p; split; [exact Hcode|]; rewrite G;
    destruct (request_profile loads create now answers code p)
      as [[content|] [profile|[]]]
  end; reflexivity.
Qed.

(** What [generate_user_profile] returns, by what the completion call
    does with the request. *)
Lemma generate_user_profile_eq create now answers :
  usable_answers answers = true ->
  exists language_code request,
    get_language_code (dict_get answers "language" (JStr "English"))
    = Ok language_code /\
    req_model request = "llama-3.3-70b-versatile" /\
    generate_user_profile py_str loads create now answers
    = match create request with
      | Raises JSONDecodeError => Raise UnboundLocalError
      | Raises _ => get_default_profile py_str now answers
      | Returns content =>
          match loads (unwrap_content content) with
          | Some (JObj profile) =>
              Ok (with_metadata now language_code answers profile)
          | _ => get_default_profile py_str now answers
          end
      end.
Proof.
  intros H.
  destruct (generate_user_profile_usable create now _ H)
    as (code & prompt & Hcode & Hgen).
  destruct (request_profile_eq create now answers code prompt)
    as (request & Hm & _ & _ & Hreq).
  exists code, request. split; [exact Hcode|]. split; [exact Hm|].
  rewrite Hgen, Hreq.
  destruct (create request) as [[]|content]; try reflexivity.
  destruct (loads (unwrap_content content)) as [[]|]; reflexivity.
Qed.

(** ** C1: generation and the fallback *)

(** C1, as amended.  For usable answers (the language can be looked up
    and the goals, when a list, are texts), [generate_user_profile]
    returns the default profile, which passes validation, when the
    completion call raises an exception other than [JSONDecodeError],
    when the text it returns is not JSON and when the JSON is not an
    object.  A JSON object is returned as it is, with the onboarding
    data, the time and the language code attached and no key checked:
    it passes validation exactly when it has the two instruction texts,
    [coaching_tone], [key_focus_areas] and [time_block_size].  A
    [JSONDecodeError] of the call itself is left out here. *)
Theorem generation_falls_back_unless_object
    (create : chat_request -> completion) (now : string)
    (answers : gmap string json) :
  usable_answers answers = true ->
  exists default language_code request,
    get_default_profile py_str now answers = Ok default /\
    validate_profile default = true /\
    get_language_code (dict_get answers "language" (JStr "English"))
    = Ok language_code /\
    req_model request = "llama-3.3-70b-versatile" /\
    match create request with
    | Raises e =>
        e <> JSONDecodeError ->
        generate_user_profile py_str loads create now answers = Ok default
    | Returns content =>
        match loads (unwrap_content content) with
        | Some (JObj profile) =>
            generate_user_profile py_str loads create now answers
            = Ok (with_metadata now language_code answers profile) /\
            validate_profile (with_metadata now language_code answers profile)
            = forallb (contains profile)
                ["system_message_daily_planning"; "system_message_weekly_review";
                 "coaching_tone"; "key_focus_areas"; "time_block_size"]
        | _ =>
            generate_user_profile py_str loads create now answers = Ok default
        end
    end.
Proof.
  intros H.
  destruct (get_default_profile_usable now _ H) as (default & Hd & Hv).
  destruct (generate_user_profile_eq create now _ H)
    as (code & request & Hcode & Hm & Hgen).
  exists default, code, request.
  split; [exact Hd|]. split; [exact Hv|]. split; [exact Hcode|].
  split; [exact Hm|].
  rewrite Hgen, Hd.
  destruct (create request) as [e|content];
    [intros He; destruct e; (reflexivity || contradiction)|].
  destruct (loads (unwrap_content content)) as [[]|]; try reflexivity.
  split; [reflexivity | apply validate_with_metadata].
Qed.


Lemma default_profile_clock now now' answers default default' k :
  get_default_profile py_str now answers = Ok default ->
  get_default_profile py_str now' answers = Ok default' ->
  k <> "created_at" ->
  default' !! k = default !! k.
Proof.
  unfold get_default_profile. intros H H' Hk.
  destruct (get_language_code _) as [code|]; [|discriminate].
  rewrite bind_Ok in H, H'.
  destruct (goals_text _ _) as [line|]; [|discriminate].
  rewrite bind_Ok in H, H'. injection H as <-. injection H' as <-.
  unfold list_to_map. cbn [foldr fst snd].
  repeat match goal with
  | |- context [<[?j := _]> _ !! k] =>
      destruct (decide (j = k)) as [<-|];
      [ first [ congruence | reflexivity ]
      | rewrite !(lookup_insert_ne _ j k) by assumption ]
  end.
  reflexivity.
Qed.


(** ** C5: the default profile *)

(** C5, as amended.  For usable answers the default profile has the
    fixed tone, block size, emphasis and default flag.  Its focus areas
    are the first three goals when the goals are a list, so none when
    that list is empty or when the answers have no goals, and the
    generic three when the goals are not a list.  [created_at] is the
    clock reading; every other entry is the same whatever the clock
    reads.  In the scenario of the specification (language Deutsch,
    two goals, a completion call that raises, here anything but a
    [JSONDecodeError]) the generated profile is flagged as default, has
    language code [de] and the two goals as focus areas. *)
Theorem default_profile_fields (now : string) (answers : gmap string json) :
  usable_answers answers = true ->
  exists default,
    get_default_profile py_str now answers = Ok default /\
    default !! "coaching_tone" = Some (JStr "encouraging, practical") /\
    default !! "time_block_size" = Some (JNum 30) /\
    default !! "islamic_emphasis" = Some (JStr "medium") /\
    default !! "is_default" = Some (JBool true) /\
    default !! "created_at" = Some (JStr now) /\
    default !! "key_focus_areas"
    = Some match dict_get answers "goals" (JList []) with
           | JList items => JList (take 3 items)
           | _ => generic_focus_areas
           end /\
    (answers !! "goals" = None -> default !! "key_focus_areas" = Some (JList [])) /\
    (forall now', exists default',
       get_default_profile py_str now' answers = Ok default' /\
       forall k, k <> "created_at" -> default' !! k = default !! k) /\
    (forall create e,
       e <> JSONDecodeError ->
       (forall request, create request = Raises e) ->
       exists profile,
         generate_user_profile py_str loads create now samples.answers = Ok profile /\
         profile !! "is_default" = Some (JBool true) /\
         profile !! "language_code" = Some (JStr "de") /\
         profile !! "key_focus_areas"
         = Some (JList [JStr "Quran memorization/study"; JStr "Career development"])).
Proof.
  intros H. destruct (language_code_usable _ H) as (code & Hcode).
  destruct (goals_text_usable _ H) as (line & Hline).
  assert (Hd : forall t, exists d, get_default_profile py_str t answers = Ok d /\
            d !! "coaching_tone" = Some (JStr "encouraging, practical") /\
            d !! "time_block_size" = Some (JNum 30) /\
            d !! "islamic_emphasis" = Some (JStr "medium") /\
            d !! "is_default" = Some (JBool true) /\
            d !! "created_at" = Some (JStr t) /\
            d !! "key_focus_areas"
            = Some match dict_get answers "goals" (JList []) with
                   | JList items => JList (take 3 items)
                   | _ => generic_focus_areas
                   end).
  { intros t. unfold get_default_profile.
    rewrite Hcode, bind_Ok, Hline, bind_Ok.
    eexists. split; [reflexivity|]. repeat split. }
  destruct (Hd now) as (default & Hdef & Htone & Hsize & Hemph & Hflag & Hat & Hkfa).
  exists default. repeat (split; [assumption|]). split; [|split].
  - intros Hg. rewrite Hkfa. unfold dict_get. rewrite Hg. reflexivity.
  - intros now'. destruct (Hd now') as (default' & Hdef' & _).
    exists default'. split; [exact Hdef'|]. intros k Hk.
    exact (default_profile_clock _ _ _ _ _ _ Hdef Hdef' Hk).
  - intros create e He Hraise.
    destruct (generate_user_profile_eq create now samples.answers eq_refl)
      as (c & request & _ & _ & ->).
    rewrite Hraise.
    destruct e; try contradiction; (eexists; split; [reflexivity|]; repeat split).
Qed.

End Generator.

Lemma generation_falls_back_unless_object_witness :
  usable_answers samples.answers = true /\
  exists default language_code request,
    get_default_profile json_codec.str samples.noon samples.answers = Ok default /\
    validate_profile default = true /\
    get_language_code (dict_get samples.answers "language" (JStr "English"))
    = Ok language_code /\
    req_model request = "llama-3.3-70b-versatile" /\
    match (fun _ => Raises TransportError) request with
    | Raises e =>
        e <> JSONDecodeError ->
        generate_user_profile json_codec.str json_codec.loads
          (fun _ => Raises TransportError) samples.noon samples.answers
        = Ok default
    | Returns content =>
        match json_codec.loads (unwrap_content content) with
        | Some (JObj profile) =>
            generate_user_profile json_codec.str json_codec.loads
              (fun _ => Raises TransportError) samples.noon samples.answers
            = Ok (with_metadata samples.noon language_code samples.answers profile) /\
            validate_profile
              (with_metadata samples.noon language_code samples.answers profile)
            = forallb (contains profile)
                ["system_message_daily_planning"; "system_message_weekly_review";
                 "coaching_tone"; "key_focus_areas"; "time_block_size"]
        | _ =>
            generate_user_profile json_codec.str json_codec.loads
              (fun _ => Raises TransportError) samples.noon samples.answers
            = Ok default
        end
    end.
Proof.
  split; [reflexivity|].
  apply (generation_falls_back_unless_object json_codec.str json_codec.loads
           (fun _ => Raises TransportError) samples.noon samples.answers).
  reflexivity.
Defined.

(** C1 as stated fails.  The response is a well-formed JSON object that
    lacks [coaching_tone]: the generator returns it with the metadata
    attached, not the default profile, and it does not pass validation. *)
Lemma incomplete_response_is_returned :
  usable_answers samples.answers = true /\
  (json_codec.loads samples.incomplete_response
     ≫= fun v => match v with
                 | JObj object => Some (contains object <$> requested_fields)
                 | _ => None
                 end)
  = Some [true; true; false; true; true; true] /\
  (validate_profile <$>
     generate_user_profile json_codec.str json_codec.loads
       (fun _ => Returns samples.incomplete_response) samples.noon samples.answers)
  = Ok false /\
  ((.!! "is_default") <$>
     generate_user_profile json_codec.str json_codec.loads
       (fun _ => Returns samples.incomplete_response) samples.noon samples.answers)
  = Ok None /\
  ((.!! "is_default") <$>
     get_default_profile json_codec.str samples.noon samples.answers)
  = Ok (Some (JBool true)) /\
  generate_user_profile json_codec.str json_codec.loads
    (fun _ => Returns samples.incomplete_response) samples.noon samples.answers
  <> get_default_profile json_codec.str samples.noon samples.answers.
Proof.
  split; [reflexivity|].
  split; [vm_compute; reflexivity|].
  split; [vm_compute; reflexivity|].
  split; [vm_compute; reflexivity|].
  split; [vm_compute; reflexivity|].
  intros Heq.
  apply (f_equal (fmap (M := result) (.!! "is_default"))) in Heq.
  vm_compute in Heq. discriminate.
Qed.

Lemma default_profile_fields_witness :
  usable_answers samples.answers = true /\
  exists default,
    get_default_profile json_codec.str samples.noon samples.answers = Ok default /\
    default !! "coaching_tone" = Some (JStr "encouraging, practical") /\
    default !! "time_block_size" = Some (JNum 30) /\
    default !! "islamic_emphasis" = Some (JStr "medium") /\
    default !! "is_default" = Some (JBool true) /\
    default !! "created_at" = Some (JStr samples.noon) /\
    default !! "key_focus_areas"
    = Some match dict_get samples.answers "goals" (JList []) with
           | JList items => JList (take 3 items)
           | _ => generic_focus_areas
           end /\
    (samples.answers !! "goals" = None ->
     default !! "key_focus_areas" = Some (JList [])) /\
    (forall now', exists default',
       get_default_profile json_codec.str now' samples.answers = Ok default' /\
       forall k, k <> "created_at" -> default' !! k = default !! k) /\
    (forall create e,
       e <> JSONDecodeError ->
       (forall request, create request = Raises e) ->
       exists profile,
         generate_user_profile json_codec.str json_codec.loads create
           samples.noon samples.answers = Ok profile /\
         profile !! "is_default" = Some (JBool true) /\
         profile !! "language_code" = Some (JStr "de") /\
         profile !! "key_focus_areas"
         = Some (JList [JStr "Quran memorization/study"; JStr "Career development"])).
Proof.
  split; [reflexivity|].
  apply (default_profile_fields json_codec.str json_codec.loads
           samples.noon samples.answers).
  reflexivity.
Defined.

(** C5 as stated fails.  With an empty list of goals the focus areas are
    the empty list, not the generic three; on goals that are numbers,
    which are not usable answers, no profile is returned; and two calls
    on the same answers at different times give different profiles. *)
Lemma empty_goals_give_no_focus_areas :
  samples.no_goals !! "goals" = Some (JList []) /\
  ((.!! "key_focus_areas") <$>
     get_default_profile json_codec.str samples.noon samples.no_goals)
  = Ok (Some (JList [])) /\
  JList [] <> generic_focus_areas /\
  usable_answers samples.numeric_goals = false /\
  get_default_profile json_codec.str samples.noon samples.numeric_goals
  = Raise TypeError /\
  is_ok (get_default_profile json_codec.str samples.noon samples.answers) = true /\
  get_default_profile json_codec.str samples.noon samples.answers
  <> get_default_profile json_codec.str samples.evening samples.answers.
Proof.
  split; [vm_compute; reflexivity|].
  split; [vm_compute; reflexivity|].
  split; [discriminate|].
  split; [vm_compute; reflexivity|].
  split; [vm_compute; reflexivity|].
  split; [vm_compute; reflexivity|].
  intros Heq.
  apply (f_equal (fmap (M := result) (.!! "created_at"))) in Heq.
  vm_compute in Heq. discriminate.
Qed.

End onboarding_proofs.

Module database_proofs.
Import database conditions.

(** ** Byte order on TEXT values *)

Lemma ltb_lt a b : String.ltb a b = true <-> String_as_OT.lt a b.
Proof.
  unfold String.ltb. rewrite <- String_as_OT.cmp_lt.
  change (String_as_OT.cmp a b) with (String.compare a b).
  destruct (String.compare a b); split; congruence.
Qed.

Lemma ltb_irrefl a : String.ltb a a = false.
Proof.
  apply not_true_is_false. rewrite ltb_lt. intros H.
  exact (String_as_OT.lt_not_eq _ _ H eq_refl).
Qed.

Lemma ltb_trans a b c :
  String.ltb a b = true -> String.ltb b c = true -> String.ltb a c = true.
Proof. rewrite !ltb_lt. apply String_as_OT.lt_trans. Qed.

Lemma ltb_asym a b : String.ltb a b = true -> String.ltb b a = false.
Proof.
  intros H. apply not_true_is_false. intros H'.
  pose proof (ltb_trans _ _ _ H H') as Haa. rewrite ltb_irrefl in Haa.
  discriminate.
Qed.

Lemma ltb_total a b :
  String.ltb a b = true \/ a = b \/ String.ltb b a = true.
Proof.
  unfold String.ltb. rewrite (String.compare_antisym a b).
  destruct (String.compare b a) eqn:Hc; simpl; auto.
  right. left. symmetry. now apply String.compare_eq_iff.
Qed.

(** [a <= b] and [b <= c] give [a <= c]. *)
Lemma not_ltb_trans a b c :
  String.ltb b a = false -> String.ltb c b = false -> String.ltb c a = false.
Proof.
  intros Hab Hbc. apply not_true_is_false. intros Hca.
  destruct (ltb_total a b) as [H | [-> | H]].
  - rewrite (ltb_trans _ _ _ Hca H) in Hbc. discriminate.
  - congruence.
  - congruence.
Qed.

(** ** [ORDER BY key DESC LIMIT 1] *)

Section OrderBy.
Context {R : Type} (key : R -> string).

Lemma order_by_None rows :
  order_by_desc_limit_1 key rows = None <-> rows = [].
Proof.
  split; [|now intros ->]. destruct rows as [|r rest]; [reflexivity|].
  simpl. destruct (order_by_desc_limit_1 key rest); [|discriminate].
  destruct (String.ltb _ _); discriminate.
Qed.

Lemma order_by_elem rows r :
  order_by_desc_limit_1 key rows = Some r -> r ∈ rows.
Proof.
  revert r. induction rows as [|x rest IH]; intros r; [discriminate|].
  simpl. destruct (order_by_desc_limit_1 key rest) as [best|].
  - destruct (String.ltb (key x) (key best)); intros [= <-].
    + right. now apply IH.
    + left.
  - intros [= <-]. left.
Qed.

Lemma order_by_greatest rows r :
  order_by_desc_limit_1 key rows = Some r ->
  forall r', r' ∈ rows -> String.ltb (key r) (key r') = false.
Proof.
  revert r. induction rows as [|x rest IH]; intros r; [discriminate|].
  simpl. destruct (order_by_desc_limit_1 key rest) as [best|] eqn:Hbest.
  - destruct (String.ltb (key x) (key best)) eqn:Hlt; intros [= <-] r' Hin;
      apply elem_of_cons in Hin as [-> | Hin].
    + now apply ltb_asym.
    + now apply IH.
    + apply ltb_irrefl.
    + apply (not_ltb_trans _ (key best)); [now apply IH | exact Hlt].
  - apply order_by_None in Hbest as ->. intros [= <-] r' Hin.
    apply elem_of_cons in Hin as [-> | Hin]; [apply ltb_irrefl|].
    now apply elem_of_nil in Hin.
Qed.

(** A row appended with a key above all the others is the one
    selected. *)
Lemma order_by_newest rows x :
  (forall r, r ∈ rows -> String.ltb (key r) (key x) = true) ->
  order_by_desc_limit_1 key (rows ++ [x]) = Some x.
Proof.
  induction rows as [|r rest IH]; intros H; [reflexivity|].
  simpl. rewrite IH.
  - rewrite H; [reflexivity | left].
  - intros r' Hin. apply H. now right.
Qed.

(** On keys that grow along the rows, the one selected is the last. *)
Lemma order_by_increasing rows :
  StronglySorted (fun a b => String.ltb (key a) (key b) = true) rows ->
  order_by_desc_limit_1 key rows = last rows.
Proof.
  induction 1 as [|x rest Hrest IH Hx]; [reflexivity|].
  simpl order_by_desc_limit_1. rewrite IH, last_cons.
  destruct (last rest) as [best|] eqn:Hlast; [|reflexivity].
  assert (Hin : best ∈ rest).
  { apply last_Some in Hlast as (front & ->). apply elem_of_app. right. left. }
  rewrite Forall_forall in Hx. now rewrite (Hx best Hin).
Qed.

Lemma increasing_filter (P : R -> Prop) `{forall r, Decision (P r)} rows :
  StronglySorted (fun a b => String.ltb (key a) (key b) = true) rows ->
  StronglySorted (fun a b => String.ltb (key a) (key b) = true) (filter P rows).
Proof.
  induction 1 as [|x rest Hrest IH Hx]; [constructor|].
  destruct (decide (P x)) as [Hp|Hp].
  - rewrite filter_cons_True by exact Hp. constructor; [exact IH|].
    rewrite Forall_forall in *. intros r Hin. apply Hx.
    now apply list_elem_of_filter in Hin as [_ Hin].
  - now rewrite filter_cons_False by exact Hp.
Qed.
End OrderBy.

(** ** The table of profiles *)

Lemma deactivate_inactive r : user_profiles.is_active (deactivate r) <> 1.
Proof.
  unfold deactivate. destruct (Z.eqb_spec (user_profiles.is_active r) 1); simpl; lia.
Qed.

Lemma filter_active_deactivate rows :
  filter (fun r => user_profiles.is_active r = 1) (deactivate <$> rows) = [].
Proof.
  induction rows as [|r rest IH]; [reflexivity|].
  rewrite fmap_cons, filter_cons_False; [exact IH | apply deactivate_inactive].
Qed.

Lemma active_after_save dumps now profile_data s :
  filter (fun r => user_profiles.is_active r = 1) (tbl_user_profiles (save_user_profile dumps now profile_data s).1)
  = [ {| user_profiles.id := seq_user_profiles s + 1;
         user_profiles.profile_data := dumps (JObj profile_data);
         user_profiles.created_at := now;
         user_profiles.updated_at := now;
         user_profiles.is_active := 1 |} ].
Proof.
  simpl. rewrite filter_app, filter_active_deactivate. reflexivity.
Qed.

Lemma active_profiles_save dumps now profile_data s :
  active_profiles (save_user_profile dumps now profile_data s).1 = 1%nat.
Proof. unfold active_profiles. now rewrite active_after_save. Qed.

Lemma active_profiles_update dumps now user_id profile_data s :
  active_profiles (update_user_profile dumps now user_id profile_data s).1
  = active_profiles s.
Proof.
  unfold active_profiles. simpl.
  induction (tbl_user_profiles s) as [|r rest IH]; [reflexivity|].
  rewrite fmap_cons.
  destruct (decide (user_profiles.is_active r = 1)) as [Ha|Ha].
  - rewrite (filter_cons_True _ r) by exact Ha.
    rewrite filter_cons_True; [simpl; now rewrite IH|].
    destruct (Z.eqb_spec (user_profiles.id r) user_id); exact Ha.
  - rewrite (filter_cons_False _ r) by exact Ha.
    rewrite filter_cons_False; [exact IH|].
    destruct (Z.eqb_spec (user_profiles.id r) user_id); exact Ha.
Qed.

Lemma reachable_active_profiles dumps s :
  reachable dumps s -> (active_profiles s <= 1)%nat.
Proof.
  induction 1 as [now | c s Hs IH].
  - unfold active_profiles. simpl. lia.
  - destruct c; cbn [run].
    + exact IH.
    + unfold active_profiles. simpl. lia.
    + rewrite active_profiles_save. lia.
    + now rewrite active_profiles_update.
    + exact IH.
    + exact IH.
Qed.

Lemma get_active_after_save dumps loads now profile_data s :
  get_active_user_profile loads (save_user_profile dumps now profile_data s).1
  = (profile ← profile_of_row loads
       {| user_profiles.id := seq_user_profiles s + 1;
          user_profiles.profile_data := dumps (JObj profile_data);
          user_profiles.created_at := now;
          user_profiles.updated_at := now;
          user_profiles.is_active := 1 |};
     Ok (Some profile)).
Proof.
  unfold get_active_user_profile. rewrite active_after_save. reflexivity.
Qed.

Lemma profile_of_row_round_trip dumps loads id now profile_data :
  loads (dumps (JObj profile_data)) = Some (JObj profile_data) ->
  profile_of_row loads
    {| user_profiles.id := id;
       user_profiles.profile_data := dumps (JObj profile_data);
       user_profiles.created_at := now;
       user_profiles.updated_at := now;
       user_profiles.is_active := 1 |}
  = Ok (with_db_fields id now now profile_data).
Proof. intros H. unfold profile_of_row. simpl. rewrite H. reflexivity. Qed.


(** ** C2: a single active profile *)

(** C2.  In every state that a sequence of calls reaches, at most one
    profile row is active, and after a [save_user_profile] exactly one
    is.  After two saves exactly one row is active and
    [get_active_user_profile] reads the row of the second: the decoded
    second profile with its id and timestamps, when [json.loads] undoes
    [json.dumps] on it. *)
Theorem single_active_profile (dumps : json -> string)
    (loads : string -> option json) (s : db) :
  reachable dumps s ->
  (active_profiles s <= 1)%nat /\
  (forall now profile_data,
     active_profiles (save_user_profile dumps now profile_data s).1 = 1%nat) /\
  (forall now1 first now2 second,
     let s1 := (save_user_profile dumps now1 first s).1 in
     let s2 := (save_user_profile dumps now2 second s1).1 in
     let id2 := (save_user_profile dumps now2 second s1).2 in
     active_profiles s2 = 1%nat /\
     get_active_user_profile loads s2
     = (profile ← profile_of_row loads
          {| user_profiles.id := id2;
             user_profiles.profile_data := dumps (JObj second);
             user_profiles.created_at := now2;
             user_profiles.updated_at := now2;
             user_profiles.is_active := 1 |};
        Ok (Some profile)) /\
     (loads (dumps (JObj second)) = Some (JObj second) ->
      get_active_user_profile loads s2
      = Ok (Some (with_db_fields id2 now2 now2 second)))).
Proof.
  intros Hs. split; [now apply (reachable_active_profiles dumps)|].
  split; [intros; apply active_profiles_save|].
  intros now1 first now2 second s1 s2 id2.
  split; [apply active_profiles_save|].
  split; [apply get_active_after_save|].
  intros Hrt. subst s2. rewrite get_active_after_save.
  rewrite (profile_of_row_round_trip dumps loads _ _ _ Hrt). reflexivity.
Qed.

Lemma single_active_profile_witness :
  reachable json_codec.dumps samples.fresh /\
  (active_profiles samples.fresh <= 1)%nat /\
  (forall now profile_data,
     active_profiles
       (save_user_profile json_codec.dumps now profile_data samples.fresh).1 = 1%nat) /\
  (forall now1 first now2 second,
     let s1 := (save_user_profile json_codec.dumps now1 first samples.fresh).1 in
     let s2 := (save_user_profile json_codec.dumps now2 second s1).1 in
     let id2 := (save_user_profile json_codec.dumps now2 second s1).2 in
     active_profiles s2 = 1%nat /\
     get_active_user_profile json_codec.loads s2
     = (profile ← profile_of_row json_codec.loads
          {| user_profiles.id := id2;
             user_profiles.profile_data := json_codec.dumps (JObj second);
             user_profiles.created_at := now2;
             user_profiles.updated_at := now2;
             user_profiles.is_active := 1 |};
        Ok (Some profile)) /\
     (json_codec.loads (json_codec.dumps (JObj second)) = Some (JObj second) ->
      get_active_user_profile json_codec.loads s2
      = Ok (Some (with_db_fields id2 now2 now2 second)))).
Proof.
  split; [apply reachable_init|].
  apply (single_active_profile json_codec.dumps json_codec.loads samples.fresh).
  apply reachable_init.
Defined.

(** ** C9: saving a profile and reading it back *)

(** C9, as amended.  For a profile that [json.loads] recovers from its
    [json.dumps] text, a [get_active_user_profile] right after
    [save_user_profile] returns the profile with [db_id] set to the id
    that the save returned and [db_created_at], [db_updated_at] set to
    the time of the save, whatever the profile had under these three
    keys; every other key reads as in the profile saved. *)
Theorem save_then_read (dumps : json -> string) (loads : string -> option json)
    (now : string) (profile_data : gmap string json) (s : db) :
  loads (dumps (JObj profile_data)) = Some (JObj profile_data) ->
  exists profile,
    get_active_user_profile loads (save_user_profile dumps now profile_data s).1
    = Ok (Some profile) /\
    profile !! "db_id" = Some (JNum (save_user_profile dumps now profile_data s).2) /\
    profile !! "db_created_at" = Some (JStr now) /\
    profile !! "db_updated_at" = Some (JStr now) /\
    (forall k, k <> "db_id" -> k <> "db_created_at" -> k <> "db_updated_at" ->
               profile !! k = profile_data !! k).
Proof.
  intros Hrt. eexists. split.
  - rewrite get_active_after_save.
    rewrite (profile_of_row_round_trip dumps loads _ _ _ Hrt). reflexivity.
  - unfold with_db_fields. cbn [snd save_user_profile].
    split; [|split; [|split]].
    + rewrite !lookup_insert_ne by discriminate. apply lookup_insert_eq.
    + rewrite lookup_insert_ne by discriminate. apply lookup_insert_eq.
    + apply lookup_insert_eq.
    + intros k H1 H2 H3. now rewrite !lookup_insert_ne by congruence.
Qed.

Lemma save_then_read_witness :
  json_codec.loads (json_codec.dumps (JObj samples.profile))
  = Some (JObj samples.profile) /\
  exists profile,
    get_active_user_profile json_codec.loads
      (save_user_profile json_codec.dumps samples.noon samples.profile samples.fresh).1
    = Ok (Some profile) /\
    profile !! "db_id"
    = Some (JNum (save_user_profile json_codec.dumps samples.noon samples.profile
                    samples.fresh).2) /\
    profile !! "db_created_at" = Some (JStr samples.noon) /\
    profile !! "db_updated_at" = Some (JStr samples.noon) /\
    (forall k, k <> "db_id" -> k <> "db_created_at" -> k <> "db_updated_at" ->
               profile !! k = samples.profile !! k).
Proof.
  assert (H : json_codec.loads (json_codec.dumps (JObj samples.profile))
              = Some (JObj samples.profile)) by (vm_compute; reflexivity).
  split; [exact H|].
  exact (save_then_read json_codec.dumps json_codec.loads samples.noon
           samples.profile samples.fresh H).
Defined.

(** C9 as stated fails: a profile that has a [db_id] of its own, 99,
    comes back with the id of its row, 1, so not with the fields it was
    saved with. *)
Lemma stored_db_id_is_overwritten :
  json_codec.loads (json_codec.dumps (JObj samples.profile_with_db_id))
  = Some (JObj samples.profile_with_db_id) /\
  samples.profile_with_db_id !! "db_id" = Some (JNum 99) /\
  (save_user_profile json_codec.dumps samples.noon samples.profile_with_db_id
     samples.fresh).2 = 1 /\
  ((fun read => read ≫= (.!! "db_id")) <$>
     get_active_user_profile json_codec.loads
       (save_user_profile json_codec.dumps samples.noon samples.profile_with_db_id
          samples.fresh).1)
  = Ok (Some (JNum 1)) /\
  ((fun read => read ≫= (.!! "coaching_tone")) <$>
     get_active_user_profile json_codec.loads
       (save_user_profile json_codec.dumps samples.noon samples.profile_with_db_id
          samples.fresh).1)
  = Ok (Some (JStr "calm")).
Proof. repeat split; vm_compute; reflexivity. Qed.


(** ** C10: updating a profile in place *)

Lemma update_lookup dumps now user_id profile_data s i r :
  tbl_user_profiles s !! i = Some r ->
  exists r',
    tbl_user_profiles (update_user_profile dumps now user_id profile_data s).1 !! i
    = Some r' /\
    user_profiles.id r' = user_profiles.id r /\
    user_profiles.created_at r' = user_profiles.created_at r /\
    user_profiles.is_active r' = user_profiles.is_active r /\
    (user_profiles.id r <> user_id -> r' = r) /\
    (user_profiles.id r = user_id ->
     user_profiles.profile_data r' = dumps (JObj profile_data) /\
     user_profiles.updated_at r' = now).
Proof.
  intros Hi. cbn [fst update_user_profile tbl_user_profiles].
  rewrite list_lookup_fmap, Hi. eexists. split; [reflexivity|].
  destruct (Z.eqb_spec (user_profiles.id r) user_id) as [He|Hne]; simpl;
    repeat split; try reflexivity; intros; congruence.
Qed.

Lemma update_no_row dumps now user_id profile_data s :
  (forall r, r ∈ tbl_user_profiles s -> user_profiles.id r <> user_id) ->
  update_user_profile dumps now user_id profile_data s = (s, false).
Proof.
  intros Hno. unfold update_user_profile. f_equal.
  - destruct s as [rows ? ? ? ? ? ?]. cbn in *. f_equal.
    induction rows as [|r rest IH]; [reflexivity|].
    rewrite fmap_cons. f_equal.
    + destruct (Z.eqb_spec (user_profiles.id r) user_id) as [He|]; [|reflexivity].
      exfalso. apply (Hno r); [left | exact He].
    + apply IH. intros r' Hin. apply Hno. now right.
  - apply bool_decide_eq_false.
    replace (filter _ (tbl_user_profiles s)) with (@nil user_profiles.row); [simpl; lia|].
    symmetry. induction (tbl_user_profiles s) as [|r rest IH]; [reflexivity|].
    rewrite filter_cons_False.
    + apply IH. intros r' Hin. apply Hno. now right.
    + apply Hno. left.
Qed.

Lemma update_some_row dumps now user_id profile_data s :
  (exists r, r ∈ tbl_user_profiles s /\ user_profiles.id r = user_id) ->
  (update_user_profile dumps now user_id profile_data s).2 = true.
Proof.
  intros (r & Hin & Hid). cbn [snd update_user_profile].
  apply bool_decide_eq_true.
  assert (Hf : r ∈ filter (fun r => user_profiles.id r = user_id) (tbl_user_profiles s))
    by (apply list_elem_of_filter; auto).
  destruct (filter _ _); [now apply elem_of_nil in Hf | simpl; lia].
Qed.

(** C10, as amended.  For an id outside the signed 64-bit range the call
    of [update_user_profile] raises [OverflowError].  For an id within
    it, the call returns [False] and leaves the store as it is when no
    profile row has the id.  When one has, it returns [True]; the row
    keeps its id, its creation time and its active flag and gets the new
    data and update time; every other row, and every other table, is
    unchanged; so the number of active profiles is the same before and
    after. *)
Theorem update_rewrites_one_row (dumps : json -> string) (now : string)
    (user_id : Z) (profile_data : gmap string json) (s : db) :
  (int64 user_id = false ->
   update_user_profile_call dumps now user_id profile_data s = Raise OverflowError) /\
  (int64 user_id = true ->
   exists s' success,
     update_user_profile_call dumps now user_id profile_data s = Ok (s', success) /\
     ((forall r, r ∈ tbl_user_profiles s -> user_profiles.id r <> user_id) ->
      success = false /\ s' = s) /\
     ((exists r, r ∈ tbl_user_profiles s /\ user_profiles.id r = user_id) ->
      success = true) /\
     length (tbl_user_profiles s') = length (tbl_user_profiles s) /\
     (forall i r,
        tbl_user_profiles s !! i = Some r ->
        exists r',
          tbl_user_profiles s' !! i = Some r' /\
          user_profiles.id r' = user_profiles.id r /\
          user_profiles.created_at r' = user_profiles.created_at r /\
          user_profiles.is_active r' = user_profiles.is_active r /\
          (user_profiles.id r <> user_id -> r' = r) /\
          (user_profiles.id r = user_id ->
           user_profiles.profile_data r' = dumps (JObj profile_data) /\
           user_profiles.updated_at r' = now)) /\
     seq_user_profiles s' = seq_user_profiles s /\
     tbl_daily_plans s' = tbl_daily_plans s /\
     tbl_weekly_reviews s' = tbl_weekly_reviews s /\
     tbl_app_metadata s' = tbl_app_metadata s /\
     active_profiles s' = active_profiles s /\
     ((active_profiles s <= 1)%nat -> (active_profiles s' <= 1)%nat)).
Proof.
  unfold update_user_profile_call.
  split; intros Hid; rewrite Hid; [reflexivity|].
  exists (update_user_profile dumps now user_id profile_data s).1,
         (update_user_profile dumps now user_id profile_data s).2.
  split; [reflexivity|].
  split; [|split; [|split; [|split]]].
  - intros Hno. now rewrite (update_no_row _ _ _ _ _ Hno).
  - apply update_some_row.
  - cbn [fst update_user_profile tbl_user_profiles]. apply length_fmap.
  - intros i r. apply update_lookup.
  - repeat (split; [reflexivity|]).
    split; [apply active_profiles_update|].
    now rewrite active_profiles_update.
Qed.

Lemma update_rewrites_one_row_witness :
  int64 1 = true /\
  (exists r,
     r ∈ tbl_user_profiles
           (save_user_profile json_codec.dumps samples.noon samples.profile
              samples.fresh).1 /\
     user_profiles.id r = 1) /\
  (snd <$>
     update_user_profile_call json_codec.dumps samples.evening 1 samples.answers
       (save_user_profile json_codec.dumps samples.noon samples.profile
          samples.fresh).1)
  = Ok true.
Proof.
  assert (H : exists r,
     r ∈ tbl_user_profiles
           (save_user_profile json_codec.dumps samples.noon samples.profile
              samples.fresh).1 /\
     user_profiles.id r = 1).
  { eexists. split; [apply list_elem_of_here | reflexivity]. }
  split; [reflexivity|]. split; [exact H|].
  destruct (proj2 (update_rewrites_one_row json_codec.dumps samples.evening 1
                     samples.answers
                     (save_user_profile json_codec.dumps samples.noon samples.profile
                        samples.fresh).1) eq_refl)
    as (s' & success & Hcall & _ & Hsome & _).
  rewrite Hcall. cbn. f_equal. exact (Hsome H).
Defined.

(** C10 as stated fails: no row has the id [2 ^ 63], and the call does
    not return [False] for it, it raises. *)
Lemma update_beyond_int64_raises :
  (forall r,
     r ∈ tbl_user_profiles
           (save_user_profile json_codec.dumps samples.noon samples.profile
              samples.fresh).1 ->
     user_profiles.id r <> 2 ^ 63) /\
  update_user_profile_call json_codec.dumps samples.evening (2 ^ 63) samples.answers
    (save_user_profile json_codec.dumps samples.noon samples.profile samples.fresh).1
  = Raise OverflowError.
Proof.
  split; [|reflexivity].
  intros r Hin. cbn in Hin. apply list_elem_of_singleton in Hin as ->.
  cbn. discriminate.
Qed.


(** ** C6: daily plans *)

Lemma get_daily_plan_None user_id date s :
  get_daily_plan user_id date s = None <->
  forall r, r ∈ tbl_daily_plans s -> ~ plan_matches user_id date r.
Proof.
  unfold get_daily_plan.
  destruct (order_by_desc_limit_1 _ _) as [r|] eqn:Hsel.
  - split; [discriminate|]. intros Hno. exfalso.
    apply order_by_elem, list_elem_of_filter in Hsel as [Hm Hin].
    exact (Hno r Hin Hm).
  - split; [|reflexivity]. intros _ r Hin Hm.
    apply order_by_None in Hsel.
    assert (Hf : r ∈ filter (plan_matches user_id date) (tbl_daily_plans s))
      by (apply list_elem_of_filter; auto).
    rewrite Hsel in Hf. now apply elem_of_nil in Hf.
Qed.

Lemma get_daily_plan_Some user_id date s p :
  get_daily_plan user_id date s = Some p ->
  exists r,
    r ∈ tbl_daily_plans s /\ plan_matches user_id date r /\
    p = returned_plan date r /\
    forall r', r' ∈ tbl_daily_plans s -> plan_matches user_id date r' ->
               String.ltb (daily_plans.created_at r) (daily_plans.created_at r') = false.
Proof.
  unfold get_daily_plan.
  destruct (order_by_desc_limit_1 _ _) as [r|] eqn:Hsel; [|discriminate].
  intros [= <-]. exists r.
  pose proof (order_by_elem _ _ _ Hsel) as Hin.
  apply list_elem_of_filter in Hin as [Hm Hin].
  split; [exact Hin|]. split; [exact Hm|]. split; [reflexivity|].
  intros r' Hin' Hm'. apply (order_by_greatest _ _ _ Hsel).
  apply list_elem_of_filter. auto.
Qed.

(** A plan saved with a time above those of the matching plans is the
    one that [get_daily_plan] returns. *)
Lemma get_daily_plan_after_save now user_id date plan_content available_hours s :
  (forall r, r ∈ tbl_daily_plans s -> plan_matches user_id date r ->
             String.ltb (daily_plans.created_at r) now = true) ->
  get_daily_plan user_id date
    (save_daily_plan now user_id date plan_content available_hours s).1
  = Some {| id := (save_daily_plan now user_id date plan_content available_hours s).2;
            plan_content := plan_content;
            available_hours := available_hours;
            created_at := now;
            date := date |}.
Proof.
  intros Hold. unfold get_daily_plan.
  cbn [fst snd save_daily_plan tbl_daily_plans].
  rewrite filter_app, filter_cons_True by (split; reflexivity).
  rewrite filter_nil, (order_by_newest daily_plans.created_at).
  - reflexivity.
  - intros r Hin. apply list_elem_of_filter in Hin as [Hm Hin]. now apply Hold.
Qed.

(** While the clock grows from one save to the next, the plan returned is
    the matching one that was saved last. *)
Lemma get_daily_plan_last user_id date s :
  clock_increases (tbl_daily_plans s) ->
  get_daily_plan user_id date s
  = returned_plan date <$> last (filter (plan_matches user_id date) (tbl_daily_plans s)).
Proof.
  intros Hclock. unfold get_daily_plan.
  rewrite (order_by_increasing daily_plans.created_at).
  - now destruct (last _).
  - now apply increasing_filter.
Qed.

(** C6, as amended.  For an owner id that SQLite can bind, one in the
    signed 64-bit range: [save_daily_plan] appends one row under a fresh
    id and touches nothing else, whether or not a plan for that owner
    and date exists.  [get_daily_plan] returns nothing exactly when no
    row matches, and else a matching row whose creation time no matching
    row exceeds: creation order is the order of the [created_at] texts.
    While the clock readings grow from one save to the next, that row is
    the matching plan saved last.  After two saves for the same owner
    and date, the second at a later clock reading than the first and
    than every matching plan stored before, it returns the second. *)
Theorem daily_plan_insert_and_latest (user_id : Z) (date : string) (s : db) :
  int64 user_id = true ->
  (forall now plan_content available_hours,
     let saved := save_daily_plan now user_id date plan_content available_hours s in
     tbl_daily_plans saved.1
     = (tbl_daily_plans s ++
         [ {| daily_plans.id := saved.2;
              daily_plans.user_id := user_id;
              daily_plans.date := date;
              daily_plans.plan_content := plan_content;
              daily_plans.available_hours := available_hours;
              daily_plans.created_at := now |} ])%list /\
     saved.2 = seq_daily_plans s + 1 /\
     seq_daily_plans saved.1 = saved.2 /\
     tbl_user_profiles saved.1 = tbl_user_profiles s /\
     tbl_weekly_reviews saved.1 = tbl_weekly_reviews s /\
     tbl_app_metadata saved.1 = tbl_app_metadata s) /\
  (get_daily_plan user_id date s = None <->
   forall r, r ∈ tbl_daily_plans s -> ~ plan_matches user_id date r) /\
  (forall p,
     get_daily_plan user_id date s = Some p ->
     exists r,
       r ∈ tbl_daily_plans s /\ plan_matches user_id date r /\
       p = returned_plan date r /\
       forall r', r' ∈ tbl_daily_plans s -> plan_matches user_id date r' ->
                  String.ltb (daily_plans.created_at r) (daily_plans.created_at r')
                  = false) /\
  (clock_increases (tbl_daily_plans s) ->
   get_daily_plan user_id date s
   = returned_plan date
       <$> last (filter (plan_matches user_id date) (tbl_daily_plans s))) /\
  (forall now1 content1 hours1 now2 content2 hours2,
     String.ltb now1 now2 = true ->
     (forall r, r ∈ tbl_daily_plans s -> plan_matches user_id date r ->
                String.ltb (daily_plans.created_at r) now2 = true) ->
     let s1 := (save_daily_plan now1 user_id date content1 hours1 s).1 in
     let second := save_daily_plan now2 user_id date content2 hours2 s1 in
     get_daily_plan user_id date second.1
     = Some {| id := second.2;
               plan_content := content2;
               available_hours := hours2;
               created_at := now2;
               date := date |}).
Proof.
  intros _. split; [|split; [|split; [|split]]].
  - intros now plan_content available_hours saved. subst saved.
    repeat split.
  - apply get_daily_plan_None.
  - intros p. apply get_daily_plan_Some.
  - apply get_daily_plan_last.
  - intros now1 content1 hours1 now2 content2 hours2 Hlt Hold s1 second.
    subst second. apply get_daily_plan_after_save.
    intros r Hin Hm. subst s1.
    cbn [fst save_daily_plan tbl_daily_plans] in Hin.
    apply elem_of_app in Hin as [Hin | Hin]; [now apply Hold|].
    apply list_elem_of_singleton in Hin as ->. exact Hlt.
Qed.

Lemma daily_plan_insert_and_latest_witness :
  int64 1 = true /\
  String.ltb samples.noon samples.evening = true /\
  (forall r, r ∈ tbl_daily_plans samples.fresh -> plan_matches 1 "2024-12-16" r ->
             String.ltb (daily_plans.created_at r) samples.evening = true) /\
  get_daily_plan 1 "2024-12-16"
    (save_daily_plan samples.evening 1 "2024-12-16" "9:00-10:00 Work" (2 # 1)
       (save_daily_plan samples.noon 1 "2024-12-16" "9:00-10:00 Quran" (3 # 1)
          samples.fresh).1).1
  = Some {| id := 2;
            plan_content := "9:00-10:00 Work";
            available_hours := (2 # 1);
            created_at := samples.evening;
            date := "2024-12-16" |}.
Proof.
  assert (Hlt : String.ltb samples.noon samples.evening = true) by reflexivity.
  assert (Hold : forall r, r ∈ tbl_daily_plans samples.fresh ->
                   plan_matches 1 "2024-12-16" r ->
                   String.ltb (daily_plans.created_at r) samples.evening = true).
  { intros r Hin. now apply elem_of_nil in Hin. }
  split; [reflexivity|]. split; [exact Hlt|]. split; [exact Hold|].
  exact (proj2 (proj2 (proj2 (proj2
           (daily_plan_insert_and_latest 1 "2024-12-16" samples.fresh eq_refl))))
           samples.noon "9:00-10:00 Quran" (3 # 1)
           samples.evening "9:00-10:00 Work" (2 # 1) Hlt Hold).
Defined.

(** C6 as stated fails: of two plans saved for the same owner and date
    at the same clock reading, or the second at an earlier reading than
    the first, [get_daily_plan] returns the first. *)
Lemma equal_clock_returns_first_plan :
  get_daily_plan 1 "2024-12-16"
    (save_daily_plan samples.noon 1 "2024-12-16" "9:00-10:00 Work" (2 # 1)
       (save_daily_plan samples.noon 1 "2024-12-16" "9:00-10:00 Quran" (3 # 1)
          samples.fresh).1).1
  = Some {| id := 1;
            plan_content := "9:00-10:00 Quran";
            available_hours := (3 # 1);
            created_at := samples.noon;
            date := "2024-12-16" |} /\
  get_daily_plan 1 "2024-12-16"
    (save_daily_plan samples.noon 1 "2024-12-16" "9:00-10:00 Work" (2 # 1)
       (save_daily_plan samples.evening 1 "2024-12-16" "9:00-10:00 Quran" (3 # 1)
          samples.fresh).1).1
  = Some {| id := 1;
            plan_content := "9:00-10:00 Quran";
            available_hours := (3 # 1);
            created_at := samples.evening;
            date := "2024-12-16" |}.
Proof. split; vm_compute; reflexivity. Qed.

End database_proofs.

(* ===================================================================== *)
(** * Further properties of the store *)
(* ===================================================================== *)

Module database_more.
Import database conditions database_proofs.

(** ** Identities and the active flag along the calls *)

Lemma numbered_snoc {R} (id : R -> Z) rows seq r :
  numbered id rows seq -> id r = seq + 1 -> numbered id (rows ++ [r]) (seq + 1).
Proof.
  intros [Hseq Hid] Hr. split.
  - rewrite length_app. simpl. lia.
  - intros i x Hi. destruct (decide (i < length rows)%nat) as [Hlt|Hge].
    + rewrite lookup_app_l in Hi by exact Hlt. now apply Hid.
    + rewrite lookup_app_r in Hi by lia.
      destruct (i - length rows)%nat as [|k] eqn:Hk; [|now destruct k].
      injection Hi as <-. rewrite Hr, Hseq. lia.
Qed.

Lemma numbered_fmap {R} (id : R -> Z) (f : R -> R) rows seq :
  (forall r, id (f r) = id r) ->
  numbered id rows seq -> numbered id (f <$> rows) seq.
Proof.
  intros Hf [Hseq Hid]. split.
  - now rewrite length_fmap.
  - intros i x Hi. rewrite list_lookup_fmap in Hi.
    destruct (rows !! i) as [r|] eqn:Hr; [|discriminate].
    injection Hi as <-. rewrite Hf. now apply Hid.
Qed.

Lemma numbered_nil {R} (id : R -> Z) : numbered id [] 0.
Proof. split; [reflexivity|]. intros i r Hi. now rewrite lookup_nil in Hi. Qed.

Lemma deactivate_id r : user_profiles.id (deactivate r) = user_profiles.id r.
Proof. unfold deactivate. now destruct (_ =? _)%Z. Qed.

(** The three tables are numbered in every state that the calls reach. *)
Lemma reachable_numbered dumps s :
  reachable dumps s ->
  numbered user_profiles.id (tbl_user_profiles s) (seq_user_profiles s) /\
  numbered daily_plans.id (tbl_daily_plans s) (seq_daily_plans s) /\
  numbered weekly_reviews.id (tbl_weekly_reviews s) (seq_weekly_reviews s).
Proof.
  induction 1 as [now | c s Hs (Hp & Hd & Hw)].
  - split; [|split]; apply numbered_nil.
  - destruct c; cbn [run].
    + split; [|split]; assumption.
    + split; [|split]; apply numbered_nil.
    + split; [|split; assumption].
      cbn [fst save_user_profile tbl_user_profiles seq_user_profiles].
      apply numbered_snoc; [|reflexivity].
      apply numbered_fmap; [apply deactivate_id | exact Hp].
    + split; [|split; assumption].
      cbn [fst update_user_profile tbl_user_profiles seq_user_profiles].
      apply numbered_fmap; [|exact Hp].
      intros r. now destruct (_ =? _)%Z.
    + split; [exact Hp|]. split; [|exact Hw].
      cbn [fst save_daily_plan tbl_daily_plans seq_daily_plans].
      now apply numbered_snoc.
    + split; [exact Hp|]. split; [exact Hd|].
      cbn [fst save_weekly_review tbl_weekly_reviews seq_weekly_reviews].
      now apply numbered_snoc.
Qed.



(** X2.  Once a profile has been saved there is exactly one active
    profile, and none before: the [active_profiles] count of
    [get_database_stats] is 1 when [total_profiles] is not 0, and 0 when it
    is. *)
Theorem one_active_once_saved (dumps : json -> string) (s : db) :
  reachable dumps s ->
  stats.active_profiles (get_database_stats s)
  = (if stats.total_profiles (get_database_stats s) is O then 0 else 1)%nat.
Proof.
  cbn [get_database_stats stats.active_profiles stats.total_profiles].
  induction 1 as [now | c s Hs IH]; [reflexivity|].
  destruct c; cbn [run].
  - exact IH.
  - reflexivity.
  - rewrite active_profiles_save.
    cbn [fst save_user_profile tbl_user_profiles].
    rewrite length_app. simpl. now rewrite Nat.add_1_r.
  - rewrite active_profiles_update.
    cbn [fst update_user_profile tbl_user_profiles]. now rewrite length_fmap.
  - exact IH.
  - exact IH.
Qed.

Lemma one_active_once_saved_witness :
  reachable json_codec.dumps
    (save_user_profile json_codec.dumps samples.noon samples.profile samples.fresh).1 /\
  stats.active_profiles
    (get_database_stats
       (save_user_profile json_codec.dumps samples.noon samples.profile samples.fresh).1)
  = (if stats.total_profiles
          (get_database_stats
             (save_user_profile json_codec.dumps samples.noon samples.profile
                samples.fresh).1) is O then 0 else 1)%nat.
Proof.
  assert (H : reachable json_codec.dumps
    (save_user_profile json_codec.dumps samples.noon samples.profile samples.fresh).1).
  { apply (reachable_run json_codec.dumps (SaveUserProfile samples.noon samples.profile)).
    apply reachable_init. }
  split; [exact H|].
  exact (one_active_once_saved json_codec.dumps _ H).
Defined.

End database_more.

Module database_updates.
Import database conditions database_proofs database_more.

(** X3.  In a state that the calls reach, [update_user_profile] returns
    [True] exactly for the ids between 1 and the number of profiles, which
    are the ids that [save_user_profile] has returned since the last
    reset, and it rewrites the one row at position [user_id - 1] only. *)
Theorem update_succeeds_on_saved_ids (dumps : json -> string) (now : string)
    (user_id : Z) (profile_data : gmap string json) (s : db) :
  reachable dumps s ->
  ((update_user_profile dumps now user_id profile_data s).2 = true <->
   1 <= user_id <= Z.of_nat (length (tbl_user_profiles s))) /\
  (forall i r,
     tbl_user_profiles s !! i = Some r -> Z.of_nat i + 1 <> user_id ->
     tbl_user_profiles (update_user_profile dumps now user_id profile_data s).1 !! i
     = Some r).
Proof.
  intros Hs. destruct (reachable_numbered _ _ Hs) as ((_ & Hid) & _).
  split.
  - split.
    + intros Hok. destruct (decide (1 <= user_id <= Z.of_nat (length (tbl_user_profiles s))))
        as [|Hout]; [assumption|].
      rewrite update_no_row in Hok; [discriminate|].
      intros r Hin Heq. apply list_elem_of_lookup in Hin as (i & Hi).
      pose proof (lookup_lt_Some _ _ _ Hi). rewrite (Hid _ _ Hi) in Heq. lia.
    + intros Hin. apply update_some_row.
      destruct (lookup_lt_is_Some_2 (tbl_user_profiles s) (Z.to_nat (user_id - 1)))
        as (r & Hr); [lia|].
      exists r. split; [now apply list_elem_of_lookup_2 in Hr|].
      rewrite (Hid _ _ Hr). lia.
  - intros i r Hi Hne.
    destruct (update_lookup dumps now user_id profile_data s i r Hi)
      as (r' & -> & _ & _ & _ & Hsame & _).
    f_equal. apply Hsame. rewrite (Hid _ _ Hi). exact Hne.
Qed.

Lemma update_succeeds_on_saved_ids_witness :
  reachable json_codec.dumps
    (save_user_profile json_codec.dumps samples.noon samples.profile samples.fresh).1 /\
  (update_user_profile json_codec.dumps samples.evening 2 samples.answers
     (save_user_profile json_codec.dumps samples.noon samples.profile samples.fresh).1).2
  <> true.
Proof.
  assert (H : reachable json_codec.dumps
    (save_user_profile json_codec.dumps samples.noon samples.profile samples.fresh).1).
  { apply (reachable_run json_codec.dumps (SaveUserProfile samples.noon samples.profile)).
    apply reachable_init. }
  split; [exact H|]. intros Hok.
  apply (proj1 (proj1 (update_succeeds_on_saved_ids json_codec.dumps samples.evening 2
                          samples.answers _ H))) in Hok.
  simpl in Hok. lia.
Defined.

(** X4.  [save_user_profile] keeps the history: every row that was there
    is still there, at its place, with its id, its data and its two
    timestamps; it is no longer active, and is unchanged if it was not;
    the table has one more row, the new one, which is active. *)
Theorem save_keeps_history (dumps : json -> string) (now : string)
    (profile_data : gmap string json) (s : db) :
  let s' := (save_user_profile dumps now profile_data s).1 in
  length (tbl_user_profiles s') = S (length (tbl_user_profiles s)) /\
  (forall i r,
     tbl_user_profiles s !! i = Some r ->
     exists r',
       tbl_user_profiles s' !! i = Some r' /\
       user_profiles.id r' = user_profiles.id r /\
       user_profiles.profile_data r' = user_profiles.profile_data r /\
       user_profiles.created_at r' = user_profiles.created_at r /\
       user_profiles.updated_at r' = user_profiles.updated_at r /\
       user_profiles.is_active r' <> 1 /\
       (user_profiles.is_active r <> 1 -> r' = r)) /\
  last (tbl_user_profiles s')
  = Some {| user_profiles.id := (save_user_profile dumps now profile_data s).2;
            user_profiles.profile_data := dumps (JObj profile_data);
            user_profiles.created_at := now;
            user_profiles.updated_at := now;
            user_profiles.is_active := 1 |} /\
  tbl_daily_plans s' = tbl_daily_plans s /\
  tbl_weekly_reviews s' = tbl_weekly_reviews s.
Proof.
  intros s'. subst s'. cbn [fst snd save_user_profile tbl_user_profiles
    tbl_daily_plans tbl_weekly_reviews].
  split; [|split; [|split; [|split; reflexivity]]].
  - rewrite length_app, length_fmap. simpl. lia.
  - intros i r Hi. exists (deactivate r). split.
    + rewrite lookup_app_l by (rewrite length_fmap; now apply lookup_lt_Some in Hi).
      now rewrite list_lookup_fmap, Hi.
    + unfold deactivate.
      destruct (Z.eqb_spec (user_profiles.is_active r) 1); simpl;
        repeat split; try reflexivity; try lia; try congruence.
  - apply last_snoc.
Qed.

(** X5.  Save a profile, update it under the id that the save returned,
    and read: the read gives the updated data with that id, the creation
    time of the save and the update time of the update, for data that
    [json.loads] recovers from its [json.dumps] text. *)
Theorem save_update_read (dumps : json -> string) (loads : string -> option json)
    (saved_at updated_at : string) (first second : gmap string json) (s : db) :
  loads (dumps (JObj second)) = Some (JObj second) ->
  let saved := save_user_profile dumps saved_at first s in
  let updated := update_user_profile dumps updated_at saved.2 second saved.1 in
  updated.2 = true /\
  get_active_user_profile loads updated.1
  = Ok (Some (with_db_fields saved.2 saved_at updated_at second)).
Proof.
  intros Hrt saved updated. subst saved updated. split.
  - apply update_some_row. eexists. split.
    + cbn [fst save_user_profile tbl_user_profiles]. apply elem_of_app. right.
      apply list_elem_of_here.
    + reflexivity.
  - unfold get_active_user_profile.
    cbn [fst snd save_user_profile update_user_profile tbl_user_profiles].
    rewrite fmap_app, filter_app.
    match goal with |- context [filter ?P (?f <$> (deactivate <$> ?rows))] =>
      replace (filter P (f <$> (deactivate <$> rows))) with (@nil user_profiles.row)
    end.
    + cbn [fmap list_fmap]. cbn [user_profiles.id]. rewrite Z.eqb_refl.
      rewrite filter_cons_True by reflexivity. rewrite filter_nil.
      cbn [app order_by_desc_limit_1]. unfold profile_of_row.
      cbn [user_profiles.profile_data]. rewrite Hrt. reflexivity.
    + symmetry. induction (tbl_user_profiles s) as [|r rest IH]; [reflexivity|].
      rewrite !fmap_cons, filter_cons_False; [exact IH|].
      pose proof (deactivate_inactive r).
      now destruct (_ =? _)%Z.
Qed.

Lemma save_update_read_witness :
  json_codec.loads (json_codec.dumps (JObj samples.answers)) = Some (JObj samples.answers) /\
  get_active_user_profile json_codec.loads
    (update_user_profile json_codec.dumps samples.evening
       (save_user_profile json_codec.dumps samples.noon samples.profile samples.fresh).2
       samples.answers
       (save_user_profile json_codec.dumps samples.noon samples.profile samples.fresh).1).1
  = Ok (Some (with_db_fields
                (save_user_profile json_codec.dumps samples.noon samples.profile
                   samples.fresh).2
                samples.noon samples.evening samples.answers)).
Proof.
  assert (H : json_codec.loads (json_codec.dumps (JObj samples.answers))
              = Some (JObj samples.answers)) by (vm_compute; reflexivity).
  split; [exact H|].
  exact (proj2 (save_update_read json_codec.dumps json_codec.loads samples.noon
                  samples.evening samples.profile samples.answers samples.fresh H)).
Defined.

(** X6.  An update under an id that no active profile has does not change
    what [get_active_user_profile] returns. *)
Theorem update_elsewhere_keeps_active (dumps : json -> string)
    (loads : string -> option json) (now : string) (user_id : Z)
    (profile_data : gmap string json) (s : db) :
  (forall r, r ∈ tbl_user_profiles s -> user_profiles.is_active r = 1 ->
             user_profiles.id r <> user_id) ->
  get_active_user_profile loads (update_user_profile dumps now user_id profile_data s).1
  = get_active_user_profile loads s.
Proof.
  intros Hother. unfold get_active_user_profile.
  cbn [fst update_user_profile tbl_user_profiles].
  match goal with |- context [filter ?P (?f <$> tbl_user_profiles s)] =>
    assert (Hf : filter P (f <$> tbl_user_profiles s) = filter P (tbl_user_profiles s))
  end.
  { induction (tbl_user_profiles s) as [|r rest IH]; [reflexivity|].
    rewrite fmap_cons.
    assert (IH' : forall r', r' ∈ rest -> user_profiles.is_active r' = 1 ->
                             user_profiles.id r' <> user_id)
      by (intros r' Hin; apply Hother; now right).
    destruct (decide (user_profiles.is_active r = 1)) as [Ha|Ha].
    - assert (Hne : user_profiles.id r <> user_id) by (apply Hother; [left | exact Ha]).
      apply Z.eqb_neq in Hne. rewrite Hne.
      rewrite !filter_cons_True by exact Ha. f_equal. now apply IH.
    - rewrite (filter_cons_False _ r) by exact Ha.
      rewrite filter_cons_False; [now apply IH|].
      now destruct (_ =? _)%Z. }
  now rewrite Hf.
Qed.

Lemma update_elsewhere_keeps_active_witness :
  (forall r,
     r ∈ tbl_user_profiles
           (save_user_profile json_codec.dumps samples.noon samples.profile
              samples.fresh).1 ->
     user_profiles.is_active r = 1 -> user_profiles.id r <> 7) /\
  get_active_user_profile json_codec.loads
    (update_user_profile json_codec.dumps samples.evening 7 samples.answers
       (save_user_profile json_codec.dumps samples.noon samples.profile
          samples.fresh).1).1
  = get_active_user_profile json_codec.loads
      (save_user_profile json_codec.dumps samples.noon samples.profile samples.fresh).1.
Proof.
  assert (H : forall r,
     r ∈ tbl_user_profiles
           (save_user_profile json_codec.dumps samples.noon samples.profile
              samples.fresh).1 ->
     user_profiles.is_active r = 1 -> user_profiles.id r <> 7).
  { intros r Hin _. apply list_elem_of_singleton in Hin as ->. discriminate. }
  split; [exact H|].
  exact (update_elsewhere_keeps_active json_codec.dumps json_codec.loads
           samples.evening 7 samples.answers _ H).
Defined.

End database_updates.

Module database_queries.
Import database conditions database_proofs.

(** ** [ORDER BY key DESC] *)

Section OrderByDesc.
Context {R : Type} (key : R -> string).

Lemma insert_desc_perm r rows : insert_desc key r rows ≡ₚ r :: rows.
Proof.
  induction rows as [|x rest IH]; [reflexivity|].
  simpl. destruct (String.ltb (key r) (key x)); [|reflexivity].
  rewrite IH. apply Permutation_swap.
Qed.

Lemma order_by_desc_perm rows : order_by_desc key rows ≡ₚ rows.
Proof.
  induction rows as [|r rest IH]; [reflexivity|].
  simpl. rewrite insert_desc_perm. now rewrite IH.
Qed.

Lemma insert_desc_sorted r rows :
  greatest_first key rows -> greatest_first key (insert_desc key r rows).
Proof.
  unfold greatest_first. induction 1 as [|x rest Hrest IH Hx].
  - repeat constructor.
  - simpl. destruct (String.ltb (key r) (key x)) eqn:Hlt.
    + constructor; [exact IH|].
      rewrite insert_desc_perm. constructor; [now apply ltb_asym | exact Hx].
    + constructor; [now constructor|]. constructor; [exact Hlt|].
      eapply Forall_impl; [exact Hx|]. intros b Hb. simpl in Hb.
      now apply (not_ltb_trans _ (key x)).
Qed.

Lemma order_by_desc_sorted rows : greatest_first key (order_by_desc key rows).
Proof.
  induction rows as [|r rest IH]; [constructor|].
  simpl. now apply insert_desc_sorted.
Qed.

Lemma order_by_desc_length rows : length (order_by_desc key rows) = length rows.
Proof. now rewrite order_by_desc_perm. Qed.
End OrderByDesc.



(** ** X7: the most recent plans *)



(** ** X8: all the reviews of an owner *)


(** ** X9: the review of a week *)



(** ** X10: plans of other owners and dates *)

(** X10.  A plan saved for another owner or another date does not change
    the plan that [get_daily_plan] returns; nor does a save or an update
    of a profile, or a save of a review. *)
Theorem daily_plan_untouched_by_other_saves (dumps : json -> string)
    (user_id : Z) (date : string) (s : db) :
  (forall now other_id other_date plan_content available_hours,
     ~ (other_id = user_id /\ other_date = date) ->
     get_daily_plan user_id date
       (save_daily_plan now other_id other_date plan_content available_hours s).1
     = get_daily_plan user_id date s) /\
  (forall now profile_data,
     get_daily_plan user_id date (save_user_profile dumps now profile_data s).1
     = get_daily_plan user_id date s) /\
  (forall now id profile_data,
     get_daily_plan user_id date (update_user_profile dumps now id profile_data s).1
     = get_daily_plan user_id date s) /\
  (forall now owner week_start week_end review_content,
     get_daily_plan user_id date
       (save_weekly_review now owner week_start week_end review_content s).1
     = get_daily_plan user_id date s).
Proof.
  split; [|repeat split].
  intros now other_id other_date plan_content available_hours Hother.
  unfold get_daily_plan. cbn [fst save_daily_plan tbl_daily_plans].
  rewrite filter_app, filter_cons_False by exact Hother.
  now rewrite filter_nil, app_nil_r.
Qed.

Lemma daily_plan_untouched_by_other_saves_witness :
  ~ (2 = 1 /\ "2024-12-16" = "2024-12-16") /\
  get_daily_plan 1 "2024-12-16"
    (save_daily_plan samples.evening 2 "2024-12-16" "9:00-10:00 Work" (2 # 1)
       (save_daily_plan samples.noon 1 "2024-12-16" "9:00-10:00 Quran" (3 # 1)
          samples.fresh).1).1
  = get_daily_plan 1 "2024-12-16"
      (save_daily_plan samples.noon 1 "2024-12-16" "9:00-10:00 Quran" (3 # 1)
         samples.fresh).1.
Proof.
  assert (H : ~ (2 = 1 /\ "2024-12-16" = "2024-12-16")) by (intros [H _]; discriminate).
  split; [exact H|].
  exact (proj1 (daily_plan_untouched_by_other_saves json_codec.dumps 1 "2024-12-16" _)
           samples.evening 2 "2024-12-16" "9:00-10:00 Work" (2 # 1) H).
Defined.

(** ** X11: the list of all profiles *)

Section ForEach.
Context {A B : Type} (f : A -> result B).

Lemma for_each_Ok rows results :
  for_each f rows = Ok results <-> Forall2 (fun r b => f r = Ok b) rows results.
Proof.
  revert results. induction rows as [|r rest IH]; intros results; simpl.
  - split.
    + intros [= <-]. constructor.
    + intros H. now inversion H.
  - split.
    + destruct (f r) as [b|] eqn:Hb; [|discriminate]. simpl.
      destruct (for_each f rest) as [bs|] eqn:Hbs; [|discriminate]. simpl.
      intros [= <-]. constructor; [exact Hb | now apply IH].
    + intros H. inversion H as [|? b ? bs Hb Hbs]; subst.
      rewrite Hb. simpl. apply IH in Hbs. now rewrite Hbs.
Qed.

Lemma for_each_is_ok rows :
  is_ok (for_each f rows) = true <-> forall r, r ∈ rows -> is_ok (f r) = true.
Proof.
  induction rows as [|r rest IH]; simpl.
  - split; [|reflexivity]. intros _ r Hin. now apply elem_of_nil in Hin.
  - split.
    + destruct (f r) as [b|] eqn:Hb; [|discriminate]. simpl.
      destruct (for_each f rest) as [bs|] eqn:Hbs; [|discriminate].
      intros _ x Hin. apply elem_of_cons in Hin as [-> | Hin].
      * now rewrite Hb.
      * now apply IH.
    + intros Hall. destruct (f r) as [b|] eqn:Hb.
      * simpl. destruct (for_each f rest) as [bs|] eqn:Hbs; [reflexivity|].
        exfalso. assert (Hrest : is_ok (Raise (A := list B) e) = true)
          by (apply IH; intros x Hin; apply Hall; now right).
        discriminate.
      * specialize (Hall r (list_elem_of_here _ _)). now rewrite Hb in Hall.
Qed.
End ForEach.

(** X11.  [get_all_user_profiles] returns when every stored row decodes
    to a JSON object, and raises when one does not.  It then lists every
    row once, by creation time from the latest on, each as its decoded
    profile with [db_id], the two timestamps, and [is_active] true
    exactly when the flag of the row is not 0. *)
Theorem all_profiles_listed (loads : string -> option json) (s : db) :
  (is_ok (get_all_user_profiles loads s) = true <->
   forall r, r ∈ tbl_user_profiles s ->
             exists profile, loads (user_profiles.profile_data r) = Some (JObj profile)) /\
  (forall listed,
     get_all_user_profiles loads s = Ok listed ->
     length listed = length (tbl_user_profiles s) /\
     exists rows,
       rows ≡ₚ tbl_user_profiles s /\
       greatest_first user_profiles.created_at rows /\
       Forall2
         (fun r entry =>
            exists profile,
              loads (user_profiles.profile_data r) = Some (JObj profile) /\
              entry
              = <["is_active" := JBool (negb (user_profiles.is_active r =? 0)%Z)]>
                  (with_db_fields (user_profiles.id r) (user_profiles.created_at r)
                     (user_profiles.updated_at r) profile))
         rows listed).
Proof.
  assert (Hlisted : forall r entry,
    listed_profile loads r = Ok entry <->
    exists profile,
      loads (user_profiles.profile_data r) = Some (JObj profile) /\
      entry
      = <["is_active" := JBool (negb (user_profiles.is_active r =? 0)%Z)]>
          (with_db_fields (user_profiles.id r) (user_profiles.created_at r)
             (user_profiles.updated_at r) profile)).
  { intros r entry. unfold listed_profile, profile_of_row.
    destruct (loads (user_profiles.profile_data r)) as [[]|]; simpl;
      try (split; [discriminate | intros (? & ? & _); discriminate]).
    split.
    - intros [= <-]. eauto.
    - intros (profile & [= <-] & ->). reflexivity. }
  unfold get_all_user_profiles. split.
  - rewrite for_each_is_ok. split.
    + intros Hall r Hin.
      assert (Hin' : r ∈ order_by_desc user_profiles.created_at (tbl_user_profiles s))
        by now rewrite order_by_desc_perm.
      specialize (Hall r Hin').
      destruct (listed_profile loads r) as [entry|] eqn:He; [|discriminate].
      apply Hlisted in He as (profile & Hp & _). eauto.
    + intros Hall r Hin. rewrite order_by_desc_perm in Hin.
      destruct (Hall r Hin) as (profile & Hp).
      destruct (listed_profile loads r) as [entry|e] eqn:He; [reflexivity|].
      exfalso. revert He. unfold listed_profile, profile_of_row. now rewrite Hp.
  - intros listed Hok. apply for_each_Ok in Hok. split.
    + rewrite <- (Forall2_length _ _ _ Hok). apply order_by_desc_length.
    + exists (order_by_desc user_profiles.created_at (tbl_user_profiles s)).
      split; [apply order_by_desc_perm|]. split; [apply order_by_desc_sorted|].
      eapply Forall2_impl; [exact Hok|]. intros r entry. apply Hlisted.
Qed.

Lemma all_profiles_listed_witness :
  (forall r,
     r ∈ tbl_user_profiles
           (save_user_profile json_codec.dumps samples.noon samples.profile
              samples.fresh).1 ->
     exists profile,
       json_codec.loads (user_profiles.profile_data r) = Some (JObj profile)) /\
  is_ok (get_all_user_profiles json_codec.loads
           (save_user_profile json_codec.dumps samples.noon samples.profile
              samples.fresh).1) = true.
Proof.
  assert (H : forall r,
     r ∈ tbl_user_profiles
           (save_user_profile json_codec.dumps samples.noon samples.profile
              samples.fresh).1 ->
     exists profile,
       json_codec.loads (user_profiles.profile_data r) = Some (JObj profile)).
  { intros r Hin. apply list_elem_of_singleton in Hin as ->.
    exists samples.profile. vm_compute. reflexivity. }
  split; [exact H|].
  exact (proj2 (proj1 (all_profiles_listed json_codec.loads _)) H).
Defined.

End database_queries.

(* ===================================================================== *)
(** * Further properties of the configuration *)
(* ===================================================================== *)

Module ai_config_more.
Import ai_config conditions ai_config_proofs.

Lemma bind_Ok_inv {A B} (m : result A) (f : A -> result B) (b : B) :
  (m ≫= f) = Ok b -> exists a, m = Ok a /\ f a = Ok b.
Proof. destruct m as [a|e]; [eauto | discriminate]. Qed.

(** X12.  Whatever the profile, the model, the temperature and the token
    budget of a configuration are those of the catalog for the feature:
    two profiles differ in the system message at most. *)
Theorem profile_changes_the_message_only (feature : string)
    (one other : option (gmap string json)) (c1 c2 : config) :
  get_ai_config feature one = Ok c1 ->
  get_ai_config feature other = Ok c2 ->
  model c1 = model c2 /\ temperature c1 = temperature c2 /\
  max_tokens c1 = max_tokens c2 /\
  get_model feature = Ok (model c1) /\
  temperature c1 = get_temperature feature /\
  max_tokens c1 = get_max_tokens feature.
Proof.
  assert (H : forall p c, get_ai_config feature p = Ok c ->
    model c = dict_get MODELS feature "llama-3.1-8b-instant" /\
    temperature c = get_temperature feature /\
    max_tokens c = get_max_tokens feature).
  { intros [profile|] c Hc.
    - rewrite get_ai_config_Some in Hc.
      apply bind_Ok_inv in Hc as (base & _ & Hc).
      apply bind_Ok_inv in Hc as (message & _ & Hc).
      injection Hc as <-. repeat split.
    - destruct (get_ai_config_None feature) as (m & _ & Hn).
      rewrite Hn in Hc. injection Hc as <-. repeat split. }
  intros H1 H2. destruct (H _ _ H1) as (Hm1 & Ht1 & Hk1).
  destruct (H _ _ H2) as (Hm2 & Ht2 & Hk2).
  rewrite get_model_eq. repeat split; congruence.
Qed.

Lemma profile_changes_the_message_only_witness :
  exists c1 c2,
    get_ai_config "daily_planning" (Some samples.profile) = Ok c1 /\
    get_ai_config "daily_planning" None = Ok c2 /\
    model c1 = model c2 /\ temperature c1 = temperature c2 /\
    max_tokens c1 = max_tokens c2.
Proof.
  destruct (get_ai_config_usable "daily_planning" (Some samples.profile) eq_refl)
    as (d1 & _ & H1).
  destruct (get_ai_config_usable "daily_planning" None eq_refl) as (d2 & _ & H2).
  do 2 eexists. split; [exact H1|]. split; [exact H2|].
  destruct (profile_changes_the_message_only "daily_planning" _ _ _ _ H1 H2)
    as (Hm & Ht & Hk & _).
  split; [exact Hm|]. split; [exact Ht | exact Hk].
Defined.

(** X13.  [create_messages] returns the system message of the resolved
    configuration, then the turns of the history in their order, then the
    input as a user turn: two more messages than the history has; a
    missing history counts as an empty one.  It raises exactly when
    [get_ai_config] does. *)
Theorem messages_frame_the_history (feature user_input : string)
    (user_profile : option (gmap string json))
    (conversation_history : option (list message)) :
  let history := default [] conversation_history in
  (forall cfg,
     get_ai_config feature user_profile = Ok cfg ->
     create_messages feature user_input user_profile conversation_history
     = Ok (system_turn cfg :: history ++ [user_turn user_input])%list /\
     length (system_turn cfg :: history ++ [user_turn user_input])%list
     = S (S (length history))) /\
  (forall e,
     get_ai_config feature user_profile = Raise e ->
     create_messages feature user_input user_profile conversation_history = Raise e) /\
  (usable_profile feature user_profile = true ->
   is_ok (create_messages feature user_input user_profile conversation_history) = true).
Proof.
  intros history. subst history. split; [|split].
  - intros cfg Hc. unfold create_messages. rewrite Hc, bind_Ok. split.
    + destruct conversation_history as [[|turn rest]|]; reflexivity.
    + simpl. rewrite length_app. simpl. lia.
  - intros e He. unfold create_messages. now rewrite He.
  - intros Hu. destruct (get_ai_config_usable _ _ Hu) as (d & _ & Hc).
    unfold create_messages. now rewrite Hc.
Qed.

Lemma messages_frame_the_history_witness :
  usable_profile "daily_planning" (Some samples.profile) = true /\
  is_ok (create_messages "daily_planning" "I have 3 hours today"
           (Some samples.profile) None) = true.
Proof.
  split; [reflexivity|].
  exact (proj2 (proj2 (messages_frame_the_history "daily_planning"
                         "I have 3 hours today" (Some samples.profile) None)) eq_refl).
Defined.

(** X14.  [get_language_code] answers a code that [LANGUAGES] has, for
    every name that can be looked up, so that
    [get_language_instruction] then gives the directive of that very
    entry and never needs its own fallback; a list or a dict as name
    raises [TypeError]. *)
Theorem language_code_is_known (language_name : json) :
  (hashable language_name = true ->
   exists language_code entry,
     get_language_code language_name = Ok language_code /\
     LANGUAGES !! language_code = Some entry /\
     code entry = language_code /\
     get_language_instruction language_code = Ok (ai_instruction entry)) /\
  (hashable language_name = false ->
   get_language_code language_name = Raise TypeError).
Proof.
  assert (Hen : exists entry,
    LANGUAGES !! "en" = Some entry /\ code entry = "en" /\
    get_language_instruction "en" = Ok (ai_instruction entry))
    by (eexists; repeat split; reflexivity).
  destruct Hen as (en & Hen1 & Hen2 & Hen3).
  split.
  - intros Hh. destruct language_name; try discriminate;
      try (exists "en", en; repeat split; assumption).
    unfold get_language_code, dict_get.
    match goal with |- context [list_to_map ?l !! s] =>
      destruct (list_to_map l !! s) as [c|] eqn:Hc end.
    + apply elem_of_list_to_map_2 in Hc.
      rewrite !elem_of_cons, elem_of_nil in Hc.
      destruct Hc as [Hc|[Hc|[Hc|[Hc|[]]]]]; injection Hc as -> ->;
        eexists _, _; repeat split; reflexivity.
    + exists "en", en. repeat split; assumption.
  - intros Hh. now destruct language_name.
Qed.

Lemma language_code_is_known_witness :
  hashable (JStr "Deutsch") = true /\
  exists language_code entry,
    get_language_code (JStr "Deutsch") = Ok language_code /\
    LANGUAGES !! language_code = Some entry /\
    code entry = language_code /\
    get_language_instruction language_code = Ok (ai_instruction entry).
Proof.
  split; [reflexivity|].
  exact (proj1 (language_code_is_known (JStr "Deutsch")) eq_refl).
Defined.

(** X15.  The names that [show_onboarding] offers for the language are
    those of [LANGUAGES], and [get_language_code] takes each of them to
    the code of its entry, but for the Arabic one: [LANGUAGES] names it
    without the suffix that the mapping of [get_language_code] expects,
    and the code is [en]. *)
Theorem offered_language_names (language_code : string) (entry : language) :
  LANGUAGES !! language_code = Some entry ->
  name entry ∈ app.language_options /\
  get_language_code (JStr (name entry))
  = Ok (if String.eqb language_code "ar" then "en" else language_code).
Proof.
  intros He. split.
  - unfold app.language_options. apply list_elem_of_fmap.
    exists (language_code, entry). split; [reflexivity|].
    now apply elem_of_map_to_list.
  - unfold LANGUAGES in He. apply elem_of_list_to_map_2 in He.
    rewrite !elem_of_cons, elem_of_nil in He.
    destruct He as [He|[He|[He|[He|[]]]]]; injection He as -> ->; reflexivity.
Qed.

Lemma offered_language_names_witness :
  exists entry,
    LANGUAGES !! "ar" = Some entry /\
    name entry ∈ app.language_options /\
    get_language_code (JStr (name entry)) = Ok "en".
Proof.
  eexists. split; [reflexivity|].
  exact (offered_language_names "ar" _ eq_refl).
Defined.

(** X16.  [get_ui_string] never raises.  A key that is no UI key comes
    back as it is, in every language; an unknown language code gives what
    English gives; and every language of [LANGUAGES] has a string of its
    own table for every UI key. *)
Theorem ui_strings_complete (language_code key : string) :
  (exists t, get_ui_string language_code key = Ok t) /\
  (key ∉ ui_keys -> get_ui_string language_code key = Ok key) /\
  (LANGUAGES !! language_code = None ->
   get_ui_string language_code key = get_ui_string "en" key) /\
  (key ∈ ui_keys -> is_Some (LANGUAGES !! language_code) ->
   exists ui_strings t,
     UI_STRINGS !! language_code = Some ui_strings /\
     ui_strings !! key = Some t /\
     get_ui_string language_code key = Ok t).
Proof.
  assert (Hcases : exists ui_strings,
    get_ui_string language_code key = Ok (dict_get ui_strings key key) /\
    (key ∉ ui_keys -> ui_strings !! key = None) /\
    (key ∈ ui_keys -> is_Some (ui_strings !! key)) /\
    (is_Some (LANGUAGES !! language_code) -> UI_STRINGS !! language_code = Some ui_strings) /\
    (LANGUAGES !! language_code = None ->
     get_ui_string "en" key = Ok (dict_get ui_strings key key))).
  { assert (Hkeys : forall ui : list (string * string),
      ui.*1 = ui_keys ->
      (key ∉ ui_keys -> (list_to_map ui : gmap string string) !! key = None) /\
      (key ∈ ui_keys -> is_Some ((list_to_map ui : gmap string string) !! key))).
    { intros ui Hui. split; intros Hk.
      - apply not_elem_of_list_to_map. now rewrite Hui.
      - apply not_eq_None_Some. intros Hn.
        apply not_elem_of_list_to_map in Hn. now rewrite Hui in Hn. }
    unfold get_ui_string, dict_get.
    destruct (LANGUAGES !! language_code) as [entry|] eqn:He.
    - unfold LANGUAGES in He. apply elem_of_list_to_map_2 in He.
      rewrite !elem_of_cons, elem_of_nil in He.
      destruct He as [He|[He|[He|[He|[]]]]]; injection He as -> ->;
        (eexists; split; [reflexivity|]; split; [|split; [|split]];
         [ apply Hkeys; reflexivity | apply Hkeys; reflexivity
         | reflexivity | intros Hn; discriminate ]).
    - eexists. split; [|split; [|split; [|split]]].
      + reflexivity.
      + apply Hkeys. reflexivity.
      + apply Hkeys. reflexivity.
      + intros [? Hs]. discriminate.
      + reflexivity. }
  destruct Hcases as (ui & Hget & Hnone & Hsome & Htable & Hen).
  split; [eauto|]. split; [|split].
  - intros Hk. rewrite Hget. unfold dict_get. now rewrite (Hnone Hk).
  - intros Hl. now rewrite Hget, (Hen Hl).
  - intros Hk Hl. destruct (Hsome Hk) as (t & Ht).
    exists ui, t. split; [now apply Htable|]. split; [exact Ht|].
    rewrite Hget. unfold dict_get. now rewrite Ht.
Qed.

Lemma ui_strings_complete_witness :
  "settings" ∈ ui_keys /\ is_Some (LANGUAGES !! "de") /\
  exists ui_strings t,
    UI_STRINGS !! "de" = Some ui_strings /\
    ui_strings !! "settings" = Some t /\
    get_ui_string "de" "settings" = Ok t.
Proof.
  assert (Hk : "settings" ∈ ui_keys) by (unfold ui_keys; rewrite !elem_of_cons; tauto).
  assert (Hl : is_Some (LANGUAGES !! "de")) by (eexists; reflexivity).
  split; [exact Hk|]. split; [exact Hl|].
  exact (proj2 (proj2 (proj2 (ui_strings_complete "de" "settings"))) Hk Hl).
Defined.

End ai_config_more.

(* ===================================================================== *)
(** * Further properties of the generator *)
(* ===================================================================== *)

Module onboarding_more.
Import ai_config onboarding conditions onboarding_proofs.

(** ** Stripping and fences *)

Lemma no_backtick_app a b :
  no_backtick (a +:+ b) = no_backtick a && no_backtick b.
Proof.
  induction a as [|c a IH]; [reflexivity|].
  change (String c a +:+ b) with (String c (a +:+ b)). simpl.
  now rewrite IH, andb_assoc.
Qed.

(** No space has a backtick among its bytes. *)
Lemma isspace_no_backtick ch : isspace ch = true -> no_backtick ch = true.
Proof.
  unfold isspace. intros H. apply existsb_exists in H as (w & Hin & Heq).
  apply String.eqb_eq in Heq as ->.
  assert (Hall : forallb no_backtick space_characters = true)
    by (vm_compute; reflexivity).
  rewrite forallb_forall in Hall. now apply Hall.
Qed.

Lemma rstrip_cons c s :
  no_backtick (String c (rstrip s)) = false ->
  rstrip (String c s) = String c (rstrip s).
Proof.
  intros Hc. cbn [rstrip].
  destruct (isspace (String c (rstrip s))) eqn:E; [|reflexivity].
  apply isspace_no_backtick in E. congruence.
Qed.

Lemma rstrip_app a s :
  no_backtick (rstrip s) = false -> rstrip (a +:+ s) = a +:+ rstrip s.
Proof.
  intros Hs. induction a as [|c a IH]; [reflexivity|].
  change (String c a +:+ s) with (String c (a +:+ s)).
  change (String c a +:+ rstrip s) with (String c (a +:+ rstrip s)).
  rewrite rstrip_cons; rewrite IH; [reflexivity|].
  change (no_backtick (String c (a +:+ rstrip s)))
    with (negb (Ascii.eqb c "`"%char) && no_backtick (a +:+ rstrip s)).
  now rewrite no_backtick_app, Hs, !andb_false_r.
Qed.

Lemma lstrip_eq s :
  lstrip s
  = match s with
    | String a rest1 =>
        if isspace (String a "") then lstrip rest1
        else match rest1 with
             | String b rest2 =>
                 if isspace (String a (String b "")) then lstrip rest2
                 else match rest2 with
                      | String c rest3 =>
                          if isspace (String a (String b (String c "")))
                          then lstrip rest3 else s
                      | EmptyString => s
                      end
             | EmptyString => s
             end
    | EmptyString => EmptyString
    end.
Proof. destruct s; reflexivity. Qed.

Lemma no_backtick_lstrip s : no_backtick s = true -> no_backtick (lstrip s) = true.
Proof.
  remember (String.length s) as n eqn:Hn. revert s Hn.
  induction n as [n IH] using lt_wf_ind. intros s -> H.
  rewrite lstrip_eq. destruct s as [|a rest1]; [reflexivity|].
  pose proof H as H1. simpl in H1. apply andb_true_iff in H1 as [_ H1].
  destruct (isspace (String a "")).
  { apply (IH (String.length rest1)); [simpl; lia | reflexivity | exact H1]. }
  destruct rest1 as [|b rest2]; [exact H|].
  pose proof H1 as H2. simpl in H2. apply andb_true_iff in H2 as [_ H2].
  destruct (isspace (String a (String b ""))).
  { apply (IH (String.length rest2)); [simpl; lia | reflexivity | exact H2]. }
  destruct rest2 as [|c rest3]; [exact H|].
  pose proof H2 as H3. simpl in H3. apply andb_true_iff in H3 as [_ H3].
  destruct (isspace (String a (String b (String c "")))); [|exact H].
  apply (IH (String.length rest3)); [simpl; lia | reflexivity | exact H3].
Qed.

Lemma no_backtick_rstrip s : no_backtick s = true -> no_backtick (rstrip s) = true.
Proof.
  induction s as [|c s IH]; [reflexivity|]. intros H.
  simpl in H. apply andb_true_iff in H as [Hc H]. specialize (IH H).
  cbn [rstrip]. destruct (isspace (String c (rstrip s))); [reflexivity|].
  change (no_backtick (String c (rstrip s)))
    with (negb (Ascii.eqb c "`"%char) && no_backtick (rstrip s)).
  now rewrite Hc, IH.
Qed.

Lemma prefix_fence_cons c s :
  negb (Ascii.eqb c "`"%char) = true -> String.prefix "```" (String c s) = false.
Proof.
  intros Hc.
  change (String.prefix "```" (String c s))
    with (if ascii_dec "`"%char c then String.prefix "``" s else false).
  destruct (ascii_dec "`"%char c) as [<-|]; [discriminate | reflexivity].
Qed.

Lemma no_backtick_no_fence s :
  no_backtick s = true -> startswith s "```" = false.
Proof.
  destruct s as [|c s]; [reflexivity|]. intros H.
  simpl in H. apply andb_true_iff in H as [Hc _].
  now apply prefix_fence_cons.
Qed.

Lemma before_fence a t : no_backtick a = true -> before "```" (a +:+ "```" +:+ t) = a.
Proof.
  induction a as [|c a IH]; intros H.
  - destruct t; vm_compute; reflexivity.
  - simpl in H. apply andb_true_iff in H as [Hc H].
    change (String c a +:+ "```" +:+ t) with (String c (a +:+ "```" +:+ t)).
    change (before "```" (String c (a +:+ "```" +:+ t)))
      with (if String.prefix "```" (String c (a +:+ "```" +:+ t)) then ""
            else String c (before "```" (a +:+ "```" +:+ t))).
    rewrite (prefix_fence_cons _ _ Hc). now rewrite IH.
Qed.

(** The response between a fence with the [json] tag and the next
    fence. *)
Lemma rstrip_fence tail : rstrip ("```" +:+ tail) = "```" +:+ rstrip tail.
Proof.
  change ("```" +:+ tail) with (String "`" (String "`" (String "`" tail))).
  now rewrite !rstrip_cons by reflexivity.
Qed.

Lemma strip_fenced inner tail :
  strip ("```" +:+ inner +:+ "```" +:+ tail) = "```" +:+ inner +:+ "```" +:+ rstrip tail.
Proof.
  unfold strip.
  change (lstrip ("```" +:+ inner +:+ "```" +:+ tail))
    with ("```" +:+ inner +:+ "```" +:+ tail).
  rewrite rstrip_fence. f_equal.
  rewrite rstrip_app; rewrite rstrip_fence; reflexivity.
Qed.

(** What stands between an opening fence and the next one, without a
    leading [json] tag. *)
Lemma unwrap_fenced inner tail :
  no_backtick inner = true ->
  unwrap_content ("```" +:+ inner +:+ "```" +:+ tail)
  = strip (if startswith inner "json" then drop_chars 4 inner else inner).
Proof.
  intros Hi. unfold unwrap_content. rewrite strip_fenced.
  rewrite (startswith_append "```").
  change (drop_chars 3 ("```" +:+ inner +:+ "```" +:+ rstrip tail))
    with (inner +:+ "```" +:+ rstrip tail).
  now rewrite before_fence.
Qed.

Lemma unwrap_bare content :
  startswith (strip content) "```" = false -> unwrap_content content = strip content.
Proof. intros H. unfold unwrap_content. now rewrite H. Qed.

Lemma strip_no_backtick s : no_backtick s = true -> no_backtick (strip s) = true.
Proof. intros H. unfold strip. now apply no_backtick_rstrip, no_backtick_lstrip. Qed.

Section Generator.
Variable py_str : json -> string.
Variable loads : string -> option json.

(** The generator looks at the response through [unwrap_content] only. *)
Lemma generate_by_unwrapped now answers one other :
  unwrap_content one = unwrap_content other ->
  generate_user_profile py_str loads (fun _ => Returns one) now answers
  = generate_user_profile py_str loads (fun _ => Returns other) now answers.
Proof.
  intros H. unfold generate_user_profile, request_profile. cbv beta.
  now rewrite H.
Qed.

(** X17.  Of a response body without backticks the generator parses the
    stripped body, whether the response is the bare body or the body
    between a fence tagged [json] and the next fence; what follows the
    closing fence is ignored.  Between untagged fences it is the same,
    except that a body which itself starts with [json] loses these four
    characters first.  So the tagged response and the bare one give the
    same profile, and the untagged one too when the body does not start
    with [json]. *)
Theorem fences_are_peeled (now : string) (answers : gmap string json)
    (body tail : string) :
  no_backtick body = true ->
  unwrap_content body = strip body /\
  unwrap_content ("```json" +:+ body +:+ "```" +:+ tail) = strip body /\
  unwrap_content ("```" +:+ body +:+ "```" +:+ tail)
  = strip (if startswith body "json" then drop_chars 4 body else body) /\
  generate_user_profile py_str loads
    (fun _ => Returns ("```json" +:+ body +:+ "```" +:+ tail)) now answers
  = generate_user_profile py_str loads (fun _ => Returns body) now answers /\
  (startswith body "json" = false ->
   generate_user_profile py_str loads
     (fun _ => Returns ("```" +:+ body +:+ "```" +:+ tail)) now answers
   = generate_user_profile py_str loads (fun _ => Returns body) now answers).
Proof.
  intros Hb.
  assert (Hbare : unwrap_content body = strip body).
  { apply unwrap_bare, no_backtick_no_fence. now apply strip_no_backtick. }
  assert (Htag : unwrap_content ("```json" +:+ body +:+ "```" +:+ tail) = strip body).
  { change ("```json" +:+ body +:+ "```" +:+ tail)
      with ("```" +:+ ("json" +:+ body) +:+ "```" +:+ tail).
    rewrite unwrap_fenced by (rewrite no_backtick_app; exact Hb).
    now rewrite (startswith_append "json"). }
  pose proof (unwrap_fenced body tail Hb) as Hplain.
  split; [exact Hbare|]. split; [exact Htag|]. split; [exact Hplain|]. split.
  - apply generate_by_unwrapped. now rewrite Htag, Hbare.
  - intros Hn. apply generate_by_unwrapped. now rewrite Hplain, Hn, Hbare.
Qed.

End Generator.

Lemma fences_are_peeled_witness :
  no_backtick samples.padded_object = true /\
  strip samples.padded_object = "{}" /\
  generate_user_profile json_codec.str json_codec.loads
    (fun _ => Returns ("```json" +:+ samples.padded_object +:+ "```" +:+ "Done."))
    samples.noon samples.answers
  = generate_user_profile json_codec.str json_codec.loads
      (fun _ => Returns samples.padded_object) samples.noon samples.answers.
Proof.
  split; [reflexivity|]. split; [vm_compute; reflexivity|].
  exact (proj1 (proj2 (proj2 (proj2
           (fences_are_peeled json_codec.str json_codec.loads
              samples.noon samples.answers samples.padded_object "Done."
              eq_refl))))).
Defined.

End onboarding_more.

(* ===================================================================== *)
(** * Properties of the pages *)

Module app_proofs.
Import ai_config onboarding database app conditions.
Import onboarding_proofs database_proofs.

Lemma set_default_lookup key v session_state :
  set_default key v session_state !! key
  = Some (default v (session_state !! key)).
Proof.
  unfold set_default, contains.
  destruct (session_state !! key) as [w|] eqn:E.
  - rewrite bool_decide_eq_true_2 by eauto. now rewrite E.
  - rewrite bool_decide_eq_false_2 by (intros [? ?]; discriminate).
    apply lookup_insert_eq.
Qed.

Lemma set_default_lookup_ne key v session_state k :
  k <> key -> set_default key v session_state !! k = session_state !! k.
Proof.
  intros H. unfold set_default. destruct (contains session_state key); [reflexivity|].
  now rewrite lookup_insert_ne by congruence.
Qed.

Lemma set_default_keeps key v session_state k w :
  session_state !! k = Some w -> set_default key v session_state !! k = Some w.
Proof.
  intros H. destruct (decide (k = key)) as [->|Hk].
  - now rewrite set_default_lookup, H.
  - now rewrite set_default_lookup_ne.
Qed.

Lemma set_default_present key v session_state :
  is_Some (session_state !! key) -> set_default key v session_state = session_state.
Proof.
  intros H. unfold set_default, contains. now rewrite bool_decide_eq_true_2.
Qed.

Lemma init_session_state_keeps session_state k w :
  session_state !! k = Some w -> init_session_state session_state !! k = Some w.
Proof.
  intros H. unfold init_session_state. now do 5 apply set_default_keeps.
Qed.

Lemma init_session_state_lookup session_state k v :
  In (k, v) [("user_profile", JNull); ("onboarding_complete", JBool false);
             ("current_page", JStr "daily_planning"); ("language", JStr "en");
             ("show_plan_code", JBool false)] ->
  init_session_state session_state !! k = Some (default v (session_state !! k)).
Proof.
  unfold init_session_state. cbn [In].
  intros [H|[H|[H|[H|[H|[]]]]]]; inversion H; subst; clear H.
  - rewrite !set_default_lookup_ne by discriminate. apply set_default_lookup.
  - rewrite !set_default_lookup_ne by discriminate.
    rewrite set_default_lookup. now rewrite set_default_lookup_ne by discriminate.
  - rewrite !set_default_lookup_ne by discriminate.
    rewrite set_default_lookup. now rewrite !set_default_lookup_ne by discriminate.
  - rewrite !set_default_lookup_ne by discriminate.
    rewrite set_default_lookup. now rewrite !set_default_lookup_ne by discriminate.
  - rewrite set_default_lookup. now rewrite !set_default_lookup_ne by discriminate.
Qed.

(** X18.  [init_session_state] overwrites nothing: an entry that the
    session has is kept, a key other than its five is left as it was,
    its five keys are set afterwards, and a second call changes
    nothing. *)
Theorem session_defaults_fill_gaps_only (session_state : gmap string json) :
  (forall k v, session_state !! k = Some v ->
               init_session_state session_state !! k = Some v) /\
  (forall k, ~ In k session_keys ->
             init_session_state session_state !! k = session_state !! k) /\
  (forall k, In k session_keys ->
             is_Some (init_session_state session_state !! k)) /\
  init_session_state (init_session_state session_state)
  = init_session_state session_state.
Proof.
  assert (Hset : forall ss k, In k session_keys -> is_Some (init_session_state ss !! k)).
  { intros ss k. unfold session_keys. cbn [In].
    intros [<-|[<-|[<-|[<-|[<-|[]]]]]];
      erewrite init_session_state_lookup by (cbn [In]; eauto 10); eauto. }
  split; [exact (init_session_state_keeps session_state)|].
  split; [|split; [apply Hset|]].
  - intros k Hk. unfold init_session_state, session_keys in *. cbn [In] in Hk.
    rewrite !set_default_lookup_ne; [reflexivity|..]; intros ->; tauto.
  - set (t := init_session_state session_state).
    assert (Ht : forall k, In k session_keys -> is_Some (t !! k)) by apply Hset.
    unfold init_session_state.
    rewrite (set_default_present "user_profile") by (apply Ht; cbn; tauto).
    rewrite (set_default_present "onboarding_complete") by (apply Ht; cbn; tauto).
    rewrite (set_default_present "current_page") by (apply Ht; cbn; tauto).
    rewrite (set_default_present "language") by (apply Ht; cbn; tauto).
    now rewrite (set_default_present "show_plan_code") by (apply Ht; cbn; tauto).
Qed.

(** ** The entry point *)

Section Pages.
Variable py_str : json -> string.
Variable dumps : json -> string.
Variable loads : string -> option json.

(** A profile that was read from the store has its [db_id], so it is
    never the empty dict. *)
Lemma stored_profile_truthy s profile :
  get_active_user_profile loads s = Ok (Some profile) ->
  truthy (JObj profile) = true /\ is_Some (profile !! "db_id").
Proof.
  unfold get_active_user_profile.
  destruct (order_by_desc_limit_1 _ _) as [r|]; [|discriminate].
  unfold profile_of_row.
  destruct (loads (user_profiles.profile_data r)) as [[| | | | | |object]|];
    try discriminate.
  cbn. intros H. injection H as <-.
  assert (Hid : is_Some ((<["db_updated_at" := JStr (user_profiles.updated_at r)]>
             (<["db_created_at" := JStr (user_profiles.created_at r)]>
               (<["db_id" := JNum (user_profiles.id r)]> object)) : gmap string json)
             !! "db_id")).
  { rewrite !lookup_insert_ne by discriminate. rewrite lookup_insert_eq. eauto. }
  split; [|exact Hid].
  apply negb_true_iff, bool_decide_eq_false_2. intros E.
  rewrite E, lookup_empty in Hid. now destruct Hid.
Qed.

Lemma main_resumes now session_state s profile :
  truthy (dict_get session_state "user_profile" JNull) = false ->
  get_active_user_profile loads s = Ok (Some profile) ->
  language_code_is_text profile = true ->
  exists page,
    main loads now session_state (Some s)
    = Ok (page,
          <["onboarding_complete" := JBool true]>
            (<["user_profile" := JObj profile]> (init_session_state session_state)),
          init_database now (Some s)) /\
    page <> ShowOnboarding.
Proof.
  intros Hnone Hget Hlang.
  destruct (stored_profile_truthy _ _ Hget) as [Htruthy _].
  unfold main.
  assert (Hprofile : attribute (init_session_state session_state) "user_profile"
                     = Ok (dict_get session_state "user_profile" JNull)).
  { unfold attribute.
    rewrite (init_session_state_lookup _ "user_profile" JNull) by (cbn [In]; eauto).
    reflexivity. }
  rewrite Hprofile, bind_Ok, Hnone. cbn [negb].
  change (get_active_user_profile loads (init_database now (Some s)))
    with (get_active_user_profile loads s).
  rewrite Hget, bind_Ok, Htruthy, bind_Ok.
  set (ss := <["onboarding_complete" := JBool true]> _).
  assert (Hside : show_sidebar ss = Ok ()).
  { unfold show_sidebar, attribute, ss. rewrite lookup_insert_eq, bind_Ok. cbn [truthy].
    rewrite lookup_insert_ne by discriminate. rewrite lookup_insert_eq, bind_Ok.
    unfold language_code_is_text in Hlang.
    destruct (dict_get profile "language_code" (JStr "en")); try discriminate.
    reflexivity. }
  rewrite Hside, bind_Ok.
  assert (Hdone : attribute ss "onboarding_complete" = Ok (JBool true)).
  { unfold attribute, ss. now rewrite lookup_insert_eq. }
  rewrite Hdone, bind_Ok. cbn [truthy negb].
  assert (Hpage : exists v, attribute ss "current_page" = Ok v).
  { unfold attribute, ss. rewrite !lookup_insert_ne by discriminate.
    rewrite (init_session_state_lookup _ "current_page" (JStr "daily_planning"))
      by (cbn [In]; eauto). eauto. }
  destruct Hpage as (v & ->). rewrite bind_Ok.
  eexists. split; [reflexivity|].
  destruct v as [| | | |name| |]; try discriminate.
  destruct (String.eqb name "daily_planning"); [discriminate|].
  destruct (String.eqb name "weekly_review"); [discriminate|].
  destruct (String.eqb name "settings"); discriminate.
Qed.

(** X19.  In a session without a profile, [main] takes the active
    profile of the store, when its language code is a text, marks the
    onboarding as complete and hands over to a page other than the
    onboarding; the store is the one that [init_database] leaves. *)
Theorem main_resumes_the_stored_profile (now : string)
    (session_state : gmap string json) (s : db) (profile : gmap string json) :
  truthy (dict_get session_state "user_profile" JNull) = false ->
  get_active_user_profile loads s = Ok (Some profile) ->
  language_code_is_text profile = true ->
  exists page session_state',
    main loads now session_state (Some s)
    = Ok (page, session_state', init_database now (Some s)) /\
    page <> ShowOnboarding /\
    session_state' !! "user_profile" = Some (JObj profile) /\
    session_state' !! "onboarding_complete" = Some (JBool true) /\
    (forall k, k <> "user_profile" -> k <> "onboarding_complete" ->
               session_state' !! k = init_session_state session_state !! k).
Proof.
  intros Hnone Hget Hlang.
  destruct (main_resumes now _ _ _ Hnone Hget Hlang) as (page & Hmain & Hpage).
  eexists page, _. split; [exact Hmain|]. split; [exact Hpage|].
  split; [|split].
  - rewrite lookup_insert_ne by discriminate. apply lookup_insert_eq.
  - apply lookup_insert_eq.
  - intros k H1 H2. now rewrite !lookup_insert_ne by congruence.
Qed.

(** What [generate_user_profile] returns has a text as its language
    code. *)
Lemma generated_language_code create now answers profile :
  generate_user_profile py_str loads create now answers = Ok profile ->
  exists language_code, profile !! "language_code" = Some (JStr language_code).
Proof.
  unfold generate_user_profile.
  destruct (get_language_code _) as [code|] eqn:Hcode; [|discriminate].
  rewrite bind_Ok.
  destruct (get_language_instruction code) as [instruction|]; [|discriminate].
  rewrite bind_Ok.
  destruct (build_prompt _ _ _ _ _ _ _ _ _) as [prompt|]; [|discriminate].
  rewrite bind_Ok.
  assert (Hdefault : get_default_profile py_str now answers = Ok profile ->
            exists language_code, profile !! "language_code" = Some (JStr language_code)).
  { unfold get_default_profile. rewrite Hcode, bind_Ok.
    destruct (goals_text _ _) as [line|]; [|discriminate]. rewrite bind_Ok.
    intros H. injection H as <-. eexists. reflexivity. }
  destruct (request_profile _ _ _ _ _ _) as [content [made|e]] eqn:Hreq.
  - intros H. assert (made = profile) as -> by (destruct content; congruence).
    revert Hreq. unfold request_profile.
    destruct (get_model "onboarding"); [|discriminate].
    destruct (create _); [discriminate|].
    destruct (loads _) as [[| | | | | |object]|]; try discriminate.
    intros H'. injection H' as _ <-. eexists. apply lookup_insert_eq.
  - destruct content, e; try exact Hdefault; discriminate.
Qed.

(** How a press of the submit button ends, read off its outcome. *)
Lemma submit_cases create now saved_at answers session_state s :
  match saved_id (submit_onboarding py_str dumps loads create now saved_at answers
                    session_state s).1.1 with
  | None =>
      submit_onboarding py_str dumps loads create now saved_at answers session_state s
      = ((submit_onboarding py_str dumps loads create now saved_at answers
            session_state s).1.1, session_state, s)
  | Some user_id =>
      exists profile,
        truthy (dict_get answers "goals" JNull) = true /\
        generate_user_profile py_str loads create now answers = Ok profile /\
        validate_profile profile = true /\
        user_id = seq_user_profiles s + 1 /\
        submit_onboarding py_str dumps loads create now saved_at answers session_state s
        = ((submit_onboarding py_str dumps loads create now saved_at answers
              session_state s).1.1,
           <["onboarding_complete" := JBool true]>
             (<["user_profile" := JObj (<["db_id" := JNum user_id]> profile)]>
                session_state),
           (save_user_profile dumps saved_at profile s).1)
  end.
Proof.
  unfold submit_onboarding.
  destruct (truthy (dict_get answers "goals" JNull)) eqn:Hgoals; [|reflexivity].
  cbn [negb].
  destruct (generate_user_profile py_str loads create now answers)
    as [profile|e] eqn:Hgen; [|reflexivity].
  destruct (validate_profile profile) eqn:Hvalid; [|reflexivity].
  cbn [save_user_profile].
  destruct (joinable _); cbn [fst snd saved_id]; exists profile; auto.
Qed.

(** X20.  A press of the submit button writes to the store only when
    the goals are not empty and the generated profile passes
    validation: then one row is added under the next id, it is the one
    active profile, and the session holds the profile with that id and
    is marked complete.  Otherwise the session and the store are as
    they were. *)
Theorem submit_saves_valid_profiles_only (create : chat_request -> completion)
    (now saved_at : string) (answers session_state : gmap string json) (s : db) :
  let '(outcome, session_state', s') :=
    submit_onboarding py_str dumps loads create now saved_at answers session_state s in
  match saved_id outcome with
  | None => session_state' = session_state /\ s' = s
  | Some user_id =>
      exists profile,
        truthy (dict_get answers "goals" JNull) = true /\
        generate_user_profile py_str loads create now answers = Ok profile /\
        validate_profile profile = true /\
        user_id = seq_user_profiles s + 1 /\
        length (tbl_user_profiles s') = S (length (tbl_user_profiles s)) /\
        (user_profiles.profile_data <$> last (tbl_user_profiles s'))
        = Some (dumps (JObj profile)) /\
        active_profiles s' = 1%nat /\
        tbl_daily_plans s' = tbl_daily_plans s /\
        tbl_weekly_reviews s' = tbl_weekly_reviews s /\
        session_state' !! "user_profile"
        = Some (JObj (<["db_id" := JNum user_id]> profile)) /\
        session_state' !! "onboarding_complete" = Some (JBool true)
  end.
Proof.
  pose proof (submit_cases create now saved_at answers session_state s) as H.
  destruct (submit_onboarding py_str dumps loads create now saved_at answers
              session_state s) as [[outcome session_state'] s'].
  cbn [fst snd] in H. destruct (saved_id outcome) as [user_id|].
  - destruct H as (profile & Hgoals & Hgen & Hvalid & Hid & H).
    injection H as -> ->. exists profile.
    repeat (split; [assumption|]).
    split; [|split; [|split; [|split; [|split; [|split]]]]].
    + cbn [save_user_profile fst tbl_user_profiles].
      rewrite length_app, length_fmap. cbn [length]. lia.
    + cbn [save_user_profile fst tbl_user_profiles]. now rewrite last_snoc.
    + apply active_profiles_save.
    + reflexivity.
    + reflexivity.
    + rewrite lookup_insert_ne by discriminate. apply lookup_insert_eq.
    + apply lookup_insert_eq.
  - now injection H as -> ->.
Qed.

(** X21.  The button that asks for a new onboarding does not lead to
    one.  After a completed submit whose profile the store gives back
    as it was saved, clearing the session and running [main] again
    loads the stored profile, marks the onboarding as complete and
    hands over to a page other than the onboarding. *)
Theorem redo_onboarding_is_undone (create : chat_request -> completion)
    (now saved_at later : string) (answers session_state : gmap string json)
    (s : db) (user_id : Z) :
  (forall profile,
     generate_user_profile py_str loads create now answers = Ok profile ->
     loads (dumps (JObj profile)) = Some (JObj profile)) ->
  (submit_onboarding py_str dumps loads create now saved_at answers
     session_state s).1.1 = Completed user_id ->
  exists page session_state' generated,
    generate_user_profile py_str loads create now answers = Ok generated /\
    main loads later
      (redo_onboarding
         (submit_onboarding py_str dumps loads create now saved_at answers
            session_state s).1.2)
      (Some (submit_onboarding py_str dumps loads create now saved_at answers
               session_state s).2)
    = Ok (page, session_state',
          init_database later
            (Some (submit_onboarding py_str dumps loads create now saved_at answers
                     session_state s).2)) /\
    page <> ShowOnboarding /\
    session_state' !! "onboarding_complete" = Some (JBool true) /\
    session_state' !! "user_profile"
    = Some (JObj (with_db_fields user_id saved_at saved_at generated)).
Proof.
  intros Hrt Hdone.
  pose proof (submit_cases create now saved_at answers session_state s) as H.
  rewrite Hdone in H. cbn [saved_id] in H.
  destruct H as (profile & _ & Hgen & _ & Hid & ->). cbn [fst snd].
  destruct (generated_language_code _ _ _ _ Hgen) as (code & Hcode).
  edestruct (main_resumes later
               (redo_onboarding
                  (<["onboarding_complete" := JBool true]>
                     (<["user_profile" := JObj (<["db_id" := JNum user_id]> profile)]>
                        session_state)))
               (save_user_profile dumps saved_at profile s).1
               (with_db_fields user_id saved_at saved_at profile))
    as (page & Hmain & Hpage).
  - unfold redo_onboarding, dict_get. now rewrite lookup_insert_eq.
  - rewrite get_active_after_save.
    rewrite (profile_of_row_round_trip dumps loads _ _ _ (Hrt _ Hgen)).
    rewrite bind_Ok. now rewrite Hid.
  - unfold language_code_is_text, with_db_fields, dict_get.
    rewrite !lookup_insert_ne by discriminate. now rewrite Hcode.
  - exists page. eexists. exists profile.
    split; [exact Hgen|]. split; [exact Hmain|]. split; [exact Hpage|].
    split; [apply lookup_insert_eq|].
    rewrite lookup_insert_ne by discriminate. apply lookup_insert_eq.
Qed.

Lemma forallb_take {A} (f : A -> bool) n (l : list A) :
  forallb f l = true -> forallb f (take n l) = true.
Proof.
  revert n. induction l as [|a l IH]; intros [|n] H; try reflexivity.
  simpl in *. apply andb_true_iff in H as [-> H]. now rewrite IH.
Qed.

(** The focus areas of the default profile can be joined for the
    preview. *)
Lemma default_focus_joinable now answers default :
  usable_answers answers = true ->
  get_default_profile py_str now answers = Ok default ->
  joinable (dict_get default "key_focus_areas" (JList [])) = true.
Proof.
  intros Husable. unfold get_default_profile.
  destruct (get_language_code _) as [code|]; [|discriminate]. rewrite bind_Ok.
  destruct (goals_text _ _) as [line|]; [|discriminate]. rewrite bind_Ok.
  intros H. injection H as <-.
  match goal with |- joinable ?d = true =>
    change d with (match dict_get answers "goals" (JList []) with
                   | JList items => JList (take 3 items)
                   | _ => generic_focus_areas
                   end)
  end.
  unfold usable_answers in Husable. apply andb_true_iff in Husable as [_ Hgoals].
  destruct (dict_get answers "goals" (JList [])); try reflexivity.
  cbn [joinable]. now apply forallb_take.
Qed.

(** X22.  A service that fails does not stop the onboarding, but for
    one way of failing.  For usable answers with goals, when the
    completion call raises anything other than [JSONDecodeError], or
    returns no JSON object, the submit completes with the default
    profile, stored under the next id.  When the call itself raises
    [JSONDecodeError], the handler reads the unbound [content]:
    [UnboundLocalError] leaves the generator and the submit, and nothing
    is stored. *)
Theorem submit_survives_a_failing_service (create : chat_request -> completion)
    (now saved_at : string) (answers session_state : gmap string json) (s : db) :
  usable_answers answers = true ->
  truthy (dict_get answers "goals" JNull) = true ->
  ((forall request,
      gives_object loads (create request) = false /\
      create request <> Raises JSONDecodeError) ->
   exists default,
     get_default_profile py_str now answers = Ok default /\
     submit_onboarding py_str dumps loads create now saved_at answers session_state s
     = (Completed (seq_user_profiles s + 1),
        <["onboarding_complete" := JBool true]>
          (<["user_profile" :=
               JObj (<["db_id" := JNum (seq_user_profiles s + 1)]> default)]>
             session_state),
        (save_user_profile dumps saved_at default s).1)) /\
  ((forall request, create request = Raises JSONDecodeError) ->
   submit_onboarding py_str dumps loads create now saved_at answers session_state s
   = (GenerationRaised UnboundLocalError, session_state, s)).
Proof.
  intros Husable Hgoals.
  destruct (generate_user_profile_eq py_str loads create now answers Husable)
    as (code & request & _ & _ & Hgen).
  split.
  - intros Hfails.
    destruct (get_default_profile_usable py_str now answers Husable)
      as (default & Hdefault & Hvalid).
    exists default. split; [exact Hdefault|].
    assert (Hgen' : generate_user_profile py_str loads create now answers = Ok default).
    { rewrite Hgen. destruct (Hfails request) as [Hno Hne].
      unfold gives_object in Hno.
      destruct (create request) as [e|content].
      - destruct e; try exact Hdefault. contradiction.
      - destruct (loads (unwrap_content content)) as [[| | | | | |object]|];
          try discriminate; exact Hdefault. }
    unfold submit_onboarding. rewrite Hgoals, Hgen', Hvalid.
    cbn [negb save_user_profile].
    assert (Hjoin : joinable (dict_get (<["db_id" := JNum (seq_user_profiles s + 1)]> default)
                                "key_focus_areas" (JList [])) = true).
    { unfold dict_get. rewrite lookup_insert_ne by discriminate.
      exact (default_focus_joinable now answers default Husable Hdefault). }
    now rewrite Hjoin.
  - intros Hraise. unfold submit_onboarding.
    rewrite Hgoals, Hgen, Hraise. reflexivity.
Qed.

(** X23.  Of a response that is a JSON object the submit checks the
    keys only.  With one of the five fields missing the outcome is a
    rejection and nothing is stored.  With all five the profile is
    stored and the session marked complete whatever the values are;
    focus areas that cannot be joined raise in the preview after
    that. *)
Theorem submit_checks_keys_only (create : chat_request -> completion)
    (now saved_at : string) (answers session_state : gmap string json) (s : db)
    (content : string) (object : gmap string json) :
  usable_answers answers = true ->
  truthy (dict_get answers "goals" JNull) = true ->
  (forall request, create request = Returns content) ->
  loads (unwrap_content content) = Some (JObj object) ->
  exists language_code,
    get_language_code (dict_get answers "language" (JStr "English"))
    = Ok language_code /\
    submit_onboarding py_str dumps loads create now saved_at answers session_state s
    = if forallb (contains object) generated_fields then
        (if joinable (dict_get object "key_focus_areas" (JList []))
         then Completed (seq_user_profiles s + 1)
         else PreviewRaised (seq_user_profiles s + 1),
         <["onboarding_complete" := JBool true]>
           (<["user_profile" :=
                JObj (<["db_id" := JNum (seq_user_profiles s + 1)]>
                        (with_metadata now language_code answers object))]>
              session_state),
         (save_user_profile dumps saved_at
            (with_metadata now language_code answers object) s).1)
      else (Rejected, session_state, s).
Proof.
  intros Husable Hgoals Hcreate Hloads.
  destruct (generate_user_profile_usable py_str loads create now answers Husable)
    as (code & prompt & Hcode & Hgen).
  destruct (request_profile_eq loads create now answers code prompt)
    as (request & _ & _ & _ & Hreq).
  rewrite Hreq, Hcreate, Hloads in Hgen.
  exists code. split; [exact Hcode|].
  unfold submit_onboarding. rewrite Hgoals, Hgen. cbn [negb].
  rewrite validate_with_metadata. fold generated_fields.
  destruct (forallb (contains object) generated_fields); [|reflexivity].
  cbn [save_user_profile].
  assert (Hfocus : dict_get (<["db_id" := JNum (seq_user_profiles s + 1)]>
                               (with_metadata now code answers object))
                     "key_focus_areas" (JList [])
                   = dict_get object "key_focus_areas" (JList [])).
  { unfold dict_get, with_metadata. now rewrite !lookup_insert_ne by discriminate. }
  rewrite Hfocus. now destruct (joinable _).
Qed.

End Pages.

(** ** Instances *)

Lemma main_resumes_the_stored_profile_witness :
  truthy (dict_get (∅ : gmap string json) "user_profile" JNull) = false /\
  get_active_user_profile json_codec.loads
    (save_user_profile json_codec.dumps samples.noon samples.profile samples.fresh).1
  = Ok (Some (with_db_fields 1 samples.noon samples.noon samples.profile)) /\
  language_code_is_text (with_db_fields 1 samples.noon samples.noon samples.profile)
  = true /\
  exists page session_state',
    main json_codec.loads samples.evening ∅
      (Some (save_user_profile json_codec.dumps samples.noon samples.profile
               samples.fresh).1)
    = Ok (page, session_state',
          init_database samples.evening
            (Some (save_user_profile json_codec.dumps samples.noon samples.profile
                     samples.fresh).1)) /\
    page <> ShowOnboarding /\
    session_state' !! "user_profile"
    = Some (JObj (with_db_fields 1 samples.noon samples.noon samples.profile)) /\
    session_state' !! "onboarding_complete" = Some (JBool true) /\
    (forall k, k <> "user_profile" -> k <> "onboarding_complete" ->
               session_state' !! k = init_session_state ∅ !! k).
Proof.
  assert (H1 : truthy (dict_get (∅ : gmap string json) "user_profile" JNull) = false)
    by reflexivity.
  assert (H2 : get_active_user_profile json_codec.loads
                 (save_user_profile json_codec.dumps samples.noon samples.profile
                    samples.fresh).1
               = Ok (Some (with_db_fields 1 samples.noon samples.noon samples.profile))).
  { assert (Hrt : json_codec.loads (json_codec.dumps (JObj samples.profile))
                  = Some (JObj samples.profile)) by (vm_compute; reflexivity).
    rewrite get_active_after_save.
    now rewrite (profile_of_row_round_trip json_codec.dumps json_codec.loads _ _ _ Hrt). }
  assert (H3 : language_code_is_text
                 (with_db_fields 1 samples.noon samples.noon samples.profile) = true)
    by (vm_compute; reflexivity).
  split; [exact H1|]. split; [exact H2|]. split; [exact H3|].
  exact (main_resumes_the_stored_profile json_codec.loads samples.evening ∅ _ _
           H1 H2 H3).
Defined.

Lemma submit_survives_a_failing_service_witness :
  usable_answers samples.answers = true /\
  truthy (dict_get samples.answers "goals" JNull) = true /\
  (forall request,
     gives_object json_codec.loads (samples.out_of_service request) = false /\
     samples.out_of_service request <> Raises JSONDecodeError) /\
  exists default,
    get_default_profile json_codec.str samples.noon samples.answers = Ok default /\
    submit_onboarding json_codec.str json_codec.dumps json_codec.loads
      samples.out_of_service samples.noon samples.evening samples.answers
      ∅ samples.fresh
    = (Completed (seq_user_profiles samples.fresh + 1),
       <["onboarding_complete" := JBool true]>
         (<["user_profile" :=
              JObj (<["db_id" := JNum (seq_user_profiles samples.fresh + 1)]> default)]>
            ∅),
       (save_user_profile json_codec.dumps samples.evening default samples.fresh).1).
Proof.
  assert (H1 : usable_answers samples.answers = true) by (vm_compute; reflexivity).
  assert (H2 : truthy (dict_get samples.answers "goals" JNull) = true)
    by (vm_compute; reflexivity).
  assert (H3 : forall request : chat_request,
            gives_object json_codec.loads (samples.out_of_service request) = false /\
            samples.out_of_service request <> Raises JSONDecodeError)
    by (intros request; split; [reflexivity | discriminate]).
  split; [exact H1|]. split; [exact H2|]. split; [exact H3|].
  exact (proj1 (submit_survives_a_failing_service json_codec.str json_codec.dumps
                  json_codec.loads samples.out_of_service samples.noon
                  samples.evening samples.answers ∅ samples.fresh H1 H2) H3).
Defined.

Lemma submit_checks_keys_only_witness :
  usable_answers samples.answers = true /\
  truthy (dict_get samples.answers "goals" JNull) = true /\
  (forall request : chat_request,
     samples.incomplete_service request
     = Returns samples.incomplete_response) /\
  json_codec.loads (unwrap_content samples.incomplete_response)
  = Some (JObj samples.incomplete_object) /\
  forallb (contains samples.incomplete_object) generated_fields = false /\
  exists language_code,
    get_language_code (dict_get samples.answers "language" (JStr "English"))
    = Ok language_code /\
    submit_onboarding json_codec.str json_codec.dumps json_codec.loads
      samples.incomplete_service samples.noon samples.evening
      samples.answers ∅ samples.fresh
    = if forallb (contains samples.incomplete_object) generated_fields then
        (if joinable (dict_get samples.incomplete_object "key_focus_areas" (JList []))
         then Completed (seq_user_profiles samples.fresh + 1)
         else PreviewRaised (seq_user_profiles samples.fresh + 1),
         <["onboarding_complete" := JBool true]>
           (<["user_profile" :=
                JObj (<["db_id" := JNum (seq_user_profiles samples.fresh + 1)]>
                        (with_metadata samples.noon language_code samples.answers
                           samples.incomplete_object))]>
              ∅),
         (save_user_profile json_codec.dumps samples.evening
            (with_metadata samples.noon language_code samples.answers
               samples.incomplete_object) samples.fresh).1)
      else (Rejected, ∅, samples.fresh).
Proof.
  assert (H1 : usable_answers samples.answers = true) by (vm_compute; reflexivity).
  assert (H2 : truthy (dict_get samples.answers "goals" JNull) = true)
    by (vm_compute; reflexivity).
  assert (H3 : forall request : chat_request,
            samples.incomplete_service request
            = Returns samples.incomplete_response) by reflexivity.
  assert (H4 : json_codec.loads (unwrap_content samples.incomplete_response)
               = Some (JObj samples.incomplete_object)) by (vm_compute; reflexivity).
  split; [exact H1|]. split; [exact H2|]. split; [exact H3|]. split; [exact H4|].
  split; [vm_compute; reflexivity|].
  exact (submit_checks_keys_only json_codec.str json_codec.dumps json_codec.loads
           samples.incomplete_service samples.noon samples.evening
           samples.answers ∅ samples.fresh samples.incomplete_response
           samples.incomplete_object H1 H2 H3 H4).
Defined.

Lemma redo_onboarding_is_undone_witness :
  (forall profile,
     generate_user_profile json_codec.str json_codec.loads
       samples.out_of_service samples.noon samples.answers = Ok profile ->
     json_codec.loads (json_codec.dumps (JObj profile)) = Some (JObj profile)) /\
  (submit_onboarding json_codec.str json_codec.dumps json_codec.loads
     samples.out_of_service samples.noon samples.noon samples.answers
     ∅ samples.fresh).1.1 = Completed 1 /\
  exists page session_state' generated,
    generate_user_profile json_codec.str json_codec.loads
      samples.out_of_service samples.noon samples.answers = Ok generated /\
    main json_codec.loads samples.evening
      (redo_onboarding
         (submit_onboarding json_codec.str json_codec.dumps json_codec.loads
            samples.out_of_service samples.noon samples.noon samples.answers
            ∅ samples.fresh).1.2)
      (Some (submit_onboarding json_codec.str json_codec.dumps json_codec.loads
               samples.out_of_service samples.noon samples.noon
               samples.answers ∅ samples.fresh).2)
    = Ok (page, session_state',
          init_database samples.evening
            (Some (submit_onboarding json_codec.str json_codec.dumps json_codec.loads
                     samples.out_of_service samples.noon samples.noon
                     samples.answers ∅ samples.fresh).2)) /\
    page <> ShowOnboarding /\
    session_state' !! "onboarding_complete" = Some (JBool true) /\
    session_state' !! "user_profile"
    = Some (JObj (with_db_fields 1 samples.noon samples.noon generated)).
Proof.
  assert (H1 : forall profile,
            generate_user_profile json_codec.str json_codec.loads
              samples.out_of_service samples.noon samples.answers
            = Ok profile ->
            json_codec.loads (json_codec.dumps (JObj profile)) = Some (JObj profile)).
  { assert (G : match generate_user_profile json_codec.str json_codec.loads
                         samples.out_of_service samples.noon samples.answers with
                 | Ok profile =>
                     json_codec.loads (json_codec.dumps (JObj profile))
                     = Some (JObj profile)
                 | Raise _ => True
                 end) by (vm_compute; reflexivity).
    intros profile H. now rewrite H in G. }
  assert (H2 : (submit_onboarding json_codec.str json_codec.dumps json_codec.loads
                  samples.out_of_service samples.noon samples.noon
                  samples.answers ∅ samples.fresh).1.1 = Completed 1)
    by (vm_compute; reflexivity).
  split; [exact H1|]. split; [exact H2|].
  exact (redo_onboarding_is_undone json_codec.str json_codec.dumps json_codec.loads
           samples.out_of_service samples.noon samples.noon samples.evening
           samples.answers ∅ samples.fresh 1 H1 H2).
Defined.

End app_proofs.
